(** * picker_tool: a shallow embedding of the picker GUI's geometry,
      selection and XML persistence logic.

    Sources embedded here:
    - [picker_enums.py]      : [PickerToolEnums]
    - [picker_gui_utils.py]  : [GraphicsView] (pointer presses, selection
                               merge), [GraphicsPixmap], [GraphicsButton]
    - [picker_gui.py]        : [PickerWindow] (XML export / import, custom
                               shape sampling, z-order, align, mirror,
                               update / delete)

    Modelling conventions.
    - Python floats are modelled by exact rationals ([Q]); equality of
      computed coordinates is therefore stated with [==].
    - Python objects that are shared and mutated (graphics items of a scene)
      live in a per-scene object store indexed by identity.
    - Exceptions are explicit: a pure computation returns [Ok] or [Err];
      a stateful one returns, next to that, the state it reached, so that
      what was mutated before an exception stays mutated.
    - [print] appends to the [console] field of the window; the file
      system is the [disk] field.
    - Dialogs are not modelled: what the user chose is an argument. *)

From Stdlib Require Import ZArith QArith Qround Qabs Qpower String Ascii List Lia Lqa Bool.
From stdpp Require Import base option list gmap sets strings.
Import ListNotations.

#[local] Open Scope Z_scope.

(* ===================================================================== *)
(** * Python exceptions and results                                        *)
(* ===================================================================== *)

Inductive exn : Set :=
| ZeroDivisionError
| FileNotFoundError
| ParseError
| KeyError
| ValueError
| AttributeError
| UnboundLocalError
| TypeError.

(** A pure computation that may raise. *)
Inductive res (A : Type) : Type :=
| Ok (a : A)
| Err (e : exn).
Arguments Ok {A} a.
Arguments Err {A} e.

Definition res_bind {A B} (r : res A) (k : A -> res B) : res B :=
  match r with
  | Ok a => k a
  | Err e => Err e
  end.

Notation "'let?' x ':=' r 'in' k" := (res_bind r (fun x => k))
  (at level 10, x pattern, r at level 100, k at level 200).

(** [for x in xs: acc = body(acc, x)], stopping at the first exception. *)
Fixpoint res_fold {A B} (body : B -> A -> res B) (xs : list A) (acc : B) : res B :=
  match xs with
  | [] => Ok acc
  | x :: xs' => let? acc' := body acc x in res_fold body xs' acc'
  end.

Fixpoint res_map {A B} (f : A -> res B) (xs : list A) : res (list B) :=
  match xs with
  | [] => Ok []
  | x :: xs' => let? y := f x in let? ys := res_map f xs' in Ok (y :: ys)
  end.

(* ===================================================================== *)
(** * picker_enums.py                                                       *)
(* ===================================================================== *)

Module PickerToolEnums.

Definition EXPORT_BTN_ATTRS : list string :=
  ["brush_col"; "text"; "pos"; "set_rect"; "sel_objs"; "curr_shape"; "curr_coords"]%string.
Definition EXPORT_IMG_ATTRS : list string := ["pos"; "filepath"]%string.

Definition XML_BTN_CATEGORY : string := "SHAPES".
Definition XML_IMG_CATEGORY : string := "IMAGES".
Definition XML_IMG_PREFIX : string := "image".
Definition XML_BTN_PREFIX : string := "shape".

Definition SHAPES : list string := ["Rounded Rect"; "Rect"; "Custom"]%string.
Definition SHAPE_ROUNDED : string := "Rounded Rect".
Definition SHAPE_RECT : string := "Rect".
Definition SHAPE_CUSTOM : string := "Custom".

Definition MINIMUM_SIZE : Q := 25.

Definition CONFIG_FOLDER : string := "config".
Definition LOST_IMAGE : string := "lost_image.png".

Definition MIRROR_WORLD : string := "World".
Definition MIRROR_REF : string := "Ref Shape".
Definition MIRROR_DUPLICATE : string := "Duplicate".
Definition MIRROR_EXISTING : string := "Use Existing".

(** [PRECISIONS_DICT]: the step of the curve sampling. *)
Inductive Precision : Set := Simple | Medium | Exact.
Definition PRECISIONS_DICT (p : Precision) : Q :=
  match p with
  | Simple => 1 # 10
  | Medium => 5 # 100
  | Exact => 1 # 100
  end.

End PickerToolEnums.

(* ===================================================================== *)
(** * Number formatting and parsing ([%d], [%.2f], [format(x, ".3f")],
      [int], [float])                                                       *)
(* ===================================================================== *)

Module PyNum.

Definition digit_char (d : Z) : ascii := ascii_of_N (Z.to_N (48 + d)).

Definition char_digit (c : ascii) : option Z :=
  let n := Z.of_N (N_of_ascii c) in
  if (48 <=? n) && (n <=? 57) then Some (n - 48) else None.

(** The decimal digits of [n], most significant first, in front of [acc].
    [fuel] bounds the number of digits. *)
Fixpoint dec_digits (fuel : nat) (n : Z) (acc : string) : string :=
  match fuel with
  | O => acc
  | S fuel' =>
      let acc' := String (digit_char (n mod 10)) acc in
      if n / 10 =? 0 then acc' else dec_digits fuel' (n / 10) acc'
  end.

(** Decimal representation of a non-negative integer. *)
Definition str_of_nonneg (n : Z) : string :=
  dec_digits (S (Z.to_nat (Z.log2 n))) n EmptyString.

(** ["%d" % n] and ["%i" % n]. *)
Definition format_d (n : Z) : string :=
  if n <? 0 then String "-" (str_of_nonneg (- n)) else str_of_nonneg n.

(** ["%02d" % n]: zero padded on the left to a width of two. *)
Definition format_02d (n : Z) : string :=
  let s := format_d n in
  if (String.length s <? 2)%nat then String "0" s else s.

(** Exactly [k] decimal digits of [n], zero padded. *)
Fixpoint fixed_digits (k : nat) (n : Z) : string :=
  match k with
  | O => EmptyString
  | S k' => fixed_digits k' (n / 10) +:+ String (digit_char (n mod 10)) EmptyString
  end.

(** Rounding to the nearest integer, ties to even: the rounding of the
    C library's [printf], which Python's float formatting follows. *)
Definition round_half_even (q : Q) : Z :=
  let f := Qfloor q in
  match (q - inject_Z f ?= 1 # 2)%Q with
  | Lt => f
  | Gt => f + 1
  | Eq => if Z.even f then f else f + 1
  end.

Definition pow10 (k : nat) : Z := 10 ^ Z.of_nat k.

(** ["%.kf" % q] for [k > 0]: sign, integer part, point, [k] digits.
    A negative number keeps its sign even when it rounds to zero. *)
Definition format_f (k : nat) (q : Q) : string :=
  let m := Z.abs (round_half_even (q * inject_Z (pow10 k))) in
  (if Qlt_le_dec q 0 then String "-" EmptyString else EmptyString)
    +:+ str_of_nonneg (m / pow10 k)
    +:+ String "." (fixed_digits k (m mod pow10 k)).

(** Reading a run of decimal digits, most significant first. *)
Fixpoint parse_digits (s : string) (acc : Z) : option Z :=
  match s with
  | EmptyString => Some acc
  | String c s' =>
      match char_digit c with
      | Some d => parse_digits s' (10 * acc + d)
      | None => None
      end
  end.

(** Cuts a string at its first point. *)
Fixpoint split_point (s : string) : string * option string :=
  match s with
  | EmptyString => (EmptyString, None)
  | String c s' =>
      if Ascii.eqb c "." then (EmptyString, Some s')
      else let '(a, b) := split_point s' in (String c a, b)
  end.

Definition strip_sign (s : string) : bool * string :=
  match s with
  | String c s' =>
      if Ascii.eqb c "-" then (true, s')
      else if Ascii.eqb c "+" then (false, s')
      else (false, s)
  | EmptyString => (false, s)
  end.

Definition is_empty (s : string) : bool :=
  match s with EmptyString => true | _ => false end.

(** [int(s)] on plain decimal literals: an optional sign and at least one
    digit.  Anything else is a [ValueError]. *)
Definition py_int (s : string) : res Z :=
  let '(neg, body) := strip_sign s in
  if is_empty body then Err ValueError
  else match parse_digits body 0 with
       | Some n => Ok (if neg then - n else n)
       | None => Err ValueError
       end.

(** [float(s)] on plain decimal literals: an optional sign, digits, and
    optionally a point followed by digits, with a digit on at least one
    side of the point.  These are the literals [format_f] and [format_d]
    produce; exponents, [inf], [nan], blanks and underscores are outside
    the fragment and rejected like malformed text. *)
Definition py_float (s : string) : res Q :=
  let '(neg, body) := strip_sign s in
  let '(ip, fp) := split_point body in
  let frac := match fp with Some f => f | None => EmptyString end in
  if is_empty ip && is_empty frac then Err ValueError
  else match parse_digits ip 0, parse_digits frac 0 with
       | Some a, Some b =>
           let v := (inject_Z (a * pow10 (String.length frac) + b)
                     / inject_Z (pow10 (String.length frac)))%Q in
           Ok (if neg then (- v)%Q else v)
       | _, _ => Err ValueError
       end.

(** The value a number has after it went through [format_f k]. *)
Definition quantize (k : nat) (q : Q) : Q :=
  (inject_Z (round_half_even (q * inject_Z (pow10 k))) / inject_Z (pow10 k))%Q.

(** [reads s k v]: the string [s] is a run of [k] digits of value [v]. *)
Definition reads (s : string) (k : nat) (v : Z) : Prop :=
  forall rest acc,
    parse_digits (s +:+ rest) acc = parse_digits rest (acc * pow10 k + v).

(** Strings made of decimal digits only. *)
Fixpoint all_digits (s : string) : bool :=
  match s with
  | EmptyString => true
  | String c s' => match char_digit c with Some _ => all_digits s' | None => false end
  end.

End PyNum.


(* ===================================================================== *)
(** * The Qt values the tool manipulates                                    *)
(* ===================================================================== *)

Module Qt.

(** [QPointF]. *)
Record QPointF : Type := mkPoint { px : Q; py : Q }.

(** [QRect(x, y, width, height)]: an integer rectangle. *)
Record QRect : Set := mkRect { rx : Z; ry : Z; width : Z; height : Z }.

(** A [QRect] is false in a Python condition exactly when it is null,
    that is when both its width and its height are 0. *)
Definition rect_truthy (r : QRect) : bool :=
  negb ((width r =? 0) && (height r =? 0)).

(** The red, green and blue channels of a [QColor], as [getRgb] gives them. *)
Record QColor : Set := mkColor { red : Z; green : Z; blue : Z }.

(** [QPolygonF(rect)]: the closed outline of a rectangle, clockwise from
    the top left corner and back to it. *)
Definition polygon_of_rect (r : QRect) : list QPointF :=
  let x0 := inject_Z (rx r) in
  let y0 := inject_Z (ry r) in
  let x1 := inject_Z (rx r + width r) in
  let y1 := inject_Z (ry r + height r) in
  [mkPoint x0 y0; mkPoint x1 y0; mkPoint x1 y1; mkPoint x0 y1; mkPoint x0 y0].

(** Keyboard modifiers ([Qt.KeyboardModifier] flags) and mouse buttons. *)
Definition NoModifier : Z := 0.
Definition ShiftModifier : Z := 0x02000000.
Definition ControlModifier : Z := 0x04000000.
Definition AltModifier : Z := 0x08000000.
Definition MetaModifier : Z := 0x10000000.

Inductive MouseButton : Set := LeftButton | RightButton | MiddleButton | OtherButton.

End Qt.
Import Qt.

(* ===================================================================== *)
(** * picker_gui_utils.py: GraphicsPixmap and GraphicsButton               *)
(* ===================================================================== *)

(** The state every [QGraphicsItem] carries. *)
Record ItemBase : Type := mkBase {
  pos : QPointF;
  zValue : Q;
  selected : bool;
  selectable : bool;
  movable : bool
}.

Definition base0 : ItemBase := mkBase (mkPoint 0 0) 0 false false false.

Definition base_setPos (p : QPointF) (b : ItemBase) : ItemBase :=
  mkBase p (zValue b) (selected b) (selectable b) (movable b).
Definition base_setZValue (z : Q) (b : ItemBase) : ItemBase :=
  mkBase (pos b) z (selected b) (selectable b) (movable b).
Definition base_setSelected (s : bool) (b : ItemBase) : ItemBase :=
  mkBase (pos b) (zValue b) s (selectable b) (movable b).
Definition base_setFlags (sel mov : bool) (b : ItemBase) : ItemBase :=
  mkBase (pos b) (zValue b) (selected b) sel mov.

Record GraphicsPixmap : Type := mkPixmap {
  pm_base : ItemBase;
  good_img : bool;
  file_path : string
}.

Module GraphicsPixmapM.
(** [GraphicsPixmap.__init__(image, good_img)]. *)
Definition init (image : string) (good : bool) : GraphicsPixmap :=
  mkPixmap (base_setFlags true true base0) good image.
End GraphicsPixmapM.

Record GraphicsButton : Type := mkButton {
  base : ItemBase;
  sel_objs : list string;
  brush_col : QColor;
  pen_col : QColor;
  brush_hl : QColor;
  pen_hl : QColor;
  brush : QColor;
  pen : QColor;
  text : string;
  set_rect : QRect;
  curr_shape : string;
  curr_coords : list (Q * Q);
  set_polygon : list QPointF
}.

(** The keyword arguments [GraphicsButton.__init__] reads with [setdefault]. *)
Record ButtonKwargs : Type := mkKwargs {
  kw_brush_col : option QColor;
  kw_text : option string;
  kw_set_rect : option QRect;
  kw_curr_shape : option string;
  kw_curr_coords : option (list (Q * Q));
  kw_set_polygon : option (list QPointF)
}.

Definition no_kwargs : ButtonKwargs := mkKwargs None None None None None None.

Module GraphicsButtonM.
Import PickerToolEnums.

Definition with_base (f : ItemBase -> ItemBase) (b : GraphicsButton) : GraphicsButton :=
  mkButton (f (base b)) (sel_objs b) (brush_col b) (pen_col b) (brush_hl b) (pen_hl b)
           (brush b) (pen b) (text b) (set_rect b) (curr_shape b) (curr_coords b)
           (set_polygon b).
Definition with_set_rect (r : QRect) (b : GraphicsButton) : GraphicsButton :=
  mkButton (base b) (sel_objs b) (brush_col b) (pen_col b) (brush_hl b) (pen_hl b)
           (brush b) (pen b) (text b) r (curr_shape b) (curr_coords b)
           (set_polygon b).
Definition with_curr_shape (s : string) (b : GraphicsButton) : GraphicsButton :=
  mkButton (base b) (sel_objs b) (brush_col b) (pen_col b) (brush_hl b) (pen_hl b)
           (brush b) (pen b) (text b) (set_rect b) s (curr_coords b)
           (set_polygon b).
Definition with_polygon (cs : list (Q * Q)) (poly : list QPointF)
    (b : GraphicsButton) : GraphicsButton :=
  mkButton (base b) (sel_objs b) (brush_col b) (pen_col b) (brush_hl b) (pen_hl b)
           (brush b) (pen b) (text b) (set_rect b) (curr_shape b) cs poly.
Definition with_text (t : string) (b : GraphicsButton) : GraphicsButton :=
  mkButton (base b) (sel_objs b) (brush_col b) (pen_col b) (brush_hl b) (pen_hl b)
           (brush b) (pen b) t (set_rect b) (curr_shape b) (curr_coords b)
           (set_polygon b).
Definition with_brushes (bc br pn : QColor) (b : GraphicsButton) : GraphicsButton :=
  mkButton (base b) (sel_objs b) bc (pen_col b) (brush_hl b) (pen_hl b)
           br pn (text b) (set_rect b) (curr_shape b) (curr_coords b)
           (set_polygon b).
Definition with_sel_objs (l : list string) (b : GraphicsButton) : GraphicsButton :=
  mkButton (base b) l (brush_col b) (pen_col b) (brush_hl b) (pen_hl b)
           (brush b) (pen b) (text b) (set_rect b) (curr_shape b) (curr_coords b)
           (set_polygon b).

Definition default_coords : list (Q * Q) :=
  [(0, 0); (MINIMUM_SIZE, 0); (MINIMUM_SIZE, MINIMUM_SIZE); (0, MINIMUM_SIZE)]%Q.

(** [GraphicsButton.__init__(main, sel_list, **kwargs)]. *)
Definition init (main : bool) (sel_list : list string) (kw : ButtonKwargs)
    : GraphicsButton :=
  let bc := default (mkColor 0 0 0) (kw_brush_col kw) in
  let cs := default default_coords (kw_curr_coords kw) in
  let default_polygon := map (fun c => mkPoint (fst c) (snd c)) cs in
  mkButton (if main then base_setFlags true true base0 else base0)
           sel_list
           bc (mkColor 10 10 10) (mkColor 255 255 255) (mkColor 80 150 60)
           bc (mkColor 10 10 10)
           (default EmptyString (kw_text kw))
           (default (mkRect 0 0 5 5) (kw_set_rect kw))
           (default SHAPE_ROUNDED (kw_curr_shape kw))
           cs
           (default default_polygon (kw_set_polygon kw)).

(** [boundingRect]. *)
Definition boundingRect (b : GraphicsButton) : QRect := set_rect b.

(** The scaling step of [update_polygon]. *)
Definition scale_coords (r : QRect) (cs : list (Q * Q)) : list QPointF :=
  let scale_width_factor := (inject_Z (width r) / MINIMUM_SIZE)%Q in
  let scale_height_factor := (inject_Z (height r) / MINIMUM_SIZE)%Q in
  map (fun c => mkPoint (fst c * scale_width_factor) (snd c * scale_height_factor))%Q cs.

Definition is_nil {A} (l : list A) : bool :=
  match l with [] => true | _ => false end.

(** [update_polygon(new_polygon_coords=None)]. *)
Definition update_polygon (new_polygon_coords : option (list (Q * Q)))
    (b : GraphicsButton) : GraphicsButton :=
  if negb (String.eqb (curr_shape b) SHAPE_CUSTOM) then
    with_polygon (curr_coords b) (polygon_of_rect (set_rect b)) b
  else
    let rescale coords := with_polygon coords (scale_coords (set_rect b) coords) b in
    match new_polygon_coords with
    | Some (c :: cs) => rescale (c :: cs)
    | _ =>
        (* no coordinates passed: fall back on the stored ones, if any *)
        if is_nil (curr_coords b) then b else rescale (curr_coords b)
    end.

(** [update_curr_shape(new_shape)]. *)
Definition update_curr_shape (new_shape : string) (b : GraphicsButton)
    : GraphicsButton :=
  if PyNum.is_empty new_shape then b
  else update_polygon None (with_curr_shape new_shape b).

(** [update_bounding_rect(new_rect=None)]. *)
Definition update_bounding_rect (new_rect : option QRect) (b : GraphicsButton)
    : GraphicsButton :=
  match new_rect with
  | None => b
  | Some r =>
      if negb (rect_truthy r) then b
      else update_polygon None (with_set_rect r b)
  end.

(** [update_text(text=None)]. *)
Definition update_text (t : option string) (b : GraphicsButton) : GraphicsButton :=
  match t with
  | None => b
  | Some t => with_text t b
  end.

(** [update_brush_color(color=None)]. *)
Definition update_brush_color (c : option QColor) (b : GraphicsButton)
    : GraphicsButton :=
  match c with
  | None => b
  | Some c => with_brushes c c (pen b) b
  end.

(** [update_sel_list(new_sel=None)]. *)
Definition update_sel_list (new_sel : list string) (b : GraphicsButton)
    : GraphicsButton :=
  if is_nil new_sel then b else with_sel_objs new_sel b.

(** [highlight_button(hl=False)]. *)
Definition highlight_button (hl : bool) (b : GraphicsButton) : GraphicsButton :=
  if hl then with_brushes (brush_col b) (brush_hl b) (pen_hl b) b
  else with_brushes (brush_col b) (brush_col b) (pen_col b) b.

End GraphicsButtonM.

(** A graphics item of a scene is a button or an image. *)
Inductive Item : Type :=
| Button (b : GraphicsButton)
| Pixmap (p : GraphicsPixmap).

Definition item_base (it : Item) : ItemBase :=
  match it with
  | Button b => base b
  | Pixmap p => pm_base p
  end.

Definition item_with_base (f : ItemBase -> ItemBase) (it : Item) : Item :=
  match it with
  | Button b => Button (GraphicsButtonM.with_base f b)
  | Pixmap p => Pixmap (mkPixmap (f (pm_base p)) (good_img p) (file_path p))
  end.

(* ===================================================================== *)
(** * State and exceptions                                                  *)
(* ===================================================================== *)

(** A computation over a state [S]: it returns a value or raises, and in
    both cases leaves the state it reached. *)
Definition M (S A : Type) : Type := S -> res A * S.

Definition ret {S A} (a : A) : M S A := fun s => (Ok a, s).
Definition raise {S A} (e : exn) : M S A := fun s => (Err e, s).
Definition bind {S A B} (m : M S A) (k : A -> M S B) : M S B :=
  fun s => match m s with
           | (Ok a, s') => k a s'
           | (Err e, s') => (Err e, s')
           end.
Definition get {S} : M S S := fun s => (Ok s, s).
Definition put {S} (s : S) : M S unit := fun _ => (Ok tt, s).
Definition modify {S} (f : S -> S) : M S unit := fun s => (Ok tt, f s).
Definition lift {S A} (r : res A) : M S A := fun s => (r, s).

Notation "'let*' x ':=' m 'in' k" := (bind m (fun x => k))
  (at level 10, x pattern, m at level 100, k at level 200).

(** [for x in xs: body(x)]. *)
Fixpoint for_each {S A} (body : A -> M S unit) (xs : list A) : M S unit :=
  match xs with
  | [] => ret tt
  | x :: xs' => let* _ := body x in for_each body xs'
  end.

(* ===================================================================== *)
(** * picker_gui_utils.py: GraphicsScene                                    *)
(* ===================================================================== *)

(** A scene owns graphics items.  Items are Python objects: they are kept
    in a store under their identity, so that the scene's item list, the
    selection and [ref_item] all refer to the same mutable object.
    [members] lists the identities of the items currently in the scene, in
    the order they were added. *)
Record GraphicsScene : Type := mkScene {
  objs : gmap nat Item;
  members : list nat;
  ref_item : option nat;
  next_id : nat
}.

Module GraphicsSceneM.

Definition empty : GraphicsScene := mkScene ∅ [] None 0.

Definition with_objs (o : gmap nat Item) (sc : GraphicsScene) : GraphicsScene :=
  mkScene o (members sc) (ref_item sc) (next_id sc).
Definition with_ref (r : option nat) (sc : GraphicsScene) : GraphicsScene :=
  mkScene (objs sc) (members sc) r (next_id sc).

(** Inserting an identity in front of those that are not above it: one
    step of sorting by descending z-value. *)
Fixpoint insert_by_z (o : gmap nat Item) (z : Q) (i : nat) (l : list nat) : list nat :=
  match l with
  | [] => [i]
  | j :: l' =>
      match o !! j with
      | Some it =>
          if Qle_bool (zValue (item_base it)) z then i :: l
          else j :: insert_by_z o z i l'
      | None => j :: insert_by_z o z i l'
      end
  end.

(** [items()]: the items in descending stacking order, that is by
    descending z-value, and among equal z-values the one added last
    first. *)
Definition items (sc : GraphicsScene) : list nat :=
  fold_left (fun acc i =>
               match objs sc !! i with
               | Some it => insert_by_z (objs sc) (zValue (item_base it)) i acc
               | None => acc
               end)
            (members sc) [].

Definition is_selected (sc : GraphicsScene) (i : nat) : bool :=
  match objs sc !! i with
  | Some it => selected (item_base it)
  | None => false
  end.

(** [selectedItems()]. *)
Definition selectedItems (sc : GraphicsScene) : list nat :=
  filter (fun i => is_selected sc i = true) (members sc).

(** [addItem(item)]: the new object gets a fresh identity. *)
Definition addItem (it : Item) : M GraphicsScene nat :=
  fun sc =>
    let i := next_id sc in
    (Ok i, mkScene (<[i := it]> (objs sc)) (members sc ++ [i]) (ref_item sc) (S i)).

(** [removeItem(item)]: the object leaves the scene; references to it
    (such as [ref_item]) stay valid. *)
Definition removeItem (i : nat) : M GraphicsScene unit :=
  modify (fun sc =>
    mkScene (objs sc) (filter (fun j => j <> i) (members sc)) (ref_item sc) (next_id sc)).

(** A method call that mutates the object [i] in place. *)
Definition mutate (i : nat) (f : Item -> Item) : M GraphicsScene unit :=
  modify (fun sc => with_objs (alter f i (objs sc)) sc).

(** [clearSelection()]. *)
Definition clearSelection : M GraphicsScene unit :=
  modify (fun sc =>
    with_objs (item_with_base (base_setSelected false) <$> objs sc) sc).

End GraphicsSceneM.

(* ===================================================================== *)
(** * picker_gui_utils.py: GraphicsView, pointer presses and selection     *)
(* ===================================================================== *)

(** What a mouse event tells the view.  [under] is the item Qt's hit test
    ([itemAt]) finds at the pointer position, if any. *)
Record MouseEvent : Type := mkEvent {
  button : MouseButton;
  modifiers : Z;
  ev_pos : Z * Z;
  under : option nat
}.

(** The attributes of a [GraphicsView] that drive selection.  [mode] is
    only assigned by the first pointer press, hence the option.  The items
    of [old_sel_items] are item identities, or [None] where the code stored
    Python's [None] (a click on empty canvas). *)
Record GraphicsView : Type := mkView {
  mode : option string;
  drag : option bool;
  old_sel_items : list (option nat);
  initial_mouse_pos : option (Z * Z)
}.

Module GraphicsViewM.

Definition init : GraphicsView := mkView None None [] None.

(** [getItemAtClick(event)]: the item under the pointer unless it is a
    pixmap. *)
Definition getItemAtClick (sc : GraphicsScene) (e : MouseEvent) : option nat :=
  match under e with
  | Some i =>
      match objs sc !! i with
      | Some (Pixmap _) => None
      | _ => Some i
      end
  | None => None
  end.

Definition set_mode (m : string) (v : GraphicsView) : GraphicsView :=
  mkView (Some m) (drag v) (old_sel_items v) (initial_mouse_pos v).
Definition set_drag (d : bool) (v : GraphicsView) : GraphicsView :=
  mkView (mode v) (Some d) (old_sel_items v) (initial_mouse_pos v).
Definition set_old_sel_items (l : list (option nat)) (v : GraphicsView) : GraphicsView :=
  mkView (mode v) (drag v) l (initial_mouse_pos v).

(** [leftMouseButtonPress(event)]. *)
Definition leftMouseButtonPress (sc : GraphicsScene) (e : MouseEvent)
    (v : GraphicsView) : GraphicsView :=
  let v := set_mode "replace" v in
  match getItemAtClick sc e with
  | Some _ => set_drag true v
  | None => set_drag false v
  end.

(** [shift_left_click(event)]. *)
Definition shift_left_click (e : MouseEvent) (v : GraphicsView) : GraphicsView :=
  set_mode "toggle" v.

(** [ctrl_click(event)]. *)
Definition ctrl_click (e : MouseEvent) (v : GraphicsView) : GraphicsView :=
  set_mode "subtract" v.

(** [ctrl_shift_left_click(event)]. *)
Definition ctrl_shift_left_click (e : MouseEvent) (v : GraphicsView) : GraphicsView :=
  set_mode "add" v.

Definition is_left (b : MouseButton) : bool :=
  match b with LeftButton => true | _ => false end.

(** [mousePressEvent(event)].  The middle button only changes Qt's drag
    mode, and the base class handler only Qt's own state; neither touches
    the attributes modelled here. *)
Definition mousePressEvent (sc : GraphicsScene) (e : MouseEvent)
    (v : GraphicsView) : GraphicsView :=
  let v := mkView (mode v) (Some false) (old_sel_items v) (Some (ev_pos e)) in
  if is_left (button e)
     && (modifiers e =? Z.lor ShiftModifier ControlModifier) then
    ctrl_shift_left_click e v
  else if is_left (button e) && (modifiers e =? ShiftModifier) then
    shift_left_click e v
  else if is_left (button e) && (modifiers e =? ControlModifier) then
    ctrl_click e v
  else if is_left (button e) then
    leftMouseButtonPress sc e v
  else v.

(** Python's [set(l)] and [list(s)]. *)
Definition py_set (l : list (option nat)) : gset (option nat) := list_to_set l.
Definition py_list (s : gset (option nat)) : list (option nat) := elements s.

Definition truthy (d : option bool) : bool := default false d.

(** [evaluate_temp_items(changed_items)].  Reading [self.mode] before any
    press assigned it is an [AttributeError]. *)
Definition evaluate_temp_items (changed_items : list (option nat))
    (v : GraphicsView) : res GraphicsView :=
  match mode v with
  | None => Err AttributeError
  | Some m =>
      if String.eqb m "replace" then
        let old := if truthy (drag v) then old_sel_items v else [] in
        Ok (set_old_sel_items (py_list (py_set old ∪ py_set changed_items)) v)
      else if String.eqb m "toggle" then
        let add_items :=
          filter (fun item => item ∉ old_sel_items v) changed_items in
        let subtract_items :=
          filter (fun item => item ∈ old_sel_items v) changed_items in
        let old1 := py_list (py_set (old_sel_items v) ∪ py_set add_items) in
        Ok (set_old_sel_items (py_list (py_set old1 ∖ py_set subtract_items)) v)
      else if String.eqb m "subtract" then
        Ok (set_old_sel_items
              (py_list (py_set (old_sel_items v) ∖ py_set changed_items)) v)
      else if String.eqb m "add" then
        Ok (set_old_sel_items
              (py_list (py_set (old_sel_items v) ∪ py_set changed_items)) v)
      else Ok v
  end.

(** [select_items()]: the scene's selection follows [old_sel_items]. *)
Definition select_items (v : GraphicsView) : M GraphicsScene unit :=
  modify (fun sc =>
    GraphicsSceneM.with_objs
      (fold_left (fun o i =>
                    alter (item_with_base
                             (base_setSelected (bool_decide (Some i ∈ old_sel_items v)))) i o)
                 (GraphicsSceneM.items sc) (objs sc))
      sc).

End GraphicsViewM.

(* ===================================================================== *)
(** * XML documents and the file system                                     *)
(* ===================================================================== *)

(** An element: its tag, its attributes in the order they were set, and its
    child elements. *)
#[warnings="-register-all"] Inductive Element : Type :=
| Elem (tag : string) (attrib : list (string * string)) (children : list Element).

Definition tag_of (e : Element) : string := match e with Elem t _ _ => t end.
Definition attrib_of (e : Element) : list (string * string) :=
  match e with Elem _ a _ => a end.
(** [getchildren()]. *)
Definition getchildren (e : Element) : list Element :=
  match e with Elem _ _ c => c end.

(** [element.attrib[key]]. *)
Fixpoint attrib_get (key : string) (a : list (string * string)) : res string :=
  match a with
  | [] => Err KeyError
  | (k, v) :: a' => if String.eqb k key then Ok v else attrib_get key a'
  end.

Module Xml.

Definition code (c : ascii) : Z := Z.of_N (N_of_ascii c).

Definition is_letter (c : ascii) : bool :=
  ((65 <=? code c) && (code c <=? 90)) || ((97 <=? code c) && (code c <=? 122)).
Definition is_digit (c : ascii) : bool := (48 <=? code c) && (code c <=? 57).

(** The characters an XML name may start with, and continue with.  Only
    ASCII names are recognised here, which is narrower than the parser: a
    tag with a character outside ASCII counts as no name.  The colon is
    left out: the parser reads it as the end of a namespace prefix, and no
    prefix is ever declared in a document the export writes. *)
Definition name_start_char (c : ascii) : bool :=
  is_letter c || Ascii.eqb c "_".
Definition name_char (c : ascii) : bool :=
  name_start_char c || is_digit c || Ascii.eqb c "-" || Ascii.eqb c ".".

Fixpoint all_name_chars (s : string) : bool :=
  match s with
  | EmptyString => true
  | String c s' => name_char c && all_name_chars s'
  end.

Definition name_ok (s : string) : bool :=
  match s with
  | EmptyString => false
  | String c s' => name_start_char c && all_name_chars s'
  end.

(** Tab, line feed and carriage return: the control characters a document
    may contain. *)
Definition is_line_char (c : ascii) : bool :=
  (code c =? 9) || (code c =? 10) || (code c =? 13).

(** The characters a document may contain: no control character but those
    three.  Bytes from 128 on stand for text outside ASCII and pass. *)
Definition char_ok (c : ascii) : bool := (32 <=? code c) || is_line_char c.

Fixpoint text_ok (s : string) : bool :=
  match s with
  | EmptyString => true
  | String c s' => char_ok c && text_ok s'
  end.

(** What the parser returns for an attribute value: a carriage return
    followed by a line feed has become one blank, and every other tab,
    line feed and carriage return a blank of its own.  [after_cr] tells
    that the character before was a carriage return. *)
Fixpoint normalize_from (after_cr : bool) (s : string) : string :=
  match s with
  | EmptyString => EmptyString
  | String c s' =>
      if after_cr && (code c =? 10) then normalize_from false s'
      else String (if is_line_char c then " "%char else c)
                  (normalize_from (code c =? 13) s')
  end.

Definition normalize_attr (s : string) : string := normalize_from false s.

Definition attr_ok (kv : string * string) : bool := name_ok (fst kv) && text_ok (snd kv).

(** A document can be read back only if every tag and every attribute key
    in it is a name and every attribute value is made of characters a
    document may contain: [minidom] writes whatever tag and value it was
    given, escaping only the markup characters of the values, and the
    parser rejects a start tag that is not a name and a control character
    wherever it stands. *)
Fixpoint well_formed (e : Element) : bool :=
  match e with
  | Elem t a cs => name_ok t && forallb attr_ok a && forallb well_formed cs
  end.

(** The tree the parser builds from the document written for [e]: the same
    elements, with the attribute values normalised.  [minidom] writes tab,
    line feed and carriage return inside a value as they are, and the
    parser normalises them away. *)
Fixpoint parsed (e : Element) : Element :=
  match e with
  | Elem t a cs =>
      Elem t (map (fun kv => (fst kv, normalize_attr (snd kv))) a) (map parsed cs)
  end.

End Xml.

(** What a path of the file system holds: an XML document, written as the
    tree that was handed to the writer, or something that is not XML (an
    image). *)
Inductive FileContent : Type :=
| XmlFile (root : Element)
| OtherFile.

(** [os.path.join(a, b)] for a relative [b]. *)
Fixpoint ends_with_slash (s : string) : bool :=
  match s with
  | EmptyString => false
  | String c EmptyString => Ascii.eqb c "/"
  | String _ s' => ends_with_slash s'
  end.

Definition path_join (a b : string) : string :=
  if PyNum.is_empty a || ends_with_slash a then a +:+ b
  else a +:+ String "/" b.

(** [sep.join(parts)]. *)
Fixpoint str_join (sep : string) (parts : list string) : string :=
  match parts with
  | [] => EmptyString
  | [x] => x
  | x :: rest => x +:+ sep +:+ str_join sep rest
  end.

(** [s.split(", ")]: [cur] is the piece being read, reversed. *)
Fixpoint split_comma_space (s : string) (cur : list ascii) : list string :=
  match s with
  | EmptyString => [string_of_list_ascii (rev cur)]
  | String c s' =>
      match s' with
      | String c' s'' =>
          if Ascii.eqb c "," && Ascii.eqb c' " " then
            string_of_list_ascii (rev cur) :: split_comma_space s'' []
          else split_comma_space s' (c :: cur)
      | EmptyString => split_comma_space s' (c :: cur)
      end
  end.

(** [list(filter(None, s.split(", ")))]. *)
Definition split_names (s : string) : list string :=
  filter (fun x => PyNum.is_empty x = false) (split_comma_space s []).

(* ===================================================================== *)
(** * picker_gui.py: PickerWindow                                           *)
(* ===================================================================== *)

(** [MirrorSettingsDialog]: the widgets [mirror_sel_btns] reads. *)
Record MirrorSettings : Type := mkMirror {
  x_rdbtn : bool;
  y_rdbtn : bool;
  mirror_on_combo : string;
  type_combo : string
}.

(** The window, with the part of its environment it reads and writes: the
    console ([print]) and the file system.  [tabs] holds, per tab index,
    the tab's text and its scene ([tab_widget] and [tabs_dict]);
    [curr_scene] designates one of them. *)
Record PickerWindow : Type := mkWindow {
  edit_mode : bool;
  tabs : list (string * GraphicsScene);
  curr_scene : option nat;
  mirror_settings : MirrorSettings;
  pp_item : GraphicsButton;
  shape_precision : PickerToolEnums.Precision;
  working_dir : string;
  console : list string;
  disk : gmap string FileContent
}.

(** The host application, as far as the tool queries it: the selected
    objects of a node type, and the position of a curve at a parameter. *)
Record Host : Type := mkHost {
  ls_selection : list string;
  pointOnCurve : string -> Q -> Q * Q * Q
}.

Module PickerWindowM.
Import PickerToolEnums GraphicsButtonM GraphicsSceneM.

Definition with_tabs (t : list (string * GraphicsScene)) (w : PickerWindow)
    : PickerWindow :=
  mkWindow (edit_mode w) t (curr_scene w) (mirror_settings w) (pp_item w)
           (shape_precision w) (working_dir w) (console w) (disk w).
Definition with_curr_scene (c : option nat) (w : PickerWindow) : PickerWindow :=
  mkWindow (edit_mode w) (tabs w) c (mirror_settings w) (pp_item w)
           (shape_precision w) (working_dir w) (console w) (disk w).
Definition with_pp_item (b : GraphicsButton) (w : PickerWindow) : PickerWindow :=
  mkWindow (edit_mode w) (tabs w) (curr_scene w) (mirror_settings w) b
           (shape_precision w) (working_dir w) (console w) (disk w).
Definition with_console (c : list string) (w : PickerWindow) : PickerWindow :=
  mkWindow (edit_mode w) (tabs w) (curr_scene w) (mirror_settings w) (pp_item w)
           (shape_precision w) (working_dir w) c (disk w).
Definition with_disk (d : gmap string FileContent) (w : PickerWindow) : PickerWindow :=
  mkWindow (edit_mode w) (tabs w) (curr_scene w) (mirror_settings w) (pp_item w)
           (shape_precision w) (working_dir w) (console w) d.

(** [print(msg)]. *)
Definition print (msg : string) : M PickerWindow unit :=
  modify (fun w => with_console (console w ++ [msg]) w).

(** Running a scene computation on the scene of tab [idx]
    ([self.tabs_dict[idx]]). *)
Definition on_scene {A} (idx : nat) (m : M GraphicsScene A) : M PickerWindow A :=
  fun w =>
    match tabs w !! idx with
    | None => (Err KeyError, w)
    | Some (name, sc) =>
        let '(r, sc') := m sc in
        (r, with_tabs (<[idx := (name, sc')]> (tabs w)) w)
    end.

(** Running a scene computation on [self.curr_scene]. *)
Definition on_curr_scene {A} (m : M GraphicsScene A) : M PickerWindow A :=
  fun w =>
    match curr_scene w with
    | None => (Err AttributeError, w)
    | Some idx => on_scene idx m w
    end.

(** ** Centers *)

Definition half (n : Z) : Q := inject_Z n / 2.

(** [get_center(item=None)].  Only buttons have a [set_rect]. *)
Definition get_center (item : option Item) : res (option QPointF) :=
  match item with
  | None => Ok None
  | Some (Pixmap _) => Err AttributeError
  | Some (Button b) =>
      let rect := set_rect b in
      let item_pos := pos (base b) in
      let x_dist := half (width rect) in
      let y_dist := half (height rect) in
      let x_center := px item_pos + x_dist in
      let y_center := py item_pos + y_dist in
      Ok (Some (mkPoint x_center y_center))
  end%Q.

(** [convert_from_center(center=None, item=None)]. *)
Definition convert_from_center (center : option QPointF) (item : option Item)
    : res (option QPointF) :=
  match center, item with
  | None, _ => Ok None
  | _, None => Ok None
  | Some _, Some (Pixmap _) => Err AttributeError
  | Some c, Some (Button b) =>
      let rect := set_rect b in
      let x_dist := half (width rect) in
      let y_dist := half (height rect) in
      let x_new := px c - x_dist in
      let y_new := py c - y_dist in
      Ok (Some (mkPoint x_new y_new))
  end%Q.

(** [point.x()] and [point.y()] on a value that may be [None]. *)
Definition pt_x (p : option QPointF) : res Q :=
  match p with Some p => Ok (px p) | None => Err AttributeError end.
Definition pt_y (p : option QPointF) : res Q :=
  match p with Some p => Ok (py p) | None => Err AttributeError end.
Definition the_point (p : option QPointF) : res QPointF :=
  match p with Some p => Ok p | None => Err AttributeError end.

(** Access to an attribute only buttons have. *)
Definition as_button (item : option Item) : res GraphicsButton :=
  match item with
  | Some (Button b) => Ok b
  | _ => Err AttributeError
  end.

(** True division of floats. *)
Definition py_div (a b : Q) : res Q :=
  if Qeq_bool b 0 then Err ZeroDivisionError else Ok (a / b)%Q.

Definition len {A} (l : list A) : Q := inject_Z (Z.of_nat (length l)).

Definition setX (x : Q) (b : ItemBase) : ItemBase :=
  base_setPos (mkPoint x (py (pos b))) b.
Definition setY (y : Q) (b : ItemBase) : ItemBase :=
  base_setPos (mkPoint (px (pos b)) y) b.

(** [get_average_coord(items=None)]. *)
Definition get_average_coord (sc : GraphicsScene) (items : list nat)
    : res (option QPointF) :=
  if is_nil items then Ok None
  else
    let? totals :=
      res_fold (fun acc i =>
                  let? c := get_center (objs sc !! i) in
                  let? cx := pt_x c in
                  let? cy := pt_y c in
                  Ok (fst acc + cx, snd acc + cy)%Q)
               items (0, 0)%Q in
    let? x_average := py_div (fst totals) (len items) in
    let? y_average := py_div (snd totals) (len items) in
    Ok (Some (mkPoint x_average y_average)).

(** ** Z order *)

(** [bring_forward()]. *)
Definition bring_forward : M PickerWindow unit :=
  on_curr_scene
    (let* sc := get in
     let sel_items := selectedItems sc in
     if is_nil sel_items then ret tt
     else for_each (fun i =>
            mutate i (item_with_base
                        (fun b => base_setZValue (zValue b + (1 # 100))%Q b)))
          sel_items).

(** [send_backward()]. *)
Definition send_backward : M PickerWindow unit :=
  on_curr_scene
    (let* sc := get in
     let sel_items := selectedItems sc in
     if is_nil sel_items then ret tt
     else for_each (fun i =>
            mutate i (item_with_base
                        (fun b => base_setZValue (zValue b - (1 # 100))%Q b)))
          sel_items).

(** ** Reference item *)

(** [set_ref_item(item=None)]. *)
Definition set_ref_item (item : list nat) : M PickerWindow unit :=
  on_curr_scene
    (let* sc := get in
     let sel_items := if is_nil item then selectedItems sc else item in
     match sel_items with
     | [] => ret tt
     | first :: _ => modify (with_ref (Some first))
     end).

(** [clear_ref_item()]. *)
Definition clear_ref_item : M PickerWindow unit :=
  on_curr_scene (modify (with_ref None)).

(** ** Align *)

(** The loop body shared by both branches of [align_by_x]: move the
    item so that its center has the given x. *)
Definition align_item_x (x_center : Q) (i : nat) : M GraphicsScene unit :=
  let* sc := get in
  let* x_new_center :=
    lift (convert_from_center (Some (mkPoint x_center 0)) (objs sc !! i)) in
  let* x := lift (pt_x x_new_center) in
  mutate i (item_with_base (setX x)).

Definition align_item_y (y_center : Q) (i : nat) : M GraphicsScene unit :=
  let* sc := get in
  let* y_new_center :=
    lift (convert_from_center (Some (mkPoint 0 y_center)) (objs sc !! i)) in
  let* y := lift (pt_y y_new_center) in
  mutate i (item_with_base (setY y)).

(** The accumulation [total += self.get_center(item).x()]. *)
Definition sum_centers (coord : option QPointF -> res Q) (sc : GraphicsScene)
    (items : list nat) : res Q :=
  res_fold (fun total i =>
              let? c := get_center (objs sc !! i) in
              let? v := coord c in
              Ok (total + v)%Q)
           items 0%Q.

(** [align_by_x()], on the current scene. *)
Definition align_by_x_scene : M GraphicsScene unit :=
  let* sc := get in
  match ref_item sc with
  | Some r =>
      let* ref_item_center := lift (get_center (objs sc !! r)) in
      let* ref_item_x := lift (pt_x ref_item_center) in
      let sel_items := selectedItems sc in
      for_each (align_item_x ref_item_x) sel_items
  | None =>
      let sel_items := selectedItems sc in
      let* x_total := lift (sum_centers pt_x sc sel_items) in
      let* x_average := lift (py_div x_total (len sel_items)) in
      for_each (align_item_x x_average) sel_items
  end.

Definition align_by_x : M PickerWindow unit := on_curr_scene align_by_x_scene.

(** [align_by_y()]. *)
Definition align_by_y_scene : M GraphicsScene unit :=
  let* sc := get in
  match ref_item sc with
  | Some r =>
      let* ref_item_center := lift (get_center (objs sc !! r)) in
      let* ref_item_y := lift (pt_y ref_item_center) in
      let sel_items := selectedItems sc in
      for_each (align_item_y ref_item_y) sel_items
  | None =>
      let sel_items := selectedItems sc in
      let* y_total := lift (sum_centers pt_y sc sel_items) in
      let* y_average := lift (py_div y_total (len sel_items)) in
      for_each (align_item_y y_average) sel_items
  end.

Definition align_by_y : M PickerWindow unit := on_curr_scene align_by_y_scene.

(** ** Mirror *)

(** Mirroring the polygon coordinates inside the minimum-size square. *)
Definition mirror_coords (mirror_x mirror_y : bool) (coords : list (Q * Q))
    : list (Q * Q) :=
  let coords :=
    if mirror_x then map (fun c => (MINIMUM_SIZE - fst c, snd c)%Q) coords
    else coords in
  if mirror_y then map (fun c => (fst c, MINIMUM_SIZE - snd c)%Q) coords
  else coords.

(** The center of the mirrored item. *)
Definition mirrored_center (mirror_x mirror_y : bool) (mirror_on : string)
    (ref_item_center : option QPointF) (curr : QPointF) : res QPointF :=
  if String.eqb mirror_on MIRROR_REF then
    let? x_center_new :=
      if mirror_x then
        let? rx := pt_x ref_item_center in
        let x_diff := (px curr - rx)%Q in
        Ok (rx - x_diff)%Q
      else Ok (px curr) in
    let? y_center_new :=
      if mirror_y then
        let? ry := pt_y ref_item_center in
        let y_diff := (py curr - ry)%Q in
        Ok (ry - y_diff)%Q
      else Ok (py curr) in
    Ok (mkPoint x_center_new y_center_new)
  else if String.eqb mirror_on MIRROR_WORLD then
    Ok (mkPoint (if mirror_x then - px curr else px curr)%Q
                (if mirror_y then - py curr else py curr)%Q)
  else Ok curr.

(** The body of the loop of [mirror_sel_btns], for the item [i]. *)
Definition mirror_item (mirror_x mirror_y : bool) (mirror_on mirror_type : string)
    (ref_item_center : option QPointF) (i : nat) : M GraphicsScene unit :=
  let* sc := get in
  let item := objs sc !! i in
  let* curr_item_center := lift (get_center item) in
  let* b := lift (as_button item) in
  let new_rect := set_rect b in
  let new_coords := curr_coords b in
  let* curr := lift (the_point curr_item_center) in
  let* center_new :=
    lift (mirrored_center mirror_x mirror_y mirror_on ref_item_center curr) in
  let* new_shape_coord := lift (convert_from_center (Some center_new) item) in
  let new_coords := mirror_coords mirror_x mirror_y new_coords in
  if String.eqb mirror_type MIRROR_DUPLICATE then
    let new_item_kwargs :=
      mkKwargs (Some (brush_col b)) (Some (text b)) (Some new_rect)
               (Some (curr_shape b)) (Some new_coords) None in
    let new_polygon := init true (sel_objs b) new_item_kwargs in
    let new_polygon := update_polygon None new_polygon in
    let* j := addItem (Button new_polygon) in
    let* p := lift (the_point new_shape_coord) in
    mutate j (item_with_base (base_setPos p))
  else if String.eqb mirror_type MIRROR_EXISTING then
    let* p := lift (the_point new_shape_coord) in
    mutate i (fun it =>
      match it with
      | Button b =>
          Button (update_polygon (Some new_coords)
                    (update_bounding_rect (Some new_rect)
                       (with_base (base_setPos p) b)))
      | Pixmap _ => it
      end)
  else ret tt.

(** [mirror_sel_btns()]. *)
Definition mirror_sel_btns : M PickerWindow unit :=
  let* w := get in
  let* sel_items := on_curr_scene (let* sc := get in ret (selectedItems sc)) in
  if is_nil sel_items then ret tt
  else
    let mirror_x := x_rdbtn (mirror_settings w) in
    let mirror_y := y_rdbtn (mirror_settings w) in
    let mirror_on := mirror_on_combo (mirror_settings w) in
    let mirror_type := type_combo (mirror_settings w) in
    if negb mirror_x && negb mirror_y then
      print ("Unable to mirror since no mirror axis set. Check the Mirror "
             +:+ "Settings to set one.")
    else
      on_curr_scene
        (let* sc := get in
         let mirror_on :=
           if String.eqb mirror_on MIRROR_REF && negb (bool_decide (is_Some (ref_item sc)))
           then MIRROR_WORLD else mirror_on in
         let* ref_item_center :=
           if String.eqb mirror_on MIRROR_REF then
             lift (get_center (ref_item sc ≫= fun r => objs sc !! r))
           else ret None in
         for_each (mirror_item mirror_x mirror_y mirror_on mirror_type ref_item_center)
                  sel_items).

(** ** Update and delete *)

(** The body of the loop of [update_btn], for the item [i]. *)
Definition update_item (pp : GraphicsButton) (i : nat) : M GraphicsScene unit :=
  let* _ := mutate i (fun it =>
              match it with
              | Button b => Button (with_curr_shape (curr_shape pp) b)
              | Pixmap _ => it
              end) in
  let* sc := get in
  let item := objs sc !! i in
  let* old_center := lift (get_center item) in
  let* b := lift (as_button item) in
  let old_rect := set_rect b in
  let b := update_bounding_rect
             (Some (mkRect (rx old_rect) (ry old_rect)
                           (width (set_rect pp)) (height (set_rect pp)))) b in
  let* new_pos := lift (convert_from_center old_center (Some (Button b))) in
  let* p := lift (the_point new_pos) in
  let b := with_base (base_setPos p) b in
  let b := update_polygon (Some (curr_coords pp)) b in
  let b := update_text (Some (text pp)) b in
  let b := update_brush_color (Some (brush pp)) b in
  let b := highlight_button false b in
  mutate i (fun _ => Button b).

(** [update_btn(sel_items=None)]. *)
Definition update_btn (sel_items : list nat) : M PickerWindow unit :=
  let* w := get in
  on_curr_scene
    (let* sc := get in
     let sel_items := if is_nil sel_items then selectedItems sc else sel_items in
     if is_nil sel_items then ret tt
     else
       let* _ := for_each (update_item (pp_item w)) sel_items in
       clearSelection).

(** [delete_btn(sel_items=None)]. *)
Definition delete_btn (sel_items : list nat) : M PickerWindow unit :=
  on_curr_scene
    (let* sc := get in
     let sel_items := if is_nil sel_items then selectedItems sc else sel_items in
     if is_nil sel_items then ret tt
     else for_each removeItem sel_items).

(** ** Custom shapes sampled from a curve of the host *)

(** [get_selected_items(multi=False, type=["transform"])], from
    picker_gui_utils.py. *)
Definition get_selected_items (h : Host) (multi : bool) (type : list string)
    : M PickerWindow (option (list string)) :=
  let sel_items := ls_selection h in
  if is_nil sel_items then
    let* _ := print ("No valid items selected. Please select of type: "
                     +:+ str_join ", " type) in
    ret None
  else if multi then ret (Some sel_items)
  else if (1 <? length sel_items)%nat then
    let* _ := print "Too many selected" in
    ret None
  else ret (Some sel_items).

(** The sampling loop [while counter <= 1.0], with the point formatted to
    three decimals as the code stores it.  [fuel] bounds the iterations. *)
Fixpoint sample_curve (fuel : nat) (curve : Q -> Q * Q * Q) (prec counter : Q)
    : list (string * string) :=
  match fuel with
  | O => []
  | S fuel' =>
      if Qle_bool counter 1 then
        let coordinates := curve counter in
        let x_coord := PyNum.format_f 3 (fst (fst coordinates)) in
        let y_coord := PyNum.format_f 3 (snd coordinates) in
        (x_coord, y_coord) :: sample_curve fuel' curve prec (counter + prec)%Q
      else []
  end.

(** Enough iterations for the loop to end by its own condition: the steps
    are 0.1, 0.05 and 0.01. *)
Definition sample_fuel (p : Precision) : nat :=
  S (S (Z.to_nat (Qfloor (1 / PRECISIONS_DICT p)))).

Definition Qlt_b (a b : Q) : bool := negb (Qle_bool b a).

(** One step of the search for the minimum and maximum x and y.  The four
    bounds are unset ([None]) until the first point. *)
Definition bounds_step (st : option (Q * Q * Q * Q)) (point : string * string)
    : res (option (Q * Q * Q * Q)) :=
  let? x := PyNum.py_float (fst point) in
  let? y := PyNum.py_float (snd point) in
  let '(x_min, x_max, y_min, y_max) :=
    match st with
    | None => (x, x, y, y)
    | Some b => b
    end in
  let '(x_min, x_max) :=
    if Qlt_b x x_min then (x, x_max)
    else if Qlt_b x_max x then (x_min, x)
    else (x_min, x_max) in
  let '(y_min, y_max) :=
    if Qlt_b y y_min then (y, y_max)
    else if Qlt_b y_max y then (y_min, y)
    else (y_min, y_max) in
  Ok (Some (x_min, x_max, y_min, y_max)).

(** The normalisation of the sampled points to the 0-25 square. *)
Definition normalize_points (creation_points : list (string * string))
    : res (list (Q * Q)) :=
  let? st := res_fold bounds_step creation_points None in
  let? b := match st with Some b => Ok b | None => Err TypeError end in
  let '(x_min, x_max, y_min, y_max) := b in
  let x_length := (x_max - x_min)%Q in
  let y_length := (y_max - y_min)%Q in
  let square_length := if Qlt_b y_length x_length then x_length else y_length in
  let? scale_factor := py_div MINIMUM_SIZE square_length in
  res_map (fun point =>
             let? px0 := PyNum.py_float (fst point) in
             let normalized_x := (px0 - x_min)%Q in
             let x_new := (normalized_x * scale_factor)%Q in
             let? py0 := PyNum.py_float (snd point) in
             let normalized_y := (py0 - y_min)%Q in
             let y_new := (normalized_y * scale_factor)%Q in
             Ok (x_new, y_new))
          creation_points.

(** [get_shape_from_scene()]. *)
Definition get_shape_from_scene (h : Host) : M PickerWindow unit :=
  let* curr_sel := get_selected_items h false ["nurbsCurve"] in
  match curr_sel with
  | None | Some [] => ret tt
  | Some (curr_sel :: _) =>
      let* w := get in
      let creation_points :=
        sample_curve (sample_fuel (shape_precision w)) (pointOnCurve h curr_sel)
                     (PRECISIONS_DICT (shape_precision w)) 0 in
      let* new_creation_points := lift (normalize_points creation_points) in
      modify (fun w => with_pp_item (update_polygon (Some new_creation_points) (pp_item w)) w)
  end.

(** ** Tabs *)

(** [create_tab(tab_name=None)]; [typed] is what the user answers when the
    name dialog opens. *)
Definition create_tab (tab_name typed : string) : M PickerWindow (option nat) :=
  let* w := get in
  let proceed (name : string) : M PickerWindow (option nat) :=
    let tab_index := length (tabs w) in
    let* _ := put (with_curr_scene (Some tab_index)
                     (with_tabs (tabs w ++ [(name, GraphicsSceneM.empty)]) w)) in
    ret (Some tab_index) in
  if PyNum.is_empty tab_name then
    if PyNum.is_empty typed then ret None else proceed typed
  else proceed tab_name.

(** ** XML export *)

(** The [pos] element of an item: position and z-value at two decimals. *)
Definition save_pos (tag : string) (b : ItemBase) : Element :=
  Elem tag
       [("x", PyNum.format_f 2 (px (pos b)));
        ("y", PyNum.format_f 2 (py (pos b)));
        ("z", PyNum.format_f 2 (zValue b))]
       [].

(** The child elements [p1], [p2], ... of [curr_coords]. *)
Fixpoint save_coords (counter : Z) (item_coords : list (Q * Q)) : list Element :=
  match item_coords with
  | [] => []
  | coord :: rest =>
      Elem (String "p" (PyNum.format_d counter))
           [("x", PyNum.format_f 3 (fst coord)); ("y", PyNum.format_f 3 (snd coord))]
           []
        :: save_coords (counter + 1) rest
  end.

(** The element written for a button: one branch of the export loop per
    attribute of [EXPORT_BTN_ATTRS], in that order. *)
Definition save_button (shape_counter : Z) (b : GraphicsButton) : Element :=
  let button_str := XML_BTN_PREFIX +:+ String "_" (PyNum.format_02d shape_counter) in
  let brush_element :=
    Elem "brush_col"
         [("R", PyNum.format_d (red (brush_col b)));
          ("G", PyNum.format_d (green (brush_col b)));
          ("B", PyNum.format_d (blue (brush_col b)))] [] in
  let text_element := Elem "text" [("text", text b)] [] in
  let pos_element := save_pos "pos" (base b) in
  let save_rect := boundingRect b in
  let set_rect_element :=
    Elem "set_rect"
         [("width", PyNum.format_d (width save_rect));
          ("height", PyNum.format_d (height save_rect))] [] in
  let points_element := Elem "curr_coords" [] (save_coords 1 (curr_coords b)) in
  Elem button_str
       [("sel_objs", str_join ", " (sel_objs b)); ("curr_shape", curr_shape b)]
       [brush_element; text_element; pos_element; set_rect_element; points_element].

(** The element written for an image. *)
Definition save_pixmap (img_counter : Z) (p : GraphicsPixmap) : Element :=
  let image_str := XML_IMG_PREFIX +:+ String "_" (PyNum.format_02d img_counter) in
  Elem image_str [("filepath", file_path p)] [save_pos "pos" (pm_base p)].

(** The state of the export loop over the items of a tab: both counters and
    the children appended so far to the two category elements. *)
Record ExportState : Type := mkExport {
  shape_counter : Z;
  img_counter : Z;
  shape_children : list Element;
  img_children : list Element
}.

Definition export_item (st : ExportState) (gr_item : Item) : ExportState :=
  match gr_item with
  | Pixmap p =>
      mkExport (shape_counter st) (img_counter st + 1) (shape_children st)
               (img_children st ++ [save_pixmap (img_counter st) p])
  | Button b =>
      mkExport (shape_counter st + 1) (img_counter st)
               (shape_children st ++ [save_button (shape_counter st) b])
               (img_children st)
  end.

(** The objects [items()] returns. *)
Definition scene_items (sc : GraphicsScene) : list Item :=
  omap (fun i => objs sc !! i) (items sc).

(** The element written for one tab. *)
Definition save_tab (tab_name : string) (gr_items : list Item) : Element :=
  let st := fold_left export_item gr_items (mkExport 1 1 [] []) in
  Elem tab_name []
       [Elem XML_BTN_CATEGORY [] (shape_children st);
        Elem XML_IMG_CATEGORY [] (img_children st)].

(** [save_xml_file(tabs)]; [filename] is what the file dialog returned, the
    empty string when it was cancelled. *)
Definition save_xml_file (filename : string) (tab_indices : list nat)
    : M PickerWindow (option string) :=
  if PyNum.is_empty filename then ret None
  else
    let* w := get in
    let* tab_elements :=
      lift (res_map (fun tab_index =>
                       match tabs w !! tab_index with
                       | Some (tab_name, tab_scene) =>
                           Ok (save_tab tab_name (scene_items tab_scene))
                       | None => Err KeyError
                       end)
                    tab_indices) in
    let root := Elem "root" [] tab_elements in
    let* _ := modify (fun w => with_disk (<[filename := XmlFile root]> (disk w)) w) in
    let* _ := print ("Saved to: " +:+ filename) in
    ret (Some filename).

(** ** XML import *)

(** [os.path.exists(path)]. *)
Definition path_exists (w : PickerWindow) (path : string) : bool :=
  bool_decide (is_Some (disk w !! path)).

(** [et.parse(filename).getroot()]. *)
Definition et_parse (filename : string) : M PickerWindow Element :=
  let* w := get in
  match disk w !! filename with
  | None => raise FileNotFoundError
  | Some OtherFile => raise ParseError
  | Some (XmlFile root) =>
      if Xml.well_formed root then ret (Xml.parsed root) else raise ParseError
  end.

(** [float(attr.attrib[key])] and [int(attr.attrib[key])]. *)
Definition float_attr (key : string) (e : Element) : res Q :=
  let? s := attrib_get key (attrib_of e) in PyNum.py_float s.
Definition int_attr (key : string) (e : Element) : res Z :=
  let? s := attrib_get key (attrib_of e) in PyNum.py_int s.

(** What the loop over the sub-elements of a shape collects: the position,
    the keyword arguments and the z-value. *)
Record ShapeAcc : Type := mkAcc {
  acc_pos : QPointF;
  acc_kwargs : ButtonKwargs;
  acc_z : option Q
}.

Definition load_point (point : Element) : res (Q * Q) :=
  let? x := float_attr "x" point in
  let? y := float_attr "y" point in
  Ok (x, y).

(** One sub-element of a shape, by its tag. *)
Definition load_shape_attr (acc : ShapeAcc) (attr : Element) : res ShapeAcc :=
  let kw := acc_kwargs acc in
  if String.eqb (tag_of attr) "brush_col" then
    let? r := int_attr "R" attr in
    let? g := int_attr "G" attr in
    let? b := int_attr "B" attr in
    Ok (mkAcc (acc_pos acc)
              (mkKwargs (Some (mkColor r g b)) (kw_text kw) (kw_set_rect kw)
                        (kw_curr_shape kw) (kw_curr_coords kw) (kw_set_polygon kw))
              (acc_z acc))
  else if String.eqb (tag_of attr) "text" then
    let? new_text := attrib_get "text" (attrib_of attr) in
    Ok (mkAcc (acc_pos acc)
              (mkKwargs (kw_brush_col kw) (Some new_text) (kw_set_rect kw)
                        (kw_curr_shape kw) (kw_curr_coords kw) (kw_set_polygon kw))
              (acc_z acc))
  else if String.eqb (tag_of attr) "set_rect" then
    let? w := int_attr "width" attr in
    let? h := int_attr "height" attr in
    Ok (mkAcc (acc_pos acc)
              (mkKwargs (kw_brush_col kw) (kw_text kw) (Some (mkRect 0 0 w h))
                        (kw_curr_shape kw) (kw_curr_coords kw) (kw_set_polygon kw))
              (acc_z acc))
  else if String.eqb (tag_of attr) "curr_coords" then
    let? send_coord_list := res_map load_point (getchildren attr) in
    Ok (mkAcc (acc_pos acc)
              (mkKwargs (kw_brush_col kw) (kw_text kw) (kw_set_rect kw)
                        (kw_curr_shape kw) (Some send_coord_list) (kw_set_polygon kw))
              (acc_z acc))
  else if String.eqb (tag_of attr) "pos" then
    let? x := float_attr "x" attr in
    let? y := float_attr "y" attr in
    let? z := float_attr "z" attr in
    Ok (mkAcc (mkPoint x y) kw (Some z))
  else Ok acc.

(** The local variable [z_val] can be read before any [pos] element
    assigned it. *)
Definition read_z_val (z : option Q) : res Q :=
  match z with
  | Some z => Ok z
  | None => Err UnboundLocalError
  end.

(** The button built from a shape element, before it is put in a scene. *)
Definition load_shape_button (z_val : option Q) (shape : Element)
    : res (GraphicsButton * ShapeAcc) :=
  let attrs := getchildren shape in
  let? sel_str := attrib_get "sel_objs" (attrib_of shape) in
  let shape_sel_objs := split_names sel_str in
  let? set_shape := attrib_get "curr_shape" (attrib_of shape) in
  let? acc := res_fold load_shape_attr attrs (mkAcc (mkPoint 0 0) no_kwargs z_val) in
  let kw := acc_kwargs acc in
  let kw := mkKwargs (kw_brush_col kw) (kw_text kw) (kw_set_rect kw)
                     (Some set_shape) (kw_curr_coords kw) (kw_set_polygon kw) in
  let new_polygon := init true shape_sel_objs kw in
  let new_polygon := update_polygon None new_polygon in
  Ok (new_polygon, acc).

(** The body of the loop over the shapes of a tab.  It returns [z_val],
    a variable of the whole function. *)
Definition load_shape (idx : nat) (z_val : option Q) (shape : Element)
    : M PickerWindow (option Q) :=
  let* w := get in
  let* (new_polygon, acc) := lift (load_shape_button z_val shape) in
  let* _ :=
    on_scene idx
      (let* j := addItem (Button new_polygon) in
       let* _ := mutate j (item_with_base (base_setPos (acc_pos acc))) in
       let* z := lift (read_z_val (acc_z acc)) in
       let* _ := mutate j (item_with_base (base_setZValue z)) in
       mutate j (item_with_base (base_setFlags true (edit_mode w)))) in
  ret (acc_z acc).

(** The sub-elements of an image: only [pos] matters. *)
Definition load_image_attr (acc : QPointF * Q) (attr : Element) : res (QPointF * Q) :=
  if String.eqb (tag_of attr) "pos" then
    let? x := float_attr "x" attr in
    let? y := float_attr "y" attr in
    let? z := float_attr "z" attr in
    Ok (mkPoint x y, z)
  else Ok acc.

Definition lost_image_path (w : PickerWindow) : string :=
  path_join (path_join (working_dir w) CONFIG_FOLDER) LOST_IMAGE.

(** The body of the loop over the images of a tab. *)
Definition load_image (idx : nat) (image : Element) : M PickerWindow (option Q) :=
  let* w := get in
  let attrs := getchildren image in
  let* img_file_path := lift (attrib_get "filepath" (attrib_of image)) in
  let* (new_pos, z_val) :=
    lift (res_fold load_image_attr attrs (mkPoint 0 0, - (1))%Q) in
  let '(img_file_path, good_img) :=
    if negb (path_exists w img_file_path) then (lost_image_path w, false)
    else (img_file_path, true) in
  let new_pixmap := GraphicsPixmapM.init img_file_path good_img in
  let* _ :=
    on_scene idx
      (let* j := addItem (Pixmap new_pixmap) in
       let* _ := mutate j (item_with_base (base_setPos new_pos)) in
       mutate j (item_with_base (base_setZValue z_val))) in
  ret (Some z_val).

(** [for x in xs: acc = body(acc, x)] in a stateful computation. *)
Fixpoint fold_M {S A B} (body : B -> A -> M S B) (xs : list A) (acc : B) : M S B :=
  match xs with
  | [] => ret acc
  | x :: xs' => let* acc' := body acc x in fold_M body xs' acc'
  end.

(** The body of the loop over the categories of a tab. *)
Definition load_category (idx : nat) (z_val : option Q) (category : Element)
    : M PickerWindow (option Q) :=
  if String.eqb (tag_of category) XML_BTN_CATEGORY then
    fold_M (load_shape idx) (getchildren category) z_val
  else if String.eqb (tag_of category) XML_IMG_CATEGORY then
    fold_M (fun _ image => load_image idx image) (getchildren category) z_val
  else ret z_val.

(** The body of the loop over the tabs of the document. *)
Definition load_tab (z_val : option Q) (tab : Element) : M PickerWindow (option Q) :=
  let* new_tab_index := create_tab (tag_of tab) EmptyString in
  match new_tab_index with
  | None => raise KeyError
  | Some idx => fold_M (load_category idx) (getchildren tab) z_val
  end.

(** [load_xml_file()]; [filename] is what the file dialog returned. *)
Definition load_xml_file (filename : string) : M PickerWindow (option string) :=
  if PyNum.is_empty filename then ret None
  else
    let* w := get in
    let* _ :=
      if negb (path_exists w filename) then
        print ("File does not exist: " +:+ filename)
      else ret tt in
    let* root := et_parse filename in
    let* _ := fold_M load_tab (getchildren root) None in
    let* _ := print ("Loaded file: " +:+ filename) in
    ret (Some filename).

End PickerWindowM.

(* ===================================================================== *)
(** * picker_gui.py: creating shapes and retargeting them                   *)
(* ===================================================================== *)

Module PickerWindowEdit.
Import PickerToolEnums GraphicsButtonM GraphicsSceneM PickerWindowM.



(** The body of the loop of [update_btn_selection]; [curr_sel] is what the
    host reports as selected. *)
Definition retarget_item (curr_sel : list string) (i : nat) : M GraphicsScene unit :=
  let* sc := get in
  let* _ := lift (as_button (objs sc !! i)) in
  mutate i (fun it =>
    match it with
    | Button b => Button (update_sel_list curr_sel b)
    | Pixmap _ => it
    end).

(** [update_btn_selection(sel_items=None)]. *)
Definition update_btn_selection (curr_sel : list string) (sel_items : list nat)
    : M PickerWindow unit :=
  on_curr_scene
    (let* sc := get in
     let sel_items := if is_nil sel_items then selectedItems sc else sel_items in
     if is_nil sel_items then ret tt
     else for_each (retarget_item curr_sel) sel_items).

End PickerWindowEdit.

(* ===================================================================== *)
(** * picker_gui_utils.py: the release of the left button, highlighting,
      and the wheel                                                         *)
(* ===================================================================== *)

Module GraphicsViewEvents.
Import GraphicsButtonM GraphicsSceneM GraphicsViewM.

(** The first part of [leftMouseButtonRelease(event)]: the items the
    gesture struck, and the new value of [drag].  [banded] is what
    [self.items(self.rubberBandRect(), ...)] returns. *)
Definition released_items (sc : GraphicsScene) (e : MouseEvent) (banded : list nat)
    (v : GraphicsView) : list (option nat) * GraphicsView :=
  if negb (bool_decide (Some (ev_pos e) = initial_mouse_pos v)) then
    if truthy (drag v) then
      let over_item := [getItemAtClick sc e] in
      (py_list (py_set (old_sel_items v) ∪ py_set over_item), v)
    else (map Some banded, v)
  else ([getItemAtClick sc e], set_drag false v).

(** [leftMouseButtonRelease(event)], up to the selection in the host and
    the call of the handler of the base class. *)
Definition leftMouseButtonRelease (e : MouseEvent) (banded : list nat)
    (v : GraphicsView) : M GraphicsScene GraphicsView :=
  fun sc =>
    let '(sel_items, v1) := released_items sc e banded v in
    match evaluate_temp_items sel_items v1 with
    | Err x => (Err x, sc)
    | Ok v2 => (Ok v2, snd (select_items v2 sc))
    end.

(** [GraphicsScene.highlight_items()]. *)
Definition highlight_items : M GraphicsScene unit :=
  modify (fun sc =>
    let sel_items := selectedItems sc in
    let scene_items := items sc in
    with_objs
      (fold_left (fun o i =>
                    alter (fun it =>
                             match it with
                             | Pixmap _ => it
                             | Button b =>
                                 Button (highlight_button (bool_decide (i ∈ sel_items)) b)
                             end) i o)
                 scene_items (objs sc))
      sc).





End GraphicsViewEvents.

(* ===================================================================== *)
(** * picker_gui.py: SaveTabsDialog                                         *)
(* ===================================================================== *)

(** The dialog that asks which tabs to export.  Its tree has one row per
    tab; a row is modelled by its check state (checked is [true]). *)
Module SaveTabsDialogM.

(** The rows [init_gui(tab_widget)] creates: one per tab, checked. *)
Definition init_gui (tab_count : nat) : list bool :=
  fold_left (fun (rows : list bool) (_ : nat) => rows ++ [true]) (seq 0 tab_count) [].

(** [verify_tree()]: the child count, or [None] for an empty tree (the
    root item, its other result, is not modelled). *)
Definition verify_tree (rows : list bool) : option nat :=
  let child_count := length rows in
  if (child_count <? 1)%nat then None else Some child_count.

(** [check_all_clicked()].  Unpacking the [None] that [verify_tree]
    returns for an empty tree is a [TypeError]. *)
Definition check_all_clicked (rows : list bool) : res (list bool) :=
  match verify_tree rows with
  | None => Err TypeError
  | Some child_count =>
      if (child_count =? 0)%nat then Ok rows
      else
        Ok (fold_left (fun (rows : list bool) (item_row : nat) =>
                         alter (fun checked : bool => if checked then checked else true)
                               item_row rows)
                      (seq 0 child_count) rows)
  end.

(** [uncheck_all_clicked()]. *)
Definition uncheck_all_clicked (rows : list bool) : res (list bool) :=
  match verify_tree rows with
  | None => Err TypeError
  | Some child_count =>
      if (child_count =? 0)%nat then Ok rows
      else
        Ok (fold_left (fun (rows : list bool) (item_row : nat) =>
                         alter (fun checked : bool => if negb checked then checked else false)
                               item_row rows)
                      (seq 0 child_count) rows)
  end.

(** [save_as()]: the list the [save_as_clicked] signal carries to
    [save_xml_file]. *)
Definition save_as (rows : list bool) : list nat :=
  fold_left (fun (send_list : list nat) (item_row : nat) =>
               if default false (rows !! item_row) then send_list ++ [item_row]
               else send_list)
            (seq 0 (length rows)) [].

End SaveTabsDialogM.

(* ===================================================================== *)
(** * picker_gui.py: the edit mode                                          *)
(* ===================================================================== *)

Module PickerWindowModes.
Import PickerToolEnums GraphicsButtonM GraphicsSceneM PickerWindowM.

Definition with_edit_mode (e : bool) (w : PickerWindow) : PickerWindow :=
  mkWindow e (tabs w) (curr_scene w) (mirror_settings w) (pp_item w)
           (shape_precision w) (working_dir w) (console w) (disk w).

(** [GraphicsPixmap.set_edit_mode(editable)]: both flags are set to
    [editable].  Qt deselects an item that loses the selectable flag. *)
Definition pixmap_set_edit_mode (editable : bool) (p : GraphicsPixmap) : GraphicsPixmap :=
  mkPixmap (mkBase (pos (pm_base p)) (zValue (pm_base p))
                   (selected (pm_base p) && editable) editable editable)
           (good_img p) (file_path p).

(** The body of the inner loop of [set_edit_mode], for one item. *)
Definition set_item_flags (edit_mode : bool) (it : Item) : Item :=
  match it with
  | Pixmap p => Pixmap (pixmap_set_edit_mode edit_mode p)
  | Button b => Button (with_base (base_setFlags true edit_mode) b)
  end.

(** [set_edit_mode()], on the items of every tab.  (The widgets it
    enables or disables are not modelled.) *)
Definition set_edit_mode : M PickerWindow unit :=
  modify (fun w =>
    with_tabs
      (map (fun t : string * GraphicsScene =>
              let gr_scene := snd t in
              (fst t,
               with_objs
                 (fold_left (fun o i => alter (set_item_flags (edit_mode w)) i o)
                            (items gr_scene) (objs gr_scene))
                 gr_scene))
           (tabs w))
      w).

(** [toggle_edit_mode()]. *)
Definition toggle_edit_mode : M PickerWindow unit :=
  let* _ := modify (fun w => with_edit_mode (negb (edit_mode w)) w) in
  set_edit_mode.

End PickerWindowModes.

(* ===================================================================== *)
(** * Notions of the specification                                          *)
(* ===================================================================== *)

(** The center of a shape, in the words of the specification: its top-left
    position plus half its bounding-box size. *)
Definition center_x (b : GraphicsButton) : Q :=
  (px (pos (base b)) + inject_Z (width (set_rect b)) / 2)%Q.

(** The button stored under an identity, if it is one. *)
Definition button_at (sc : GraphicsScene) (i : nat) : option GraphicsButton :=
  match objs sc !! i with
  | Some (Button b) => Some b
  | _ => None
  end.

Definition center_x_at (sc : GraphicsScene) (i : nat) : Q :=
  match button_at sc i with Some b => center_x b | None => 0%Q end.

(** The arithmetic mean of a list of numbers. *)
Definition Qsum (l : list Q) : Q := fold_right Qplus 0%Q l.


(** The scene after [addItem(it)]. *)
Definition scene_add (sc : GraphicsScene) (it : Item) : GraphicsScene :=
  snd (GraphicsSceneM.addItem it sc).

(** The objects of a scene in the order they were added. *)
Definition scene_objects (sc : GraphicsScene) : list Item :=
  omap (fun i => objs sc !! i) (members sc).

Definition buttons_of (l : list Item) : list GraphicsButton :=
  omap (fun it => match it with Button b => Some b | Pixmap _ => None end) l.













(* ===================================================================== *)
(** * Inputs and auxiliary notions of the statements                        *)
(* ===================================================================== *)

Section Inputs.
Import PickerToolEnums GraphicsSceneM GraphicsButtonM PickerWindowM.

(** Left presses on empty canvas, with shift and with ctrl held. *)
Definition shift_press : MouseEvent := mkEvent LeftButton ShiftModifier (0, 0) None.

Definition ctrl_press : MouseEvent := mkEvent LeftButton ControlModifier (0, 0) None.

(** A selected rectangle of the given size at the given position. *)
Definition rect_at (x y : Q) (w h : Z) : GraphicsButton :=
  with_base (fun b => base_setSelected true (base_setPos (mkPoint x y) b))
    (init true []
       (mkKwargs None None (Some (mkRect 0 0 w h)) (Some SHAPE_RECT) None None)).

(** A scene of two selected rectangles, and a window showing it. *)
Definition two_rects : GraphicsScene :=
  mkScene (<[1%nat := Button (rect_at 10 4 5 5)]>
             (<[0%nat := Button (rect_at 0 0 25 25)]> ∅))
          [0%nat; 1%nat] None 2.

Definition two_rects_window : PickerWindow :=
  mkWindow true [("default", two_rects)] (Some 0%nat)
           (mkMirror true false MIRROR_WORLD MIRROR_EXISTING)
           (init false [] no_kwargs) Simple "/opt/picker_tool" [] ∅.


(** A window whose only tab has the given name and holds the given shape. *)
Definition one_shape_window (tab_name : string) (b : GraphicsButton) : PickerWindow :=
  mkWindow true [(tab_name, mkScene (<[0%nat := Button b]> ∅) [0%nat] None 1)]
           (Some 0%nat)
           (mkMirror true false MIRROR_WORLD MIRROR_EXISTING)
           (init false [] no_kwargs) Simple "/opt/picker_tool" [] ∅.

(** A tab name with a colon; a label with a tab between two letters; a
    label with the control character of code 1. *)
Definition prefixed_tab_window : PickerWindow :=
  one_shape_window "arm:left" (rect_at 0 0 25 25).

Definition tabbed_label : string := String "a" (String "009" (String "b" EmptyString)).

Definition tabbed_label_window : PickerWindow :=
  one_shape_window "default" (with_text tabbed_label (rect_at 0 0 25 25)).

Definition control_label_window : PickerWindow :=
  one_shape_window "default"
    (with_text (String "a" (String "001" EmptyString)) (rect_at 0 0 25 25)).

(** A window without any tab, and one with a single empty tab. *)
Definition blank_window : PickerWindow :=
  mkWindow true [] None (mkMirror true false MIRROR_WORLD MIRROR_EXISTING)
           (GraphicsButtonM.init false [] no_kwargs) Simple "/opt/picker_tool" [] ∅.

Definition empty_tab_window : PickerWindow :=
  mkWindow true [("default", GraphicsSceneM.empty)] (Some 0%nat)
           (mkMirror true false MIRROR_WORLD MIRROR_EXISTING)
           (init false [] no_kwargs) Simple "/opt/picker_tool" [] ∅.

(** A host whose selected curve is degenerate: every parameter gives the
    same point. *)
Definition still_host : Host :=
  mkHost ["curve1"] (fun _ _ => (3 # 2, 0, - (1 # 4))%Q).

(** An image element whose file is not on disk. *)
Definition lost_image_entry : Element :=
  Elem "image_01" [("filepath", "/home/rigger/body.png")]
       [Elem "pos" [("x", "-12.50"); ("y", "3.25"); ("z", "-1.00")] []].

(** A button read from a file whose shape element lists no point, then
    given the custom kind (the first statement of the loop of
    [update_btn]). *)
Definition pointless_button : GraphicsButton :=
  with_curr_shape SHAPE_CUSTOM
    (update_polygon None
       (init true []
          (mkKwargs None None (Some (mkRect 0 0 5 5)) (Some SHAPE_RECT) (Some []) None))).

(** A custom triangle in the minimum-size square. *)
Definition triangle_button : GraphicsButton :=
  init true []
    (mkKwargs None None (Some (mkRect 0 0 25 25)) (Some SHAPE_CUSTOM)
              (Some [(0, 0); (25, 0); (25 # 2, 25)]%Q) None).

(** The same triangle created with a bounding rectangle of 50 x 100:
    [__init__] takes the polygon from the coordinates as they are. *)
Definition tall_triangle_button : GraphicsButton :=
  init true []
    (mkKwargs None None (Some (mkRect 0 0 50 100)) (Some SHAPE_CUSTOM)
              (Some [(0, 0); (25, 0); (25 # 2, 25)]%Q) None).

(** A loop body that replaces the button [b] stored under [i] by [g b],
    through a method call on that object. *)
Definition steps_as (body : nat -> M GraphicsScene unit)
    (g : GraphicsButton -> GraphicsButton) : Prop :=
  forall i sc b,
    objs sc !! i = Some (Button b) ->
    exists F, body i sc = (Ok tt, with_objs (alter F i (objs sc)) sc)
              /\ F (Button b) = Button (g b).

(** What [align_by_x] makes of a button: its center moved to [x_center]. *)
Definition moved_to_center_x (x_center : Q) (b : GraphicsButton) : GraphicsButton :=
  with_base (setX (x_center - half (width (set_rect b)))%Q) b.



(** Identities are handed out in increasing order. *)
Definition ids_below_next (sc : GraphicsScene) : Prop :=
  forall i, i ∈ members sc -> (i < next_id sc)%nat.

End Inputs.

(* ===================================================================== *)
(** * Further inputs and auxiliary notions                                  *)
(* ===================================================================== *)

Section MoreInputs.
Import PickerToolEnums GraphicsSceneM GraphicsButtonM PickerWindowM.


(** What [align_by_y] makes of a button: its center moved to [y_center]. *)
Definition moved_to_center_y (y_center : Q) (b : GraphicsButton) : GraphicsButton :=
  with_base (setY (y_center - half (height (set_rect b)))%Q) b.

(** The scene of two rectangles with the first one as reference shape, and
    a window showing it. *)
Definition two_rects_ref : GraphicsScene := with_ref (Some 0%nat) two_rects.

Definition two_rects_ref_window : PickerWindow :=
  mkWindow true [("default", two_rects_ref)] (Some 0%nat)
           (mkMirror true false MIRROR_REF MIRROR_EXISTING)
           (init false [] no_kwargs) Simple "/opt/picker_tool" [] ∅.

(** A loop that calls one method on each of the listed objects. *)
Definition mutate_all (F : nat -> Item -> Item) (l : list nat) (o : gmap nat Item)
    : gmap nat Item :=
  fold_left (fun o i => alter (F i) i o) l o.

(** The scene [sc'] is [sc] with the z-value of every selected item
    shifted by [d], and nothing else changed. *)
Definition shifts_selected_z (d : Q) (sc sc' : GraphicsScene) : Prop :=
  members sc' = members sc
  /\ selectedItems sc' = selectedItems sc
  /\ (forall i, i ∉ selectedItems sc -> objs sc' !! i = objs sc !! i)
  /\ (forall i it, i ∈ selectedItems sc -> objs sc !! i = Some it ->
        exists it', objs sc' !! i = Some it'
                    /\ (zValue (item_base it') == zValue (item_base it) + d)%Q
                    /\ item_with_base (base_setZValue (zValue (item_base it))) it' = it).


(** What [update_btn] makes of a button, before the selection is cleared. *)
Definition updated_button (pp : GraphicsButton) (b : GraphicsButton) : GraphicsButton :=
  let b1 := with_curr_shape (curr_shape pp) b in
  let b2 :=
    update_bounding_rect
      (Some (mkRect (rx (set_rect b1)) (ry (set_rect b1))
                    (width (set_rect pp)) (height (set_rect pp)))) b1 in
  let p := mkPoint (px (pos (base b1)) + half (width (set_rect b1))
                    - half (width (set_rect b2)))%Q
                   (py (pos (base b1)) + half (height (set_rect b1))
                    - half (height (set_rect b2)))%Q in
  highlight_button false
    (update_brush_color (Some (brush pp))
       (update_text (Some (text pp))
          (update_polygon (Some (curr_coords pp)) (with_base (base_setPos p) b2)))).

(** A scene with a selected image in front of a selected rectangle, and a
    window showing it. *)
Definition image_and_rect : GraphicsScene :=
  mkScene (<[1%nat := Button (rect_at 10 4 5 5)]>
             (<[0%nat := Pixmap (mkPixmap (mkBase (mkPoint 0 0) (- (1)) true true true)
                                          true "/home/rigger/body.png")]> ∅))
          [0%nat; 1%nat] None 2.

Definition image_and_rect_window : PickerWindow :=
  mkWindow true [("default", image_and_rect)] (Some 0%nat)
           (mkMirror true false MIRROR_WORLD MIRROR_EXISTING)
           (init false [] no_kwargs) Simple "/opt/picker_tool" [] ∅.

(** The window of the two rectangles with no mirror axis checked. *)
Definition no_axis_window : PickerWindow :=
  mkWindow true [("default", two_rects)] (Some 0%nat)
           (mkMirror false false MIRROR_WORLD MIRROR_EXISTING)
           (init false [] no_kwargs) Simple "/opt/picker_tool" [] ∅.





(** A loop body that either raises [AttributeError] or returns and leaves
    every image an image, and that raises on an image. *)
Definition raises_on_images (body : nat -> M GraphicsScene unit) : Prop :=
  (forall i sc,
      (exists sc', body i sc = (Ok tt, sc')
                   /\ forall j p, objs sc !! j = Some (Pixmap p) ->
                                  exists p', objs sc' !! j = Some (Pixmap p'))
      \/ (exists sc', body i sc = (Err AttributeError, sc')))
  /\ (forall i sc p, objs sc !! i = Some (Pixmap p) ->
        exists sc', body i sc = (Err AttributeError, sc')).

(** A plain left click, a shift click and a ctrl click on the second
    rectangle, and a view in which the first rectangle is selected. *)
Definition click_on (mods : Z) (i : nat) : MouseEvent :=
  mkEvent LeftButton mods (12, 6) (Some i).

Definition first_selected_view : GraphicsView :=
  mkView (Some "replace") (Some false) [Some 0%nat] None.

(** Every item of the scene accepts [setSelected(True)]: Qt ignores the
    call on an item without the selectable flag. *)
Definition all_selectable (sc : GraphicsScene) : Prop :=
  forall i it, i ∈ members sc -> objs sc !! i = Some it ->
               selectable (item_base it) = true.

(** The item the code passes around for the object [i], or Python's
    [None]. *)
Definition hit (sc : GraphicsScene) (e : MouseEvent) : option nat :=
  GraphicsViewM.getItemAtClick sc e.







(** A shape element without a [pos] child. *)
Definition posless_shape : Element :=
  Elem "button_01" [("sel_objs", "arm_L_ctrl"); ("curr_shape", "Rect")]
       [Elem "text" [("text", "L")] [];
        Elem "set_rect" [("width", "30"); ("height", "20")] []].

(** What an import may change of a window: it appends tabs and lines on
    the console, and may move the current tab. *)
Definition window_extended (w w' : PickerWindow) : Prop :=
  tabs w `prefix_of` tabs w'
  /\ console w `prefix_of` console w'
  /\ disk w' = disk w
  /\ edit_mode w' = edit_mode w
  /\ pp_item w' = pp_item w
  /\ mirror_settings w' = mirror_settings w
  /\ shape_precision w' = shape_precision w
  /\ working_dir w' = working_dir w.

(** The same, relative to the first [n] tabs. *)
Definition keeps_below (n : nat) (w w' : PickerWindow) : Prop :=
  take n (tabs w') = take n (tabs w)
  /\ (length (tabs w) <= length (tabs w'))%nat
  /\ console w `prefix_of` console w'
  /\ disk w' = disk w
  /\ edit_mode w' = edit_mode w
  /\ pp_item w' = pp_item w
  /\ mirror_settings w' = mirror_settings w
  /\ shape_precision w' = shape_precision w
  /\ working_dir w' = working_dir w.

(** The flags of an item as an import leaves them. *)
Definition loaded_flags (e : bool) (it : Item) : Prop :=
  selected (item_base it) = false
  /\ selectable (item_base it) = true
  /\ movable (item_base it) = match it with Button _ => e | Pixmap _ => true end.

Definition scene_loaded (e : bool) (sc : GraphicsScene) : Prop :=
  ids_below_next sc
  /\ forall i, i ∈ members sc -> exists it, objs sc !! i = Some it /\ loaded_flags e it.

(** The tabs from the [n]-th on hold loaded scenes. *)
Definition tabs_loaded (n : nat) (e : bool) (w : PickerWindow) : Prop :=
  edit_mode w = e
  /\ (n <= length (tabs w))%nat
  /\ forall idx name sc, (n <= idx)%nat -> tabs w !! idx = Some (name, sc) ->
                         scene_loaded e sc.

(** A window that is not in edit mode, with a file to import on its disk:
    one tab with a shape and an image. *)
Definition locked_import_window : PickerWindow :=
  mkWindow false [] None (mkMirror true false MIRROR_WORLD MIRROR_EXISTING)
           (init false [] no_kwargs) Simple "/opt/picker_tool" []
           {[ "/home/rigger/biped.xml" :=
                XmlFile
                  (Elem "root" []
                     [Elem "body" []
                        [Elem "SHAPES" []
                           [Elem "button_01"
                                 [("sel_objs", "arm_L_ctrl"); ("curr_shape", "Rect")]
                                 [Elem "pos" [("x", "4.00"); ("y", "-3.50"); ("z", "0.01")] []]];
                         Elem "IMAGES" []
                           [Elem "image_01" [("filepath", "/home/rigger/body.png")]
                                 [Elem "pos" [("x", "0.00"); ("y", "0.00"); ("z", "-1.00")] []]]]]) ]}.

(** A computation that keeps the first [n] tabs, from a window that has
    at least [n] tabs. *)
Definition keeps_first (n : nat) {A} (m : M PickerWindow A) : Prop :=
  forall w, (n <= length (tabs w))%nat -> keeps_below n w (snd (m w)).

(** A window with three tabs. *)
Definition three_tabs_window : PickerWindow :=
  mkWindow true [("body", two_rects); ("face", GraphicsSceneM.empty);
                 ("hands", GraphicsSceneM.empty)] (Some 0%nat)
           (mkMirror true false MIRROR_WORLD MIRROR_EXISTING)
           (init false [] no_kwargs) Simple "/opt/picker_tool" [] ∅.


(** A window with a file to import whose second tab holds a shape element
    without attributes. *)
Definition broken_import_window : PickerWindow :=
  mkWindow true [] None (mkMirror true false MIRROR_WORLD MIRROR_EXISTING)
           (init false [] no_kwargs) Simple "/opt/picker_tool" []
           {[ "/home/rigger/broken.xml" :=
                XmlFile
                  (Elem "root" []
                     [Elem "body" [] [];
                      Elem "face" [] [Elem "SHAPES" [] [Elem "shape_01" [] []]]]) ]}.

End MoreInputs.

(* ##################################################################### *)
(** * Part II: properties of the embedded program                          *)
(* ##################################################################### *)

(* ===================================================================== *)
(** * Facts about number formatting                                        *)
(* ===================================================================== *)

Module PyNumFacts.
Import PyNum.

Lemma digit_cases (d : Z) :
  0 <= d <= 9 ->
  d = 0 \/ d = 1 \/ d = 2 \/ d = 3 \/ d = 4 \/ d = 5 \/ d = 6 \/ d = 7 \/ d = 8 \/ d = 9.
Proof. lia. Qed.

Lemma char_digit_digit_char (d : Z) :
  0 <= d <= 9 -> char_digit (digit_char d) = Some d.
Proof.
  intros H. destruct (digit_cases d H) as [-> | [-> | [-> | [-> | [-> | [-> | [-> | [-> | [-> | ->]]]]]]]]];
    reflexivity.
Qed.

Lemma pow10_pos (k : nat) : 0 < pow10 k.
Proof. unfold pow10. apply Z.pow_pos_nonneg; lia. Qed.

Lemma pow10_S (k : nat) : pow10 (S k) = 10 * pow10 k.
Proof. unfold pow10. rewrite Nat2Z.inj_succ, Z.pow_succ_r by lia. reflexivity. Qed.

Lemma pow10_add (j k : nat) : pow10 (j + k) = pow10 j * pow10 k.
Proof. unfold pow10. rewrite Nat2Z.inj_add, Z.pow_add_r by lia. reflexivity. Qed.

Lemma reads_nil : reads EmptyString 0 0.
Proof. intros rest acc. simpl. f_equal. unfold pow10. simpl. lia. Qed.

Lemma reads_cons (d : Z) (s : string) (k : nat) (v : Z) :
  0 <= d <= 9 -> reads s k v ->
  reads (String (digit_char d) s) (S k) (d * pow10 k + v).
Proof.
  intros Hd Hs rest acc. change (String (digit_char d) s +:+ rest)
    with (String (digit_char d) (s +:+ rest)). simpl. rewrite char_digit_digit_char by assumption.
  rewrite Hs. f_equal. rewrite pow10_S. lia.
Qed.

Lemma append_cons (x : ascii) (a b : string) :
  String x a +:+ b = String x (a +:+ b).
Proof. reflexivity. Qed.

Lemma append_nil_l (b : string) : EmptyString +:+ b = b.
Proof. reflexivity. Qed.

Lemma append_assoc (a b c : string) : (a +:+ b) +:+ c = a +:+ (b +:+ c).
Proof.
  induction a as [| x a IH]; [reflexivity |].
  rewrite !append_cons. now rewrite IH.
Qed.

Lemma append_nil_r (a : string) : a +:+ EmptyString = a.
Proof.
  induction a as [| x a IH]; [reflexivity |].
  rewrite append_cons. now rewrite IH.
Qed.

Lemma length_append (a b : string) :
  String.length (a +:+ b) = (String.length a + String.length b)%nat.
Proof.
  induction a as [| x a IH]; [reflexivity |].
  rewrite append_cons. simpl. now rewrite IH.
Qed.

Lemma reads_snoc (d : Z) (s : string) (k : nat) (v : Z) :
  0 <= d <= 9 -> reads s k v ->
  reads (s +:+ String (digit_char d) EmptyString) (S k) (10 * v + d).
Proof.
  intros Hd Hs rest acc. rewrite append_assoc, Hs. simpl.
  rewrite char_digit_digit_char by assumption. f_equal. rewrite pow10_S. lia.
Qed.

Lemma reads_value (s : string) (k : nat) (v : Z) :
  reads s k v -> parse_digits s 0 = Some v.
Proof.
  intros H. specialize (H EmptyString 0). rewrite append_nil_r in H.
  rewrite H. cbn [parse_digits]. f_equal; lia.
Qed.

(** ** Strings made of digits only *)

Lemma all_digits_app (a b : string) :
  all_digits a = true -> all_digits b = true -> all_digits (a +:+ b) = true.
Proof.
  induction a as [| c a IH]; simpl; intros Ha Hb; [assumption |].
  destruct (char_digit c); [auto | discriminate].
Qed.

Lemma split_point_digits (s t : string) :
  all_digits s = true -> split_point (s +:+ String "." t) = (s, Some t).
Proof.
  induction s as [| c s IH]; simpl; intros H; [reflexivity |].
  destruct (char_digit c) eqn:Hc; [| discriminate].
  destruct (Ascii.eqb c ".") eqn:E.
  - apply Ascii.eqb_eq in E. subst c. discriminate.
  - rewrite IH by assumption. reflexivity.
Qed.


(** ** Printing integers *)

Lemma dec_digits_spec (fuel : nat) :
  forall (n : Z) (s : string) (k : nat) (v : Z),
    0 <= n < 2 ^ Z.of_nat fuel -> (0 < fuel)%nat ->
    reads s k v -> all_digits s = true ->
    exists j, reads (dec_digits fuel n s) (j + k) (n * pow10 k + v)
              /\ all_digits (dec_digits fuel n s) = true
              /\ is_empty (dec_digits fuel n s) = false.
Proof.
  induction fuel as [| fuel IH]; intros n s k v Hn Hf Hs Hd; [lia |].
  simpl.
  assert (Hm : 0 <= n mod 10 <= 9) by (pose proof (Z.mod_pos_bound n 10); lia).
  pose proof (reads_cons _ _ _ _ Hm Hs) as Hc.
  assert (Hd' : all_digits (String (digit_char (n mod 10)) s) = true).
  { simpl. rewrite char_digit_digit_char by assumption. assumption. }
  destruct (n / 10 =? 0) eqn:E.
  - apply Z.eqb_eq in E. exists 1%nat. split; [| split; [assumption | reflexivity]].
    replace (n * pow10 k + v) with (n mod 10 * pow10 k + v); [exact Hc |].
    pose proof (Z.div_mod n 10 ltac:(lia)) as Hdm. rewrite E in Hdm.
    replace (n mod 10) with n by lia. reflexivity.
  - apply Z.eqb_neq in E.
    assert (Hq : 0 <= n / 10 < 2 ^ Z.of_nat fuel).
    { split; [apply Z.div_pos; lia |].
      rewrite Nat2Z.inj_succ, Z.pow_succ_r in Hn by lia.
      apply Z.div_lt_upper_bound; lia. }
    assert (Hfuel : (0 < fuel)%nat).
    { destruct fuel; [| lia]. simpl in Hq. lia. }
    destruct (IH (n / 10) _ _ _ Hq Hfuel Hc Hd') as (j & Hr & Ha & He).
    exists (S j). split; [| split; assumption].
    replace (S j + k)%nat with (j + S k)%nat by lia.
    replace (n * pow10 k + v) with (n / 10 * pow10 (S k) + (n mod 10 * pow10 k + v)); [exact Hr |].
    rewrite pow10_S. pose proof (Z.div_mod n 10 ltac:(lia)) as Hdm. nia.
Qed.

Lemma str_of_nonneg_spec (n : Z) :
  0 <= n ->
  parse_digits (str_of_nonneg n) 0 = Some n
  /\ all_digits (str_of_nonneg n) = true
  /\ is_empty (str_of_nonneg n) = false.
Proof.
  intros Hn. unfold str_of_nonneg.
  assert (Hb : 0 <= n < 2 ^ Z.of_nat (S (Z.to_nat (Z.log2 n)))).
  { split; [assumption |].
    rewrite Nat2Z.inj_succ, Z2Nat.id by apply Z.log2_nonneg.
    destruct (Z.eq_dec n 0) as [-> | Hz]; [reflexivity |].
    apply Z.log2_spec. lia. }
  destruct (dec_digits_spec _ n EmptyString 0 0 Hb ltac:(lia) reads_nil eq_refl)
    as (j & Hr & Ha & He).
  split; [| split; assumption].
  rewrite (reads_value _ _ _ Hr). f_equal. unfold pow10. simpl. lia.
Qed.


(** ** Printing a fixed number of digits *)

Lemma fixed_digits_spec (k : nat) :
  forall n, 0 <= n ->
    reads (fixed_digits k n) k (n mod pow10 k)
    /\ all_digits (fixed_digits k n) = true
    /\ String.length (fixed_digits k n) = k.
Proof.
  induction k as [| k IH]; intros n Hn.
  - simpl. split; [| split; reflexivity].
    replace (n mod pow10 0) with 0; [apply reads_nil |].
    unfold pow10. simpl. now rewrite Z.mod_1_r.
  - simpl.
    assert (Hq : 0 <= n / 10) by (apply Z.div_pos; lia).
    destruct (IH (n / 10) Hq) as (Hr & Ha & Hl).
    assert (Hm : 0 <= n mod 10 <= 9) by (pose proof (Z.mod_pos_bound n 10); lia).
    split; [| split].
    + replace (n mod pow10 (S k)) with (10 * (n / 10 mod pow10 k) + n mod 10).
      { apply reads_snoc; assumption. }
      rewrite pow10_S. pose proof (pow10_pos k).
      rewrite Z.rem_mul_r by lia. lia.
    + apply all_digits_app; [assumption |]. simpl.
      now rewrite char_digit_digit_char.
    + rewrite length_append, Hl. simpl. lia.
Qed.

(** ** Rounding *)


Lemma round_half_even_nonneg (q : Q) : (0 <= q)%Q -> 0 <= round_half_even q.
Proof.
  intros H. unfold round_half_even.
  assert (0 <= Qfloor q).
  { change 0 with (Qfloor 0). now apply Qfloor_resp_le. }
  destruct (q - inject_Z (Qfloor q) ?= 1 # 2)%Q; [destruct (Z.even _) | |]; lia.
Qed.

Lemma round_half_even_nonpos (q : Q) : (q < 0)%Q -> round_half_even q <= 0.
Proof.
  intros H. unfold round_half_even.
  assert (Qfloor q < 0).
  { pose proof (Qfloor_le q) as Hlo.
    assert (Hlt : (inject_Z (Qfloor q) < inject_Z 0)%Q) by (change (inject_Z 0) with 0%Q; lra).
    now rewrite <- Zlt_Qlt in Hlt. }
  destruct (q - inject_Z (Qfloor q) ?= 1 # 2)%Q; [destruct (Z.even _) | |]; lia.
Qed.

Lemma inject_pow10_pos (k : nat) : (0 < inject_Z (pow10 k))%Q.
Proof. change 0%Q with (inject_Z 0). rewrite <- Zlt_Qlt. apply pow10_pos. Qed.


(** ** Reading back what [format_f] printed *)

Lemma strip_sign_digit_head (a t : string) :
  all_digits a = true -> is_empty a = false ->
  strip_sign (a +:+ t) = (false, a +:+ t).
Proof.
  destruct a as [| c a]; [discriminate |]. intros H _.
  rewrite append_cons. simpl in H |- *.
  destruct (char_digit c) eqn:Hc; [| discriminate].
  destruct (Ascii.eqb c "-") eqn:E1.
  { apply Ascii.eqb_eq in E1. subst c. discriminate. }
  destruct (Ascii.eqb c "+") eqn:E2.
  { apply Ascii.eqb_eq in E2. subst c. discriminate. }
  reflexivity.
Qed.

Lemma py_float_format_f (k : nat) (q : Q) :
  exists r, py_float (format_f k q) = Ok r /\ (r == quantize k q)%Q.
Proof.
  unfold format_f, quantize.
  pose proof (pow10_pos k) as Hp. pose proof (inject_pow10_pos k) as HpQ.
  set (rd := round_half_even (q * inject_Z (pow10 k))).
  assert (Hm : 0 <= Z.abs rd) by apply Z.abs_nonneg.
  set (m := Z.abs rd) in *.
  destruct (str_of_nonneg_spec (m / pow10 k) ltac:(apply Z.div_pos; lia))
    as (Hip & Hia & Hie).
  destruct (fixed_digits_spec k m Hm) as (Hfr & Hfa & Hfl).
  apply reads_value in Hfr.
  assert (Hsplit : split_point (str_of_nonneg (m / pow10 k)
                                +:+ String "." (fixed_digits k (m mod pow10 k)))
                   = (str_of_nonneg (m / pow10 k), Some (fixed_digits k (m mod pow10 k)))).
  { apply split_point_digits. assumption. }
  assert (Hfr' : parse_digits (fixed_digits k (m mod pow10 k)) 0 = Some (m mod pow10 k)).
  { destruct (fixed_digits_spec k (m mod pow10 k)) as (H1 & _ & _).
    - apply Z.mod_pos_bound. lia.
    - apply reads_value in H1. rewrite H1. f_equal. apply Z.mod_mod. lia. }
  assert (Hlen : String.length (fixed_digits k (m mod pow10 k)) = k).
  { apply fixed_digits_spec. apply Z.mod_pos_bound. lia. }
  assert (Hval : m / pow10 k * pow10 k + m mod pow10 k = m).
  { pose proof (Z.div_mod m (pow10 k) ltac:(lia)). lia. }
  unfold py_float.
  destruct (Qlt_le_dec q 0) as [Hneg | Hpos].
  - rewrite append_cons, append_nil_l.
    cbn [strip_sign Ascii.eqb Bool.eqb].
    rewrite Hsplit, Hie. cbn [andb]. rewrite Hip, Hfr', Hlen, Hval.
    eexists. split; [reflexivity |].
    assert (Hrd : rd <= 0).
    { apply round_half_even_nonpos.
      pose proof (Qmult_lt_compat_r q 0 _ HpQ Hneg) as Hlt.
      now rewrite Qmult_0_l in Hlt. }
    unfold m. rewrite Z.abs_neq by assumption. rewrite inject_Z_opp.
    field. lra.
  - rewrite append_nil_l.
    rewrite strip_sign_digit_head by assumption.
    rewrite Hsplit, Hie. cbn [andb]. rewrite Hip, Hfr', Hlen, Hval.
    eexists. split; [reflexivity |].
    assert (Hrd : 0 <= rd).
    { apply round_half_even_nonneg. apply Qmult_le_0_compat; lra. }
    unfold m. rewrite Z.abs_eq by assumption. reflexivity.
Qed.

End PyNumFacts.


(* ===================================================================== *)
(** * Pointer presses and the selection merge                               *)
(* ===================================================================== *)

Section Selection.
Import GraphicsViewM.

(** C4, as stated, does not hold: a left press with shift alone enters the
    toggle mode, not the subtract mode (and ctrl alone enters the subtract
    mode, not the toggle mode). *)
Lemma press_shift_is_toggle_not_subtract :
  mode (mousePressEvent GraphicsSceneM.empty shift_press init) = Some "toggle"
  /\ mode (mousePressEvent GraphicsSceneM.empty shift_press init) <> Some "subtract"
  /\ mode (mousePressEvent GraphicsSceneM.empty ctrl_press init) <> Some "toggle".
Proof. vm_compute. repeat split; discriminate. Qed.

Lemma leftMouseButtonPress_mode (sc : GraphicsScene) (e : MouseEvent) (v : GraphicsView) :
  mode (leftMouseButtonPress sc e v) = Some "replace".
Proof. unfold leftMouseButtonPress. destruct (getItemAtClick sc e); reflexivity. Qed.

(** C4, amended: on a left-button press the mode is add for ctrl+shift,
    toggle for shift alone, subtract for ctrl alone, and replace for no
    modifier (and for every other combination). *)
Theorem press_selects_mode (sc : GraphicsScene) (e : MouseEvent) (v : GraphicsView) :
  button e = LeftButton ->
  (modifiers e = NoModifier -> mode (mousePressEvent sc e v) = Some "replace")
  /\ (modifiers e = Z.lor ShiftModifier ControlModifier ->
      mode (mousePressEvent sc e v) = Some "add")
  /\ (modifiers e = ShiftModifier -> mode (mousePressEvent sc e v) = Some "toggle")
  /\ (modifiers e = ControlModifier -> mode (mousePressEvent sc e v) = Some "subtract")
  /\ (modifiers e <> Z.lor ShiftModifier ControlModifier ->
      modifiers e <> ShiftModifier -> modifiers e <> ControlModifier ->
      mode (mousePressEvent sc e v) = Some "replace").
Proof.
  intros Hb. unfold mousePressEvent. rewrite Hb. cbn [is_left andb].
  repeat split.
  - intros ->. cbn. apply leftMouseButtonPress_mode.
  - intros ->. reflexivity.
  - intros ->. reflexivity.
  - intros ->. reflexivity.
  - intros H1 H2 H3.
    apply Z.eqb_neq in H1, H2, H3. rewrite H1, H2, H3.
    apply leftMouseButtonPress_mode.
Qed.

(** A left press with ctrl held. *)
Lemma press_selects_mode_witness :
  button ctrl_press = LeftButton
  /\ mode (mousePressEvent GraphicsSceneM.empty ctrl_press init) = Some "subtract".
Proof.
  split; [reflexivity |].
  apply (press_selects_mode GraphicsSceneM.empty ctrl_press init); reflexivity.
Defined.

Lemma py_set_py_list (s : gset (option nat)) : py_set (py_list s) = s.
Proof. unfold py_set, py_list. apply list_to_set_elements_L. Qed.

(** The toggle merge computes the symmetric difference of the selection
    and the struck items. *)
Lemma toggle_is_symmetric_difference (changed : list (option nat)) (v v' : GraphicsView) :
  mode v = Some "toggle" ->
  evaluate_temp_items changed v = Ok v' ->
  mode v' = Some "toggle"
  /\ py_set (old_sel_items v')
     = (py_set (old_sel_items v) ∖ py_set changed) ∪ (py_set changed ∖ py_set (old_sel_items v)).
Proof.
  intros Hm. unfold evaluate_temp_items. rewrite Hm. cbn.
  intros [= <-]. split; [assumption |].
  cbn. rewrite !py_set_py_list. unfold py_set.
  apply set_eq. intros x.
  rewrite !elem_of_union, !elem_of_difference, !elem_of_union,
    !elem_of_list_to_set, !list_elem_of_filter.
  destruct (decide (x ∈ old_sel_items v)); tauto.
Qed.

(** C5: in toggle mode, merging the same struck items twice gives back the
    original selection, as a set. *)
Theorem toggle_twice_restores_selection (changed : list (option nat)) (v : GraphicsView) :
  mode v = Some "toggle" ->
  exists v1 v2,
    evaluate_temp_items changed v = Ok v1
    /\ evaluate_temp_items changed v1 = Ok v2
    /\ py_set (old_sel_items v2) = py_set (old_sel_items v).
Proof.
  intros Hm.
  assert (H1 : exists v1, evaluate_temp_items changed v = Ok v1).
  { unfold evaluate_temp_items. rewrite Hm. cbn. eauto. }
  destruct H1 as [v1 H1].
  destruct (toggle_is_symmetric_difference _ _ _ Hm H1) as [Hm1 Hs1].
  assert (H2 : exists v2, evaluate_temp_items changed v1 = Ok v2).
  { unfold evaluate_temp_items. rewrite Hm1. cbn. eauto. }
  destruct H2 as [v2 H2].
  destruct (toggle_is_symmetric_difference _ _ _ Hm1 H2) as [_ Hs2].
  exists v1, v2. repeat split; try assumption.
  rewrite Hs2, Hs1. apply set_eq. intros x.
  rewrite !elem_of_union, !elem_of_difference, !elem_of_union, !elem_of_difference.
  destruct (decide (x ∈ py_set (old_sel_items v)));
    destruct (decide (x ∈ py_set changed)); tauto.
Qed.

(** Items 1 and 2 selected; item 1 and empty canvas struck, twice. *)
Lemma toggle_twice_restores_selection_witness :
  exists v1 v2,
    evaluate_temp_items [Some 1%nat; None] (mkView (Some "toggle") (Some false) [Some 1%nat; Some 2%nat] None)
      = Ok v1
    /\ evaluate_temp_items [Some 1%nat; None] v1 = Ok v2
    /\ py_set (old_sel_items v2) = py_set [Some 1%nat; Some 2%nat].
Proof.
  apply (toggle_twice_restores_selection [Some 1%nat; None]
           (mkView (Some "toggle") (Some false) [Some 1%nat; Some 2%nat] None)).
  reflexivity.
Defined.

End Selection.

(* ===================================================================== *)
(** * Custom polygons under a resize                                        *)
(* ===================================================================== *)

Section Rescale.
Import PickerToolEnums GraphicsButtonM.

(** C9, as stated, does not hold for every custom shape: when no raw
    coordinate is stored, a resize keeps the polygon it finds instead of
    setting it to the (empty) scaled coordinates. *)
Lemma resize_without_coords_keeps_polygon :
  let b' := update_bounding_rect (Some (mkRect 0 0 50 50)) pointless_button in
  curr_shape pointless_button = SHAPE_CUSTOM
  /\ set_rect b' = mkRect 0 0 50 50
  /\ set_polygon b' = polygon_of_rect (mkRect 0 0 5 5)
  /\ set_polygon b' <> scale_coords (set_rect b') (curr_coords b').
Proof. vm_compute. repeat split; discriminate. Qed.

(** Nor does it hold for a resize to a null rectangle, which returns at
    once: the polygon stays what it was, scaled or not. *)
Lemma resize_to_null_rect_keeps_polygon :
  let b' := update_bounding_rect (Some (mkRect 0 0 0 0)) tall_triangle_button in
  curr_shape tall_triangle_button = SHAPE_CUSTOM
  /\ curr_coords tall_triangle_button <> []
  /\ b' = tall_triangle_button
  /\ set_polygon b' <> scale_coords (set_rect b') (curr_coords b').
Proof. vm_compute. repeat split; discriminate. Qed.

Lemma update_polygon_custom (b : GraphicsButton) :
  curr_shape b = SHAPE_CUSTOM -> curr_coords b <> [] ->
  update_polygon None b
  = with_polygon (curr_coords b) (scale_coords (set_rect b) (curr_coords b)) b.
Proof.
  intros Hs Hc. unfold update_polygon. rewrite Hs. cbn.
  destruct (curr_coords b); [congruence | reflexivity].
Qed.

Lemma update_polygon_no_coords (b : GraphicsButton) :
  curr_shape b = SHAPE_CUSTOM -> curr_coords b = [] -> update_polygon None b = b.
Proof.
  intros Hs Hc. unfold update_polygon. rewrite Hs, Hc. reflexivity.
Qed.

(** C9, amended: for every custom shape, a resize ([update_bounding_rect],
    and [update_polygon] called without coordinates) leaves [curr_coords]
    unchanged.  When coordinates are stored, [update_polygon] and a resize
    to a rectangle that is not null set the polygon to those coordinates,
    x scaled by width / 25 and y by height / 25.  When no coordinate is
    stored, the polygon stays as it was.  A resize to a null rectangle
    changes nothing at all. *)
Theorem resize_rescales_custom_polygon (b : GraphicsButton) (r : QRect) :
  curr_shape b = SHAPE_CUSTOM ->
  let ratio_w (w : Z) := (inject_Z w / 25)%Q in
  let ratio_h (h : Z) := (inject_Z h / 25)%Q in
  let scaled (rc : QRect) :=
    map (fun c => mkPoint (fst c * ratio_w (width rc)) (snd c * ratio_h (height rc)))%Q
        (curr_coords b) in
  curr_coords (update_bounding_rect (Some r) b) = curr_coords b
  /\ curr_coords (update_polygon None b) = curr_coords b
  /\ set_rect (update_bounding_rect (Some r) b) = (if rect_truthy r then r else set_rect b)
  /\ set_rect (update_polygon None b) = set_rect b
  /\ (curr_coords b <> [] ->
      (rect_truthy r = true ->
       set_polygon (update_bounding_rect (Some r) b) = scaled r)
      /\ set_polygon (update_polygon None b) = scaled (set_rect b))
  /\ (curr_coords b = [] ->
      set_polygon (update_bounding_rect (Some r) b) = set_polygon b
      /\ set_polygon (update_polygon None b) = set_polygon b)
  /\ (rect_truthy r = false -> update_bounding_rect (Some r) b = b).
Proof.
  intros Hs. cbn zeta.
  assert (Hr : curr_shape (with_set_rect r b) = SHAPE_CUSTOM) by exact Hs.
  destruct (curr_coords b) as [| c cs] eqn:Hc.
  - assert (Hc' : curr_coords (with_set_rect r b) = []) by exact Hc.
    rewrite (update_polygon_no_coords b Hs Hc).
    unfold update_bounding_rect.
    destruct (rect_truthy r); cbn [negb];
      rewrite ?(update_polygon_no_coords _ Hr Hc'); cbn;
      repeat split; try assumption; try reflexivity; try congruence.
  - assert (Hne : curr_coords b <> []) by (rewrite Hc; discriminate).
    assert (Hne' : curr_coords (with_set_rect r b) <> []) by exact Hne.
    rewrite (update_polygon_custom b Hs Hne).
    unfold update_bounding_rect.
    destruct (rect_truthy r); cbn [negb];
      rewrite ?(update_polygon_custom _ Hr Hne'); cbn; rewrite ?Hc;
      repeat split; try reflexivity; try congruence; try discriminate.
Qed.

(** The triangle stretched to 50 x 100. *)
Lemma resize_rescales_custom_polygon_witness :
  set_polygon (update_bounding_rect (Some (mkRect 0 0 50 100)) triangle_button)
  = map (fun c => mkPoint (fst c * (inject_Z 50 / 25)) (snd c * (inject_Z 100 / 25)))%Q
        (curr_coords triangle_button).
Proof.
  pose proof (resize_rescales_custom_polygon triangle_button (mkRect 0 0 50 100) eq_refl)
    as H.
  cbv zeta in H. destruct H as (_ & _ & _ & _ & H & _).
  apply H; [discriminate | reflexivity].
Defined.

End Rescale.

(* ===================================================================== *)
(** * Custom shapes: the normalisation of sampled points                    *)
(* ===================================================================== *)

Section Normalisation.
Import PickerToolEnums PickerWindowM PyNum PyNumFacts.

(** The sampling loop ends by its own condition: more fuel samples no
    more points. *)
Lemma sample_curve_extra_fuel (curve : Q -> Q * Q * Q) (prec : Q) :
  forall fuel counter,
    (1 < counter + inject_Z (Z.of_nat fuel) * prec)%Q ->
    sample_curve (S fuel) curve prec counter = sample_curve fuel curve prec counter.
Proof.
  induction fuel as [| fuel IH]; intros counter H.
  - cbn [sample_curve].
    destruct (Qle_bool counter 1) eqn:E; [| reflexivity].
    apply Qle_bool_iff in E. change (inject_Z (Z.of_nat 0)) with 0%Q in H. lra.
  - change (sample_curve (S (S fuel)) curve prec counter)
      with (if Qle_bool counter 1
            then (format_f 3 (fst (fst (curve counter))), format_f 3 (snd (curve counter)))
                   :: sample_curve (S fuel) curve prec (counter + prec)%Q
            else []).
    change (sample_curve (S fuel) curve prec counter)
      with (if Qle_bool counter 1
            then (format_f 3 (fst (fst (curve counter))), format_f 3 (snd (curve counter)))
                   :: sample_curve fuel curve prec (counter + prec)%Q
            else []).
    destruct (Qle_bool counter 1); [| reflexivity].
    rewrite IH; [reflexivity |].
    rewrite Nat2Z.inj_succ, <- Z.add_1_r, inject_Z_plus in H.
    change (inject_Z 1) with 1%Q in H. lra.
Qed.

Lemma sample_fuel_enough (p : Precision) (curve : Q -> Q * Q * Q) :
  sample_curve (S (sample_fuel p)) curve (PRECISIONS_DICT p) 0
  = sample_curve (sample_fuel p) curve (PRECISIONS_DICT p) 0.
Proof. apply sample_curve_extra_fuel. destruct p; reflexivity. Qed.

Lemma sample_curve_first (curve : Q -> Q * Q * Q) (prec : Q) (fuel : nat) :
  sample_curve (S fuel) curve prec 0 <> [].
Proof.
  cbn [sample_curve]. change (Qle_bool 0 1) with true. cbv beta iota zeta.
  discriminate.
Qed.

Lemma sample_curve_constant (curve : Q -> Q * Q * Q) (c : Q * Q * Q) (prec : Q) :
  (forall t, curve t = c) ->
  forall fuel counter,
    exists n, sample_curve fuel curve prec counter
              = repeat (format_f 3 (fst (fst c)), format_f 3 (snd c)) n.
Proof.
  intros Hc. induction fuel as [| fuel IH]; intros counter.
  - exists 0%nat. reflexivity.
  - cbn [sample_curve]. destruct (Qle_bool counter 1).
    + destruct (IH (counter + prec)%Q) as [n Hn].
      exists (S n). rewrite Hc, Hn. reflexivity.
    + exists 0%nat. reflexivity.
Qed.

Lemma Qlt_b_irrefl (a : Q) : Qlt_b a a = false.
Proof.
  unfold Qlt_b. assert (H : Qle_bool a a = true) by (apply Qle_bool_iff; lra).
  now rewrite H.
Qed.

Lemma bounds_of_equal_points (sx sy : string) (vx vy : Q) (n : nat) :
  py_float sx = Ok vx -> py_float sy = Ok vy ->
  res_fold bounds_step (repeat (sx, sy) n) (Some (vx, vx, vy, vy))
  = Ok (Some (vx, vx, vy, vy)).
Proof.
  intros Hx Hy. induction n as [| n IH]; [reflexivity |].
  cbn [repeat res_fold]. unfold bounds_step at 1. cbn [fst snd].
  rewrite Hx, Hy. cbn [res_bind]. rewrite !Qlt_b_irrefl. cbn [res_bind].
  exact IH.
Qed.

(** Points that all coincide span a square of side zero, and the scale
    factor cannot be computed. *)
Lemma normalize_equal_points (x y : Q) (n : nat) :
  normalize_points (repeat (format_f 3 x, format_f 3 y) (S n)) = Err ZeroDivisionError.
Proof.
  destruct (py_float_format_f 3 x) as (vx & Hx & _).
  destruct (py_float_format_f 3 y) as (vy & Hy & _).
  unfold normalize_points. cbn [repeat res_fold].
  unfold bounds_step at 1. cbn [fst snd]. rewrite Hx, Hy. cbn [res_bind].
  rewrite !Qlt_b_irrefl. cbn [res_bind].
  rewrite (bounds_of_equal_points _ _ _ _ n Hx Hy). cbn [res_bind].
  assert (Hz : forall a b : Q,
             py_div MINIMUM_SIZE (if Qlt_b (b - b) (a - a) then a - a else b - b)%Q
             = Err ZeroDivisionError).
  { intros a b. unfold py_div.
    assert (Ha : Qeq_bool (a - a) 0 = true) by (apply Qeq_bool_iff; ring).
    assert (Hb : Qeq_bool (b - b) 0 = true) by (apply Qeq_bool_iff; ring).
    destruct (Qlt_b (b - b) (a - a)); [now rewrite Ha | now rewrite Hb]. }
  rewrite Hz. reflexivity.
Qed.

(** C10: when the host samples the same point all along the selected
    curve, [get_shape_from_scene] raises [ZeroDivisionError] at the
    computation of the scale factor, and the preview is left as it was. *)
Theorem get_shape_from_scene_divides_by_zero
    (h : Host) (w : PickerWindow) (curve : string) (c : Q * Q * Q) :
  ls_selection h = [curve] ->
  (forall t, pointOnCurve h curve t = c) ->
  get_shape_from_scene h w = (Err ZeroDivisionError, w).
Proof.
  intros Hsel Hc. unfold get_shape_from_scene, get_selected_items, bind.
  rewrite Hsel. cbn [GraphicsButtonM.is_nil length Nat.ltb Nat.leb ret get].
  destruct (sample_curve_constant _ c (PRECISIONS_DICT (shape_precision w)) Hc
              (sample_fuel (shape_precision w)) 0%Q) as [n Hn].
  destruct n as [| n].
  - exfalso. unfold sample_fuel in Hn. now apply sample_curve_first in Hn.
  - unfold lift. rewrite Hn, normalize_equal_points. reflexivity.
Qed.

(** A curve shrunk to a point. *)
Lemma get_shape_from_scene_divides_by_zero_witness :
  get_shape_from_scene still_host blank_window = (Err ZeroDivisionError, blank_window).
Proof.
  apply (get_shape_from_scene_divides_by_zero still_host blank_window "curve1"
           (3 # 2, 0, - (1 # 4))%Q).
  - reflexivity.
  - intros t. reflexivity.
Defined.

End Normalisation.

(* ===================================================================== *)
(** * Loops that mutate the selected buttons                                *)
(* ===================================================================== *)

Section ButtonLoops.
Import GraphicsSceneM PickerWindowM.

Lemma for_each_buttons (body : nat -> M GraphicsScene unit)
    (g : GraphicsButton -> GraphicsButton) :
  steps_as body g ->
  forall (l : list nat) (sc : GraphicsScene),
    NoDup l ->
    (forall i, i ∈ l -> is_Some (button_at sc i)) ->
    exists sc',
      for_each body l sc = (Ok tt, sc')
      /\ members sc' = members sc
      /\ ref_item sc' = ref_item sc
      /\ (forall i b, i ∈ l -> objs sc !! i = Some (Button b) ->
                      objs sc' !! i = Some (Button (g b)))
      /\ (forall i, i ∉ l -> objs sc' !! i = objs sc !! i).
Proof.
  intros Hbody. induction l as [| a l IH]; intros sc Hnd Hall.
  - exists sc. cbn. repeat split; try reflexivity. intros i b Hi. inversion Hi.
  - apply NoDup_cons in Hnd as [Ha Hnd].
    destruct (Hall a ltac:(left)) as [ba Hba].
    unfold button_at in Hba.
    destruct (objs sc !! a) as [[b0 |] |] eqn:Ea; try discriminate.
    injection Hba as ->.
    destruct (Hbody a sc ba Ea) as (F & HF & HFb).
    set (sc1 := with_objs (alter F a (objs sc)) sc) in *.
    assert (Hne : forall i, i <> a -> objs sc1 !! i = objs sc !! i).
    { intros i Hi. unfold sc1. cbn. apply lookup_alter_ne. congruence. }
    destruct (IH sc1 Hnd) as (sc' & Hrun & Hm & Hr & Hin & Hout).
    { intros i Hi. unfold button_at. rewrite Hne.
      - apply Hall. now right.
      - intros ->. contradiction. }
    exists sc'. cbn [for_each]. unfold bind. rewrite HF. split; [exact Hrun |].
    split; [rewrite Hm; reflexivity |]. split; [rewrite Hr; reflexivity |]. split.
    + intros i b Hi Hb. apply elem_of_cons in Hi as [-> | Hi].
      * rewrite Hout by assumption. unfold sc1. cbn.
        rewrite lookup_alter_eq, Hb. cbn. f_equal.
        rewrite Ea in Hb. injection Hb as <-. exact HFb.
      * apply Hin; [assumption |]. rewrite Hne; [assumption |].
        intros ->. contradiction.
    + intros i Hi. apply not_elem_of_cons in Hi as [Hia Hil].
      rewrite Hout by assumption. now apply Hne.
Qed.

(** The selection is the same after a loop that keeps the [selected] flag
    of every button it touches. *)
Lemma selection_preserved (g : GraphicsButton -> GraphicsButton)
    (l : list nat) (sc sc' : GraphicsScene) :
  (forall b, selected (base (g b)) = selected (base b)) ->
  members sc' = members sc ->
  (forall i, i ∈ l -> is_Some (button_at sc i)) ->
  (forall i b, i ∈ l -> objs sc !! i = Some (Button b) ->
               objs sc' !! i = Some (Button (g b))) ->
  (forall i, i ∉ l -> objs sc' !! i = objs sc !! i) ->
  selectedItems sc' = selectedItems sc.
Proof.
  intros Hg Hm Hall Hin Hout. unfold selectedItems. rewrite Hm.
  apply list_filter_iff. intros i.
  assert (His : is_selected sc' i = is_selected sc i); [| now rewrite His].
  unfold is_selected. destruct (decide (i ∈ l)) as [Hi | Hi].
  - destruct (Hall i Hi) as [b Hb]. unfold button_at in Hb.
    destruct (objs sc !! i) as [[b0 |] |] eqn:E; try discriminate.
    rewrite (Hin i b0 Hi E). cbn. apply Hg.
  - now rewrite Hout.
Qed.

Lemma selectedItems_NoDup (sc : GraphicsScene) :
  NoDup (members sc) -> NoDup (selectedItems sc).
Proof. intros H. unfold selectedItems. now apply NoDup_filter. Qed.

(** Running a scene computation on the current scene. *)
Lemma on_curr_scene_run {A} (m : M GraphicsScene A) (w : PickerWindow)
    (idx : nat) (name : string) (sc sc' : GraphicsScene) (r : res A) :
  curr_scene w = Some idx -> tabs w !! idx = Some (name, sc) ->
  m sc = (r, sc') ->
  on_curr_scene m w = (r, with_tabs (<[idx := (name, sc')]> (tabs w)) w).
Proof.
  intros Hc Ht Hm. unfold on_curr_scene, on_scene. now rewrite Hc, Ht, Hm.
Qed.

Lemma with_tabs_same (w : PickerWindow) (idx : nat) (name : string) (sc : GraphicsScene) :
  tabs w !! idx = Some (name, sc) ->
  with_tabs (<[idx := (name, sc)]> (tabs w)) w = w.
Proof.
  intros Ht. rewrite list_insert_id by assumption. now destruct w.
Qed.

End ButtonLoops.

(* ===================================================================== *)
(** * Align                                                                 *)
(* ===================================================================== *)

Section Align.
Import GraphicsSceneM GraphicsButtonM PickerWindowM.

Lemma align_item_x_steps (x_center : Q) :
  steps_as (align_item_x x_center) (moved_to_center_x x_center).
Proof.
  intros i sc b H. unfold align_item_x, bind, get, lift, mutate, modify.
  rewrite H. cbn [convert_from_center pt_x px py].
  eexists. split; reflexivity.
Qed.


Lemma sum_centers_x_spec (sc : GraphicsScene) (l : list nat) :
  (forall i, i ∈ l -> is_Some (button_at sc i)) ->
  forall acc,
    exists t,
      res_fold (fun total i =>
                  let? c := get_center (objs sc !! i) in
                  let? v := pt_x c in
                  Ok (total + v)%Q) l acc = Ok t
      /\ (t == acc + Qsum (map (center_x_at sc) l))%Q.
Proof.
  induction l as [| a l IH]; intros Hall acc.
  - exists acc. split; [reflexivity |]. cbn. ring.
  - destruct (Hall a ltac:(left)) as [b Hb].
    assert (Hc : center_x_at sc a = center_x b) by (unfold center_x_at; now rewrite Hb).
    unfold button_at in Hb.
    destruct (objs sc !! a) as [[b0 |] |] eqn:Ea; try discriminate.
    injection Hb as ->.
    destruct (IH (fun i Hi => Hall i ltac:(now right)) (acc + center_x b)%Q)
      as (t & Ht & Hv).
    exists t. split.
    + cbn [res_fold]. rewrite Ea. exact Ht.
    + rewrite Hv. cbn [map Qsum fold_right]. rewrite Hc. fold (Qsum (map (center_x_at sc) l)).
      ring.
Qed.

Lemma len_nonzero {A} (l : list A) : l <> [] -> Qeq_bool (len l) 0 = false.
Proof.
  intros Hl. destruct (Qeq_bool (len l) 0) eqn:E; [| reflexivity].
  apply Qeq_bool_iff in E. unfold len in E.
  change 0%Q with (inject_Z 0) in E. apply inject_Z_injective in E.
  destruct l; [congruence | discriminate].
Qed.


End Align.

(* ===================================================================== *)
(** * Mirror                                                                *)
(* ===================================================================== *)

Section Mirror.
Import PickerToolEnums GraphicsSceneM GraphicsButtonM PickerWindowM.









End Mirror.

(* ===================================================================== *)
(** * A small window to run the operations on                               *)
(* ===================================================================== *)

Section Examples.
Import PickerToolEnums GraphicsSceneM GraphicsButtonM PickerWindowM.

Lemma two_rects_selected : selectedItems two_rects = [0%nat; 1%nat].
Proof. vm_compute. reflexivity. Qed.

Lemma two_rects_buttons (i : nat) :
  i ∈ selectedItems two_rects -> is_Some (button_at two_rects i).
Proof.
  rewrite two_rects_selected. intros Hi.
  apply elem_of_cons in Hi as [-> | Hi]; [vm_compute; eauto |].
  apply elem_of_cons in Hi as [-> | Hi]; [vm_compute; eauto |].
  inversion Hi.
Qed.

Lemma two_rects_NoDup : NoDup (members two_rects).
Proof. apply (bool_decide_unpack _). vm_compute. exact I. Qed.

(** The example of the specification: a 25 x 25 rectangle at (0, 0),
    mirrored on X about the world origin, ends with its top-left corner
    at (-25, 0). *)
Example mirror_rect_at_origin :
  match mirror_sel_btns two_rects_window with
  | (Ok tt, w') =>
      match tabs w' !! 0%nat with
      | Some (_, sc') =>
          match button_at sc' 0%nat with
          | Some b => (px (pos (base b)) == - (25))%Q /\ (py (pos (base b)) == 0)%Q
          | None => False
          end
      | None => False
      end
  | _ => False
  end.
Proof. vm_compute. split; reflexivity. Qed.

End Examples.

Section Witnesses.
Import PickerToolEnums GraphicsSceneM GraphicsButtonM PickerWindowM.



End Witnesses.

(* ===================================================================== *)
(** * Operations invoked without a selection                                *)
(* ===================================================================== *)

Section NoSelection.
Import PickerToolEnums GraphicsSceneM GraphicsButtonM PickerWindowM.

(** The operations that test the selection first return at once and leave
    the window as it is. *)
Lemma guarded_operations_without_selection
    (w : PickerWindow) (idx : nat) (name : string) (sc : GraphicsScene) :
  curr_scene w = Some idx ->
  tabs w !! idx = Some (name, sc) ->
  selectedItems sc = [] ->
  mirror_sel_btns w = (Ok tt, w)
  /\ bring_forward w = (Ok tt, w)
  /\ send_backward w = (Ok tt, w)
  /\ update_btn [] w = (Ok tt, w)
  /\ delete_btn [] w = (Ok tt, w)
  /\ set_ref_item [] w = (Ok tt, w).
Proof.
  intros Hc Ht Hsel.
  assert (Hpure : forall A (m : M GraphicsScene A) r,
             m sc = (r, sc) -> on_curr_scene m w = (r, w)).
  { intros A m r Hm.
    rewrite (on_curr_scene_run m w idx name sc sc r Hc Ht Hm).
    now rewrite with_tabs_same. }
  repeat split.
  - unfold mirror_sel_btns, bind at 1, get at 1. unfold bind at 1.
    rewrite (Hpure _ (let* s := get in ret (selectedItems s)) (Ok [])).
    + reflexivity.
    + unfold bind, get, ret. now rewrite Hsel.
  - apply Hpure. unfold bind, get. now rewrite Hsel.
  - apply Hpure. unfold bind, get. now rewrite Hsel.
  - unfold update_btn, bind at 1, get at 1. apply Hpure.
    unfold bind, get. cbn [is_nil]. now rewrite Hsel.
  - apply Hpure. unfold bind, get. cbn [is_nil]. now rewrite Hsel.
  - apply Hpure. unfold bind, get. cbn [is_nil]. now rewrite Hsel.
Qed.

(** C6 fails on the code: [align_by_x] and [align_by_y] do not test the
    selection.  With nothing selected and no reference shape they divide
    the sum of the centers by a count of zero and raise. *)
Theorem align_without_selection_raises
    (w : PickerWindow) (idx : nat) (name : string) (sc : GraphicsScene) :
  curr_scene w = Some idx ->
  tabs w !! idx = Some (name, sc) ->
  selectedItems sc = [] ->
  ref_item sc = None ->
  align_by_x w = (Err ZeroDivisionError, w)
  /\ align_by_y w = (Err ZeroDivisionError, w).
Proof.
  intros Hc Ht Hsel Href.
  assert (Hpure : forall A (m : M GraphicsScene A) r,
             m sc = (r, sc) -> on_curr_scene m w = (r, w)).
  { intros A m r Hm.
    rewrite (on_curr_scene_run m w idx name sc sc r Hc Ht Hm).
    now rewrite with_tabs_same. }
  split; apply Hpure.
  - unfold align_by_x_scene, bind, get. rewrite Href, Hsel. reflexivity.
  - unfold align_by_y_scene, bind, get. rewrite Href, Hsel. reflexivity.
Qed.

(** A fresh tab: nothing selected, no reference shape. *)
Lemma align_without_selection_raises_witness :
  align_by_x empty_tab_window = (Err ZeroDivisionError, empty_tab_window)
  /\ align_by_y empty_tab_window = (Err ZeroDivisionError, empty_tab_window).
Proof.
  apply (align_without_selection_raises empty_tab_window 0%nat "default"
           GraphicsSceneM.empty); reflexivity.
Defined.

End NoSelection.

(* ===================================================================== *)
(** * Import: a file that is missing                                        *)
(* ===================================================================== *)

Section MissingFile.
Import PickerToolEnums GraphicsSceneM GraphicsButtonM PickerWindowM.

(** C7 fails on the code: for a path that is not on disk, [load_xml_file]
    prints its message but does not return; it goes on to parse the file,
    and the exception of the parser propagates. *)
Theorem load_xml_file_missing_raises (w : PickerWindow) (filename : string) :
  PyNum.is_empty filename = false ->
  disk w !! filename = None ->
  load_xml_file filename w
  = (Err FileNotFoundError,
     with_console (console w ++ ["File does not exist: " +:+ filename]) w).
Proof.
  intros Hne Hmiss. unfold load_xml_file. rewrite Hne.
  unfold bind at 1, get at 1. unfold path_exists.
  rewrite bool_decide_eq_false_2 by (rewrite Hmiss; intros [? ?]; discriminate).
  cbn [negb]. unfold bind at 1, print, modify.
  unfold bind at 1, et_parse, bind at 1, get. cbn [disk with_console].
  now rewrite Hmiss.
Qed.

(** A path that is not on an empty disk. *)
Lemma load_xml_file_missing_raises_witness :
  load_xml_file "missing.xml" blank_window
  = (Err FileNotFoundError,
     with_console (console blank_window ++ ["File does not exist: " +:+ "missing.xml"])
                  blank_window).
Proof.
  apply (load_xml_file_missing_raises blank_window "missing.xml"); reflexivity.
Defined.

End MissingFile.

(* ===================================================================== *)
(** * Import: an image whose file is missing                                *)
(* ===================================================================== *)

Section MissingImage.
Import PickerToolEnums GraphicsSceneM GraphicsButtonM PickerWindowM.

Lemma add_then_mutate (it : Item) (f g : Item -> Item) (sc : GraphicsScene) :
  (let* j := addItem it in
   let* _ := mutate j f in
   mutate j g) sc
  = (Ok tt, scene_add sc (g (f it))).
Proof.
  unfold bind, addItem, mutate, modify, scene_add, with_objs. cbn.
  now rewrite !alter_insert_eq.
Qed.

(** C8: an image entry whose stored path is not on disk is loaded as the
    bundled placeholder [lost_image.png], marked as not a good image, at
    the stored position and z-value; the loop over the images then goes on
    with the next entry. *)
Theorem load_image_missing_path
    (w : PickerWindow) (idx : nat) (name : string) (sc : GraphicsScene)
    (image pos_element : Element) (path : string) (x y z : Q) :
  tabs w !! idx = Some (name, sc) ->
  attrib_get "filepath" (attrib_of image) = Ok path ->
  disk w !! path = None ->
  getchildren image = [pos_element] ->
  tag_of pos_element = "pos" ->
  float_attr "x" pos_element = Ok x ->
  float_attr "y" pos_element = Ok y ->
  float_attr "z" pos_element = Ok z ->
  let placeholder :=
    mkPixmap (mkBase (mkPoint x y) z false true true) false
             (path_join (path_join (working_dir w) "config") "lost_image.png") in
  let w' := with_tabs (<[idx := (name, scene_add sc (Pixmap placeholder))]> (tabs w)) w in
  load_image idx image w = (Ok (Some z), w')
  /\ forall rest zv,
       fold_M (fun _ im => load_image idx im) (image :: rest) zv w
       = fold_M (fun _ im => load_image idx im) rest (Some z) w'.
Proof.
  intros Ht Hpath Hmiss Hch Htag Hx Hy Hz. cbv zeta.
  assert (Hload : load_image idx image w
                  = (Ok (Some z),
                     with_tabs (<[idx := (name,
                        scene_add sc (Pixmap
                          (mkPixmap (mkBase (mkPoint x y) z false true true) false
                             (path_join (path_join (working_dir w) "config")
                                        "lost_image.png"))))]> (tabs w)) w)).
  { unfold load_image, bind at 1, get at 1. unfold bind at 1, lift at 1.
    rewrite Hpath. unfold bind at 1, lift at 1. rewrite Hch.
    cbn [res_fold]. unfold load_image_attr at 1. rewrite Htag.
    change (String.eqb "pos" "pos") with true. cbv iota.
    rewrite Hx, Hy, Hz. cbn [res_bind res_fold].
    unfold path_exists.
    rewrite bool_decide_eq_false_2 by (rewrite Hmiss; intros [? ?]; discriminate).
    cbn [negb]. unfold bind at 1, on_scene. rewrite Ht.
    rewrite add_then_mutate. reflexivity. }
  split; [exact Hload |].
  intros rest zv. cbn [fold_M]. unfold bind at 1. now rewrite Hload.
Qed.

(** An image entry read on an empty disk. *)
Lemma load_image_missing_path_witness :
  load_image 0%nat lost_image_entry empty_tab_window
  = (Ok (Some (- (100 # 100))%Q),
     with_tabs
       (<[0%nat := ("default",
            scene_add GraphicsSceneM.empty
              (Pixmap (mkPixmap (mkBase (mkPoint (- (1250 # 100)) (325 # 100))
                                        (- (100 # 100)) false true true)%Q
                                false "/opt/picker_tool/config/lost_image.png")))]>
          (tabs empty_tab_window))
       empty_tab_window).
Proof.
  apply (load_image_missing_path empty_tab_window 0%nat "default" GraphicsSceneM.empty
           lost_image_entry
           (Elem "pos" [("x", "-12.50"); ("y", "3.25"); ("z", "-1.00")] [])
           "/home/rigger/body.png"); reflexivity.
Defined.

End MissingImage.

(* ===================================================================== *)
(** * Export followed by import                                             *)
(* ===================================================================== *)

Section RoundTrip.
Import PickerToolEnums GraphicsSceneM GraphicsButtonM PickerWindowM PyNum PyNumFacts.

#[local] Arguments format_f : simpl never.
#[local] Arguments format_d : simpl never.
#[local] Arguments format_02d : simpl never.
#[local] Arguments py_float : simpl never.
#[local] Arguments py_int : simpl never.

(** ** What the export loop writes *)



(** ** The tags the export writes are names *)





(** ** The texts the export writes *)

















#[local] Arguments Xml.normalize_attr : simpl never.

(** ** The document the export writes can be read back *)












(** ** What the parser returns for it *)












(** ** Reading back one shape element *)



Lemma update_polygon_None_keeps (b : GraphicsButton) :
  base (update_polygon None b) = base b
  /\ sel_objs (update_polygon None b) = sel_objs b
  /\ brush_col (update_polygon None b) = brush_col b
  /\ text (update_polygon None b) = text b
  /\ set_rect (update_polygon None b) = set_rect b
  /\ curr_shape (update_polygon None b) = curr_shape b
  /\ curr_coords (update_polygon None b) = curr_coords b.
Proof.
  unfold update_polygon.
  destruct (negb (String.eqb (curr_shape b) SHAPE_CUSTOM)); [repeat split |].
  destruct (is_nil (curr_coords b)); repeat split.
Qed.


(** ** Putting the loaded items in the scene of the new tab *)

Lemma add_then_place (it : Item) (f : Item -> Item) (g : Q -> Item -> Item)
    (h : Item -> Item) (z : Q) (sc : GraphicsScene) :
  (let* j := addItem it in
   let* _ := mutate j f in
   let* z' := lift (read_z_val (Some z)) in
   let* _ := mutate j (g z') in
   mutate j h) sc
  = (Ok tt, scene_add sc (h (g z (f it)))).
Proof.
  unfold bind, addItem, mutate, modify, lift, scene_add, with_objs. cbn.
  now rewrite !alter_insert_eq.
Qed.







(** ** The scene the import builds *)





(** ** Export, then import *)





(** ** Tabs the statement leaves out *)


(** A tab name with a colon is written as a tag with a prefix that is
    declared nowhere: the import cannot parse the file either. *)
Lemma export_import_fails_on_prefixed_tab_name :
  exists w1,
    save_xml_file "picker.xml" [0%nat] prefixed_tab_window = (Ok (Some "picker.xml"), w1)
    /\ fst (load_xml_file "picker.xml" w1) = Err ParseError.
Proof.
  eexists. split; [vm_compute; reflexivity |]. vm_compute. reflexivity.
Qed.

(** A control character in a label is written as it is, and the import
    cannot parse the file. *)
Lemma export_import_fails_on_control_character :
  exists w1,
    save_xml_file "picker.xml" [0%nat] control_label_window = (Ok (Some "picker.xml"), w1)
    /\ fst (load_xml_file "picker.xml" w1) = Err ParseError.
Proof.
  eexists. split; [vm_compute; reflexivity |]. vm_compute. reflexivity.
Qed.

(** A tab inside a label comes back as a blank: the shape imported does not
    have the label of the shape exported. *)
Lemma export_import_blanks_tab_in_label :
  exists w1 w2 name sc',
    save_xml_file "picker.xml" [0%nat] tabbed_label_window = (Ok (Some "picker.xml"), w1)
    /\ load_xml_file "picker.xml" w1 = (Ok (Some "picker.xml"), w2)
    /\ tabs w2 !! 1%nat = Some (name, sc')
    /\ map text (buttons_of (scene_objects sc')) = ["a b"]
    /\ "a b" <> tabbed_label.
Proof.
  eexists _, _, _, _. split; [vm_compute; reflexivity |].
  split; [vm_compute; reflexivity |].
  split; [vm_compute; reflexivity |].
  split; [vm_compute; reflexivity | discriminate].
Qed.


End RoundTrip.

(* ===================================================================== *)
(** * Align: the other axis, and the reference shape                        *)
(* ===================================================================== *)

Section AlignMore.
Import GraphicsSceneM GraphicsButtonM PickerWindowM.

Lemma align_item_y_steps (y_center : Q) :
  steps_as (align_item_y y_center) (moved_to_center_y y_center).
Proof.
  intros i sc b H. unfold align_item_y, bind, get, lift, mutate, modify.
  rewrite H. cbn [convert_from_center pt_y px py].
  eexists. split; reflexivity.
Qed.









Lemma moved_x_undone (x : Q) (b : GraphicsButton) :
  with_base (setX (px (pos (base b)))) (moved_to_center_x x b) = b.
Proof. destruct b as [[[x0 y0] z s sl mv] ? ? ? ? ? ? ? ? ? ? ? ?]. reflexivity. Qed.

(** X3: [align_by_x] changes nothing but the x position of the selected
    shapes: the items of the scene, the reference shape and the selection
    stay, the other items are untouched, and putting back the old x of a
    selected shape gives the shape it was. *)
Theorem align_by_x_moves_only_x
    (w : PickerWindow) (idx : nat) (name : string) (sc : GraphicsScene) :
  curr_scene w = Some idx ->
  tabs w !! idx = Some (name, sc) ->
  NoDup (members sc) ->
  (forall i, i ∈ selectedItems sc -> is_Some (button_at sc i)) ->
  (ref_item sc = None /\ selectedItems sc <> [])
  \/ (exists r, ref_item sc = Some r /\ is_Some (button_at sc r)) ->
  exists sc',
    align_by_x w = (Ok tt, with_tabs (<[idx := (name, sc')]> (tabs w)) w)
    /\ members sc' = members sc
    /\ ref_item sc' = ref_item sc
    /\ selectedItems sc' = selectedItems sc
    /\ (forall i, i ∉ selectedItems sc -> objs sc' !! i = objs sc !! i)
    /\ (forall i b, i ∈ selectedItems sc -> objs sc !! i = Some (Button b) ->
          exists b', objs sc' !! i = Some (Button b')
                     /\ with_base (setX (px (pos (base b)))) b' = b).
Proof.
  intros Hc Ht Hnd Hall Hcase.
  assert (Hx : exists x,
             align_by_x_scene sc = for_each (align_item_x x) (selectedItems sc) sc).
  { destruct Hcase as [[Href Hsel] | (r & Href & [rb Hrb])].
    - destruct (sum_centers_x_spec sc (selectedItems sc) Hall 0%Q) as (total & Htot & _).
      exists (total / len (selectedItems sc))%Q.
      unfold align_by_x_scene, bind, get, lift. rewrite Href.
      unfold sum_centers. rewrite Htot.
      unfold py_div. now rewrite (len_nonzero _ Hsel).
    - unfold button_at in Hrb.
      destruct (objs sc !! r) as [[b0 |] |] eqn:Er; try discriminate.
      exists (center_x b0).
      unfold align_by_x_scene, bind, get, lift. rewrite Href, Er. reflexivity. }
  destruct Hx as [x Hx].
  destruct (for_each_buttons _ _ (align_item_x_steps x) (selectedItems sc) sc
              (selectedItems_NoDup sc Hnd) Hall)
    as (sc' & Hrun & Hm & Hr & Hin & Hout).
  exists sc'. split; [| repeat split; try assumption].
  - unfold align_by_x. apply on_curr_scene_run with (sc := sc); try assumption.
    now rewrite Hx.
  - apply (selection_preserved (moved_to_center_x x) (selectedItems sc)); auto.
  - intros i b Hi Hb. exists (moved_to_center_x x b). split; [now apply Hin |].
    apply moved_x_undone.
Qed.

(** [align_by_x] on the two rectangles. *)
Lemma align_by_x_moves_only_x_witness :
  exists sc',
    align_by_x two_rects_window
    = (Ok tt, with_tabs (<[0%nat := ("default", sc')]> (tabs two_rects_window))
                        two_rects_window)
    /\ members sc' = members two_rects
    /\ ref_item sc' = ref_item two_rects
    /\ selectedItems sc' = selectedItems two_rects
    /\ (forall i, i ∉ selectedItems two_rects -> objs sc' !! i = objs two_rects !! i)
    /\ (forall i b, i ∈ selectedItems two_rects ->
          objs two_rects !! i = Some (Button b) ->
          exists b', objs sc' !! i = Some (Button b')
                     /\ with_base (setX (px (pos (base b)))) b' = b).
Proof.
  apply (align_by_x_moves_only_x two_rects_window 0%nat "default" two_rects).
  - reflexivity.
  - reflexivity.
  - exact two_rects_NoDup.
  - exact two_rects_buttons.
  - left. split; [reflexivity |]. rewrite two_rects_selected. discriminate.
Defined.

End AlignMore.

(* ===================================================================== *)
(** * Loops of method calls on items of any kind                            *)
(* ===================================================================== *)

Section ItemLoops.
Import GraphicsSceneM PickerWindowM.

Lemma with_objs_same (sc : GraphicsScene) : with_objs (objs sc) sc = sc.
Proof. now destruct sc. Qed.

Lemma for_each_mutate (F : nat -> Item -> Item) (l : list nat) (sc : GraphicsScene) :
  for_each (fun i => mutate i (F i)) l sc
  = (Ok tt, with_objs (mutate_all F l (objs sc)) sc).
Proof.
  revert sc. induction l as [| a l IH]; intros sc.
  - cbn. now rewrite with_objs_same.
  - cbn [for_each]. unfold bind at 1. unfold mutate at 1, modify.
    rewrite IH. reflexivity.
Qed.

Lemma mutate_all_notin (F : nat -> Item -> Item) (l : list nat) (o : gmap nat Item)
    (i : nat) :
  i ∉ l -> mutate_all F l o !! i = o !! i.
Proof.
  revert o. induction l as [| a l IH]; intros o Hi; [reflexivity |].
  apply not_elem_of_cons in Hi as [Hia Hil].
  cbn. fold (mutate_all F l (alter (F a) a o)). rewrite IH by assumption.
  apply lookup_alter_ne. congruence.
Qed.

Lemma mutate_all_in (F : nat -> Item -> Item) (l : list nat) (o : gmap nat Item)
    (i : nat) :
  NoDup l -> i ∈ l -> mutate_all F l o !! i = F i <$> o !! i.
Proof.
  revert o. induction l as [| a l IH]; intros o Hnd Hi; [inversion Hi |].
  apply NoDup_cons in Hnd as [Ha Hnd].
  cbn. fold (mutate_all F l (alter (F a) a o)).
  apply elem_of_cons in Hi as [-> | Hi].
  - rewrite mutate_all_notin by assumption. apply lookup_alter_eq.
  - rewrite IH by assumption. f_equal. apply lookup_alter_ne.
    intros ->. contradiction.
Qed.

(** A loop that calls the same method on every item, whatever the order
    and with repetitions allowed, provided the method is idempotent. *)
Lemma mutate_all_idem (F : nat -> Item -> Item) (l : list nat) (o : gmap nat Item)
    (i : nat) :
  (forall j it, F j (F j it) = F j it) ->
  mutate_all F l o !! i = if decide (i ∈ l) then F i <$> o !! i else o !! i.
Proof.
  intros Hid. revert o. induction l as [| a l IH]; intros o.
  - cbn. destruct (decide (i ∈ [])) as [H | H]; [inversion H | reflexivity].
  - cbn. fold (mutate_all F l (alter (F a) a o)). rewrite IH.
    destruct (decide (i = a)) as [-> | Hne].
    + rewrite lookup_alter_eq.
      destruct (decide (a ∈ a :: l)) as [_ | H]; [| exfalso; apply H; left].
      destruct (decide (a ∈ l)); [| reflexivity].
      destruct (o !! a); cbn; [now rewrite Hid | reflexivity].
    + rewrite lookup_alter_ne by congruence.
      destruct (decide (i ∈ l)) as [H | H];
        destruct (decide (i ∈ a :: l)) as [H' | H']; try reflexivity.
      * exfalso. apply H'. now right.
      * apply elem_of_cons in H' as [? | ?]; contradiction.
Qed.

Lemma selection_of_objs (sc sc' : GraphicsScene) :
  members sc' = members sc ->
  (forall i, selected ∘ item_base <$> objs sc' !! i = selected ∘ item_base <$> objs sc !! i) ->
  selectedItems sc' = selectedItems sc.
Proof.
  intros Hm Hs. unfold selectedItems. rewrite Hm. apply list_filter_iff. intros i.
  assert (His : is_selected sc' i = is_selected sc i); [| now rewrite His].
  unfold is_selected. specialize (Hs i).
  destruct (objs sc' !! i), (objs sc !! i); cbn in Hs; congruence.
Qed.

End ItemLoops.

(* ===================================================================== *)
(** * Stacking order                                                        *)
(* ===================================================================== *)

Section ZOrder.
Import GraphicsSceneM PickerWindowM.

Lemma shift_z_run (d : Q) (sc : GraphicsScene) :
  let F := fun _ : nat => item_with_base (fun b => base_setZValue (zValue b + d)%Q b) in
  (let* sc0 := get in
   let sel_items := selectedItems sc0 in
   if GraphicsButtonM.is_nil sel_items then ret tt
   else for_each (fun i => mutate i (F i)) sel_items) sc
  = (Ok tt, with_objs (mutate_all F (selectedItems sc) (objs sc)) sc).
Proof.
  intros F. unfold bind, get. destruct (selectedItems sc) eqn:E.
  - cbn. now rewrite with_objs_same.
  - cbn [GraphicsButtonM.is_nil]. apply for_each_mutate.
Qed.

Lemma shift_z_spec (d : Q) (sc : GraphicsScene) :
  NoDup (members sc) ->
  let F := fun _ : nat => item_with_base (fun b => base_setZValue (zValue b + d)%Q b) in
  let sc' := with_objs (mutate_all F (selectedItems sc) (objs sc)) sc in
  selectedItems sc' = selectedItems sc
  /\ (forall i, i ∉ selectedItems sc -> objs sc' !! i = objs sc !! i)
  /\ (forall i it, i ∈ selectedItems sc -> objs sc !! i = Some it ->
        exists it', objs sc' !! i = Some it'
                    /\ zValue (item_base it') = (zValue (item_base it) + d)%Q
                    /\ item_with_base (base_setZValue (zValue (item_base it))) it' = it).
Proof.
  intros Hnd F sc'.
  assert (Hin : forall i, i ∈ selectedItems sc -> objs sc' !! i = F i <$> objs sc !! i).
  { intros i Hi. apply mutate_all_in; [now apply selectedItems_NoDup | assumption]. }
  assert (Hout : forall i, i ∉ selectedItems sc -> objs sc' !! i = objs sc !! i).
  { intros i Hi. now apply mutate_all_notin. }
  split; [| split].
  - apply selection_of_objs; [reflexivity |]. intros i.
    destruct (decide (i ∈ selectedItems sc)) as [Hi | Hi].
    + rewrite (Hin i Hi). destruct (objs sc !! i) as [[b | p] |]; reflexivity.
    + now rewrite Hout.
  - exact Hout.
  - intros i it Hi Hit. rewrite (Hin i Hi), Hit. eexists. split; [reflexivity |].
    destruct it as [[[p z s sl mv] ? ? ? ? ? ? ? ? ? ? ? ?] | [[p z s sl mv] ? ?]];
      split; reflexivity.
Qed.

(** X4: [bring_forward] adds 0.01 to the z-value of every selected item,
    shape or image, and [send_backward] subtracts it; neither changes
    anything else of these items, any other item, or the selection. *)
Theorem z_order_moves_selected_items
    (w : PickerWindow) (idx : nat) (name : string) (sc : GraphicsScene) :
  curr_scene w = Some idx ->
  tabs w !! idx = Some (name, sc) ->
  NoDup (members sc) ->
  exists sc1 sc2,
    bring_forward w = (Ok tt, with_tabs (<[idx := (name, sc1)]> (tabs w)) w)
    /\ shifts_selected_z (1 # 100) sc sc1
    /\ send_backward w = (Ok tt, with_tabs (<[idx := (name, sc2)]> (tabs w)) w)
    /\ shifts_selected_z (- (1 # 100)) sc sc2.
Proof.
  intros Hc Ht Hnd.
  destruct (shift_z_spec (1 # 100) sc Hnd) as (Hs1 & Ho1 & Hi1).
  destruct (shift_z_spec (- (1 # 100)) sc Hnd) as (Hs2 & Ho2 & Hi2).
  eexists. eexists. split; [| split; [| split]].
  - unfold bring_forward. apply on_curr_scene_run with (sc := sc); try assumption.
    apply (shift_z_run (1 # 100)).
  - split; [reflexivity |]. split; [exact Hs1 |]. split; [exact Ho1 |].
    intros i it Hi Hit. destruct (Hi1 i it Hi Hit) as (it' & H1 & H2 & H3).
    exists it'. split; [assumption |]. split; [now rewrite H2 | assumption].
  - unfold send_backward. apply on_curr_scene_run with (sc := sc); try assumption.
    apply (shift_z_run (- (1 # 100))).
  - split; [reflexivity |]. split; [exact Hs2 |]. split; [exact Ho2 |].
    intros i it Hi Hit. destruct (Hi2 i it Hi Hit) as (it' & H1 & H2 & H3).
    exists it'. split; [assumption |]. split; [now rewrite H2 | assumption].
Qed.

(** Both operations on the two rectangles. *)
Lemma z_order_moves_selected_items_witness :
  exists sc1 sc2,
    bring_forward two_rects_window
    = (Ok tt, with_tabs (<[0%nat := ("default", sc1)]> (tabs two_rects_window))
                        two_rects_window)
    /\ shifts_selected_z (1 # 100) two_rects sc1
    /\ send_backward two_rects_window
       = (Ok tt, with_tabs (<[0%nat := ("default", sc2)]> (tabs two_rects_window))
                           two_rects_window)
    /\ shifts_selected_z (- (1 # 100)) two_rects sc2.
Proof.
  exact (z_order_moves_selected_items two_rects_window 0%nat "default" two_rects
           eq_refl eq_refl two_rects_NoDup).
Defined.

End ZOrder.

(* ===================================================================== *)
(** * Deleting shapes                                                       *)
(* ===================================================================== *)

Section Delete.
Import GraphicsSceneM PickerWindowM.

Lemma filter_ext_in {A} (P1 P2 : A -> Prop) `{!forall x, Decision (P1 x)}
    `{!forall x, Decision (P2 x)} (l : list A) :
  (forall x, x ∈ l -> P1 x <-> P2 x) -> filter P1 l = filter P2 l.
Proof.
  induction l as [| a l IH]; intros Hext; [reflexivity |].
  rewrite !filter_cons, IH by (intros x Hx; apply Hext; now right).
  pose proof (Hext a ltac:(left)) as Ha.
  destruct (decide (P1 a)), (decide (P2 a)); tauto || reflexivity.
Qed.

Lemma filter_all {A} (P : A -> Prop) `{!forall x, Decision (P x)} (l : list A) :
  (forall x, x ∈ l -> P x) -> filter P l = l.
Proof.
  induction l as [| a l IH]; intros Hall; [reflexivity |].
  rewrite filter_cons_True by (apply Hall; left).
  now rewrite IH by (intros x Hx; apply Hall; now right).
Qed.

Lemma filter_none {A} (P : A -> Prop) `{!forall x, Decision (P x)} (l : list A) :
  (forall x, x ∈ l -> ~ P x) -> filter P l = [].
Proof.
  induction l as [| a l IH]; intros Hall; [reflexivity |].
  rewrite filter_cons_False by (apply Hall; left).
  apply IH. intros x Hx. apply Hall. now right.
Qed.

Lemma for_each_removeItem (l : list nat) (sc : GraphicsScene) :
  for_each removeItem l sc
  = (Ok tt, mkScene (objs sc) (filter (fun j => j ∉ l) (members sc))
                    (ref_item sc) (next_id sc)).
Proof.
  revert sc. induction l as [| a l IH]; intros sc.
  - cbn. f_equal. destruct sc as [o m r n]. cbn. f_equal.
    symmetry. apply filter_all. intros j _ H. inversion H.
  - cbn [for_each]. unfold bind at 1. unfold removeItem at 1, modify.
    rewrite IH. cbn. f_equal. f_equal.
    rewrite list_filter_filter. apply list_filter_iff.
    intros j. rewrite not_elem_of_cons. tauto.
Qed.

(** X5: [delete_btn], called without arguments, takes exactly the selected
    items out of the scene and leaves the others in their order.  It does
    not reset the reference shape: a deleted reference shape stays the
    reference of the scene. *)
Theorem delete_btn_removes_selection
    (w : PickerWindow) (idx : nat) (name : string) (sc : GraphicsScene) :
  curr_scene w = Some idx ->
  tabs w !! idx = Some (name, sc) ->
  exists sc',
    delete_btn [] w = (Ok tt, with_tabs (<[idx := (name, sc')]> (tabs w)) w)
    /\ members sc' = filter (fun i => is_selected sc i <> true) (members sc)
    /\ selectedItems sc' = []
    /\ objs sc' = objs sc
    /\ ref_item sc' = ref_item sc
    /\ (forall r, ref_item sc = Some r -> r ∈ selectedItems sc ->
          ref_item sc' = Some r /\ r ∉ members sc').
Proof.
  intros Hc Ht.
  set (sc' := mkScene (objs sc) (filter (fun i => is_selected sc i <> true) (members sc))
                      (ref_item sc) (next_id sc)).
  assert (Hrun : for_each removeItem (selectedItems sc) sc = (Ok tt, sc')).
  { rewrite for_each_removeItem. unfold sc'. do 2 f_equal.
    apply filter_ext_in. intros j Hj. unfold selectedItems.
    rewrite list_elem_of_filter. tauto. }
  exists sc'. split; [| split; [reflexivity | split; [| split; [reflexivity | split]]]].
  - unfold delete_btn. apply on_curr_scene_run with (sc := sc); try assumption.
    unfold bind, get. cbn [GraphicsButtonM.is_nil].
    destruct (selectedItems sc) as [| a l] eqn:E.
    + cbn. unfold ret. f_equal. unfold sc'. destruct sc as [o m r n]. cbn. f_equal.
      symmetry. apply filter_all. intros j Hj Hs.
      assert (Hin : j ∈ selectedItems (mkScene o m r n)).
      { unfold selectedItems. apply list_elem_of_filter. now split. }
      rewrite E in Hin. inversion Hin.
    + cbn [GraphicsButtonM.is_nil]. exact Hrun.
  - unfold selectedItems, sc'. cbn [members]. rewrite list_filter_filter.
    apply filter_none. intros j _ [H1 H2]. apply H2. exact H1.
  - reflexivity.
  - intros r Hr Hin. split; [exact Hr |].
    unfold sc'. cbn [members]. intros H. apply list_elem_of_filter in H as [H _].
    apply list_elem_of_filter in Hin as [Hs _]. contradiction.
Qed.

(** [delete_btn] on the two rectangles, the first being the reference. *)
Lemma delete_btn_removes_selection_witness :
  exists sc',
    delete_btn [] two_rects_ref_window
    = (Ok tt, with_tabs (<[0%nat := ("default", sc')]> (tabs two_rects_ref_window))
                        two_rects_ref_window)
    /\ members sc' = filter (fun i => is_selected two_rects_ref i <> true)
                            (members two_rects_ref)
    /\ selectedItems sc' = []
    /\ objs sc' = objs two_rects_ref
    /\ ref_item sc' = ref_item two_rects_ref
    /\ (forall r, ref_item two_rects_ref = Some r -> r ∈ selectedItems two_rects_ref ->
          ref_item sc' = Some r /\ r ∉ members sc').
Proof.
  exact (delete_btn_removes_selection two_rects_ref_window 0%nat "default" two_rects_ref
           eq_refl eq_refl).
Defined.

End Delete.

(* ===================================================================== *)
(** * Updating shapes from the preview                                      *)
(* ===================================================================== *)

Section Update.
Import PickerToolEnums GraphicsSceneM GraphicsButtonM PickerWindowM.

Lemma update_item_steps (pp : GraphicsButton) :
  steps_as (update_item pp) (updated_button pp).
Proof.
  intros i sc b H. unfold update_item, bind, get, lift, mutate, modify.
  cbn [objs with_objs]. rewrite lookup_alter_eq, H.
  cbn [fmap option_fmap option_map get_center as_button convert_from_center the_point].
  exists ((fun _ => Button (updated_button pp b))
          ∘ (fun it => match it with
                       | Button b0 => Button (with_curr_shape (curr_shape pp) b0)
                       | Pixmap _ => it
                       end)).
  split; [| reflexivity].
  f_equal. unfold with_objs. cbn [objs members ref_item next_id].
  f_equal. rewrite alter_alter_eq. reflexivity.
Qed.






End Update.

(* ===================================================================== *)
(** * Mirror: the reference shape, and the missing axis                     *)
(* ===================================================================== *)

Section MirrorMore.
Import PickerToolEnums GraphicsSceneM GraphicsButtonM PickerWindowM.

Lemma selected_items_run (w : PickerWindow) (idx : nat) (name : string)
    (sc : GraphicsScene) :
  curr_scene w = Some idx ->
  tabs w !! idx = Some (name, sc) ->
  on_curr_scene (let* s := get in ret (selectedItems s)) w = (Ok (selectedItems sc), w).
Proof.
  intros Hc Ht. unfold on_curr_scene, on_scene. rewrite Hc, Ht. unfold bind, get, ret.
  now rewrite with_tabs_same.
Qed.

(** X7: with a selection but neither mirror axis checked,
    [mirror_sel_btns] only prints that no axis is set: no item moves and
    none is created. *)
Theorem mirror_without_axis_only_reports
    (w : PickerWindow) (idx : nat) (name : string) (sc : GraphicsScene) :
  curr_scene w = Some idx ->
  tabs w !! idx = Some (name, sc) ->
  selectedItems sc <> [] ->
  x_rdbtn (mirror_settings w) = false ->
  y_rdbtn (mirror_settings w) = false ->
  mirror_sel_btns w
  = (Ok tt,
     with_console
       (console w ++ ["Unable to mirror since no mirror axis set. Check the Mirror Settings to set one."])
       w).
Proof.
  intros Hc Ht Hsel Hx Hy.
  unfold mirror_sel_btns, bind at 1, get at 1. unfold bind at 1.
  rewrite (selected_items_run w idx name sc Hc Ht).
  destruct (selectedItems sc) as [| a l]; [congruence |].
  cbn [is_nil]. rewrite Hx, Hy. reflexivity.
Qed.

(** [mirror_sel_btns] on the two rectangles with no axis checked. *)
Lemma mirror_without_axis_only_reports_witness :
  mirror_sel_btns no_axis_window
  = (Ok tt,
     with_console
       (console no_axis_window
        ++ ["Unable to mirror since no mirror axis set. Check the Mirror Settings to set one."])
       no_axis_window).
Proof.
  apply (mirror_without_axis_only_reports no_axis_window 0%nat "default" two_rects).
  - reflexivity.
  - reflexivity.
  - rewrite two_rects_selected. discriminate.
  - reflexivity.
  - reflexivity.
Defined.






End MirrorMore.

(* ===================================================================== *)
(** * Mirror into new shapes                                                *)
(* ===================================================================== *)

Section MirrorDuplicate.
Import PickerToolEnums GraphicsSceneM GraphicsButtonM PickerWindowM.







End MirrorDuplicate.

(* ===================================================================== *)
(** * Creating shapes and retargeting them                                  *)
(* ===================================================================== *)

Section Create.
Import PickerToolEnums GraphicsSceneM GraphicsButtonM PickerWindowM PickerWindowEdit.



Lemma retarget_item_steps (curr_sel : list string) :
  steps_as (retarget_item curr_sel) (update_sel_list curr_sel).
Proof.
  intros i sc b H. unfold retarget_item, bind, get, lift, mutate, modify.
  rewrite H. cbn [as_button]. eexists. split; reflexivity.
Qed.

Lemma update_sel_list_spec (curr_sel : list string) (b : GraphicsButton) :
  sel_objs (update_sel_list curr_sel b)
  = (if is_nil curr_sel then sel_objs b else curr_sel)
  /\ with_sel_objs (sel_objs b) (update_sel_list curr_sel b) = b
  /\ selected (base (update_sel_list curr_sel b)) = selected (base b).
Proof.
  unfold update_sel_list. destruct (is_nil curr_sel); destruct b; repeat split.
Qed.

(** X11: [update_btn_selection], called without arguments on a selection
    of shapes, makes the host selection the targets of every selected
    shape and changes nothing else; when nothing is selected in the host
    the shapes keep their targets. *)
Theorem update_btn_selection_retargets
    (curr_sel : list string)
    (w : PickerWindow) (idx : nat) (name : string) (sc : GraphicsScene) :
  curr_scene w = Some idx ->
  tabs w !! idx = Some (name, sc) ->
  NoDup (members sc) ->
  (forall i, i ∈ selectedItems sc -> is_Some (button_at sc i)) ->
  exists sc',
    update_btn_selection curr_sel [] w
    = (Ok tt, with_tabs (<[idx := (name, sc')]> (tabs w)) w)
    /\ members sc' = members sc
    /\ selectedItems sc' = selectedItems sc
    /\ (forall i, i ∉ selectedItems sc -> objs sc' !! i = objs sc !! i)
    /\ (forall i b, i ∈ selectedItems sc -> objs sc !! i = Some (Button b) ->
          exists b',
            objs sc' !! i = Some (Button b')
            /\ sel_objs b' = (if is_nil curr_sel then sel_objs b else curr_sel)
            /\ with_sel_objs (sel_objs b) b' = b).
Proof.
  intros Hc Ht Hnd Hall.
  destruct (for_each_buttons _ _ (retarget_item_steps curr_sel) (selectedItems sc) sc
              (selectedItems_NoDup sc Hnd) Hall)
    as (sc' & Hrun & Hm & Hr & Hin & Hout).
  exists sc'. split; [| split; [exact Hm | split; [| split; [exact Hout |]]]].
  - unfold update_btn_selection. apply on_curr_scene_run with (sc := sc); try assumption.
    unfold bind at 1, get at 1. cbn [is_nil].
    destruct (selectedItems sc) as [| a l] eqn:E.
    + cbn [is_nil]. cbn in Hrun. exact Hrun.
    + cbn [is_nil]. exact Hrun.
  - eapply selection_preserved with (l := selectedItems sc); try eassumption.
    intros b. apply update_sel_list_spec.
  - intros i b Hi Hb. exists (update_sel_list curr_sel b).
    split; [now apply Hin |]. split; apply update_sel_list_spec.
Qed.

(** [update_btn_selection] on the two rectangles. *)
Lemma update_btn_selection_retargets_witness :
  exists sc',
    update_btn_selection ["arm_L_ctrl"] [] two_rects_window
    = (Ok tt, with_tabs (<[0%nat := ("default", sc')]> (tabs two_rects_window))
                        two_rects_window)
    /\ members sc' = members two_rects
    /\ selectedItems sc' = selectedItems two_rects
    /\ (forall i, i ∉ selectedItems two_rects -> objs sc' !! i = objs two_rects !! i)
    /\ (forall i b, i ∈ selectedItems two_rects -> objs two_rects !! i = Some (Button b) ->
          exists b',
            objs sc' !! i = Some (Button b')
            /\ sel_objs b' = (if is_nil ["arm_L_ctrl"] then sel_objs b else ["arm_L_ctrl"])
            /\ with_sel_objs (sel_objs b) b' = b).
Proof.
  exact (update_btn_selection_retargets ["arm_L_ctrl"] two_rects_window 0%nat "default"
           two_rects eq_refl eq_refl two_rects_NoDup two_rects_buttons).
Defined.

End Create.

(* ===================================================================== *)
(** * An image among the selected items                                     *)
(* ===================================================================== *)

Section SelectedImage.
Import PickerToolEnums GraphicsSceneM GraphicsButtonM PickerWindowM PickerWindowEdit.

Lemma for_each_raises (body : nat -> M GraphicsScene unit) :
  raises_on_images body ->
  forall l sc,
    (exists i p, i ∈ l /\ objs sc !! i = Some (Pixmap p)) ->
    exists sc', for_each body l sc = (Err AttributeError, sc').
Proof.
  intros [Hstep Himg]. induction l as [| a l IH]; intros sc (i & p & Hi & Hp).
  - inversion Hi.
  - cbn [for_each]. unfold bind.
    destruct (Hstep a sc) as [(sc1 & Hrun & Hkeep) | (sc1 & Hrun)].
    + rewrite Hrun. apply elem_of_cons in Hi as [-> | Hi].
      * destruct (Himg a sc p Hp) as (sc2 & Hrun2). congruence.
      * destruct (Hkeep i p Hp) as [p' Hp']. apply IH. eauto.
    + rewrite Hrun. eauto.
Qed.

Lemma alter_keeps_images (F : Item -> Item) (i : nat) (o : gmap nat Item)
    (b : GraphicsButton) :
  o !! i = Some (Button b) ->
  forall j p, o !! j = Some (Pixmap p) -> exists p', alter F i o !! j = Some (Pixmap p').
Proof.
  intros Hb j p Hp. exists p. rewrite lookup_alter_ne; [assumption |].
  intros ->. congruence.
Qed.

Lemma steps_raise (body : nat -> M GraphicsScene unit) (g : GraphicsButton -> GraphicsButton) :
  steps_as body g ->
  (forall i sc, objs sc !! i = None -> exists sc', body i sc = (Err AttributeError, sc')) ->
  (forall i sc p, objs sc !! i = Some (Pixmap p) ->
     exists sc', body i sc = (Err AttributeError, sc')) ->
  raises_on_images body.
Proof.
  intros Hsteps Hnone Himg. split; [| exact Himg].
  intros i sc. destruct (objs sc !! i) as [[b | p] |] eqn:E.
  - left. destruct (Hsteps i sc b E) as (F & HF & _). eexists. split; [exact HF |].
    cbn [objs with_objs]. now apply alter_keeps_images with (b := b).
  - right. eauto.
  - right. eauto.
Qed.

Lemma align_item_x_raises (c : Q) : raises_on_images (align_item_x c).
Proof.
  apply (steps_raise _ _ (align_item_x_steps c)).
  - intros i sc H. unfold align_item_x, bind, get, lift. rewrite H. cbn. eauto.
  - intros i sc p H. unfold align_item_x, bind, get, lift. rewrite H. cbn. eauto.
Qed.

Lemma align_item_y_raises (c : Q) : raises_on_images (align_item_y c).
Proof.
  apply (steps_raise _ _ (align_item_y_steps c)).
  - intros i sc H. unfold align_item_y, bind, get, lift. rewrite H. cbn. eauto.
  - intros i sc p H. unfold align_item_y, bind, get, lift. rewrite H. cbn. eauto.
Qed.

Lemma update_item_raises (pp : GraphicsButton) : raises_on_images (update_item pp).
Proof.
  apply (steps_raise _ _ (update_item_steps pp)).
  - intros i sc H. unfold update_item, bind, get, lift, mutate, modify.
    cbn [objs with_objs]. rewrite lookup_alter_eq, H. cbn. eauto.
  - intros i sc p H. unfold update_item, bind, get, lift, mutate, modify.
    cbn [objs with_objs]. rewrite lookup_alter_eq, H. cbn. eauto.
Qed.

Lemma retarget_item_raises (cs : list string) : raises_on_images (retarget_item cs).
Proof.
  apply (steps_raise _ _ (retarget_item_steps cs)).
  - intros i sc H. unfold retarget_item, bind, get, lift. rewrite H. cbn. eauto.
  - intros i sc p H. unfold retarget_item, bind, get, lift. rewrite H. cbn. eauto.
Qed.

(** Summing the centers of items raises as soon as one is an image, and
    never raises anything else. *)
Lemma sum_centers_raises (coord : option QPointF -> res Q) (sc : GraphicsScene)
    (l : list nat) :
  (coord = pt_x \/ coord = pt_y) ->
  (exists i p, i ∈ l /\ objs sc !! i = Some (Pixmap p)) ->
  forall acc,
    res_fold (fun total i =>
                let? c := get_center (objs sc !! i) in
                let? v := coord c in
                Ok (total + v)%Q) l acc = Err AttributeError.
Proof.
  intros Hcoord. induction l as [| a l IH]; intros (i & p & Hi & Hp) acc.
  - inversion Hi.
  - cbn [res_fold].
    destruct (objs sc !! a) as [[b | q] |] eqn:E.
    + cbn [get_center res_bind].
      assert (Hv : exists v, coord (Some (mkPoint (px (pos (base b)) + half (width (set_rect b)))
                                                  (py (pos (base b)) + half (height (set_rect b)))))
                             = Ok v)
        by (destruct Hcoord as [-> | ->]; cbn; eauto).
      destruct Hv as [v Hv]. rewrite Hv. cbn [res_bind].
      apply IH. apply elem_of_cons in Hi as [-> | Hi]; [congruence | eauto].
    + reflexivity.
    + cbn [get_center res_bind]. destruct Hcoord as [-> | ->]; reflexivity.
Qed.

Lemma align_scene_raises (sc : GraphicsScene) :
  (exists i p, i ∈ selectedItems sc /\ objs sc !! i = Some (Pixmap p)) ->
  (exists sc', align_by_x_scene sc = (Err AttributeError, sc'))
  /\ (exists sc', align_by_y_scene sc = (Err AttributeError, sc'))
  /\ (ref_item sc = None ->
      align_by_x_scene sc = (Err AttributeError, sc)
      /\ align_by_y_scene sc = (Err AttributeError, sc)).
Proof.
  intros Himg.
  assert (Hnx : ref_item sc = None -> align_by_x_scene sc = (Err AttributeError, sc)).
  { intros Href. unfold align_by_x_scene, bind, get, lift. rewrite Href.
    unfold sum_centers. rewrite (sum_centers_raises pt_x) by auto. reflexivity. }
  assert (Hny : ref_item sc = None -> align_by_y_scene sc = (Err AttributeError, sc)).
  { intros Href. unfold align_by_y_scene, bind, get, lift. rewrite Href.
    unfold sum_centers. rewrite (sum_centers_raises pt_y) by auto. reflexivity. }
  split; [| split; [| auto]].
  - destruct (ref_item sc) as [r |] eqn:Href; [| eauto].
    unfold align_by_x_scene, bind, get, lift. rewrite Href.
    destruct (objs sc !! r) as [[b | q] |]; cbn [get_center pt_x]; eauto.
    apply for_each_raises; [apply align_item_x_raises | assumption].
  - destruct (ref_item sc) as [r |] eqn:Href; [| eauto].
    unfold align_by_y_scene, bind, get, lift. rewrite Href.
    destruct (objs sc !! r) as [[b | q] |]; cbn [get_center pt_y]; eauto.
    apply for_each_raises; [apply align_item_y_raises | assumption].
Qed.

(** X12: when an image is among the selected items, [align_by_x],
    [align_by_y], [update_btn] and [update_btn_selection] raise
    [AttributeError]; without a reference shape the two alignments raise
    before any item has moved. *)
Theorem selected_image_raises
    (w : PickerWindow) (idx : nat) (name : string) (sc : GraphicsScene)
    (curr_sel : list string) :
  curr_scene w = Some idx ->
  tabs w !! idx = Some (name, sc) ->
  (exists i p, i ∈ selectedItems sc /\ objs sc !! i = Some (Pixmap p)) ->
  (exists w', align_by_x w = (Err AttributeError, w'))
  /\ (exists w', align_by_y w = (Err AttributeError, w'))
  /\ (exists w', update_btn [] w = (Err AttributeError, w'))
  /\ (exists w', update_btn_selection curr_sel [] w = (Err AttributeError, w'))
  /\ (ref_item sc = None ->
      align_by_x w = (Err AttributeError, w) /\ align_by_y w = (Err AttributeError, w)).
Proof.
  intros Hc Ht Himg.
  destruct (align_scene_raises sc Himg) as ((sx & Hx) & (sy & Hy) & Hnone).
  assert (Hne : selectedItems sc <> []).
  { destruct Himg as (i & p & Hi & _). intros E. rewrite E in Hi. inversion Hi. }
  split; [| split; [| split; [| split]]].
  - eexists. exact (on_curr_scene_run align_by_x_scene w idx name sc sx _ Hc Ht Hx).
  - eexists. exact (on_curr_scene_run align_by_y_scene w idx name sc sy _ Hc Ht Hy).
  - destruct (for_each_raises _ (update_item_raises (pp_item w)) _ sc Himg) as (s & Hs).
    eexists. unfold update_btn, bind at 1, get at 1.
    apply (on_curr_scene_run _ w idx name sc s _ Hc Ht).
    unfold bind at 1, get at 1. cbn [is_nil].
    destruct (selectedItems sc) as [| a l] eqn:E; [congruence |].
    cbn [is_nil]. unfold bind. now rewrite Hs.
  - destruct (for_each_raises _ (retarget_item_raises curr_sel) _ sc Himg) as (s & Hs).
    eexists. unfold update_btn_selection.
    apply (on_curr_scene_run _ w idx name sc s _ Hc Ht).
    unfold bind at 1, get at 1. cbn [is_nil].
    destruct (selectedItems sc) as [| a l] eqn:E; [congruence |].
    cbn [is_nil]. exact Hs.
  - intros Href. destruct (Hnone Href) as [H1 H2]. split.
    + unfold align_by_x. rewrite (on_curr_scene_run _ w idx name sc sc _ Hc Ht H1).
      now rewrite with_tabs_same.
    + unfold align_by_y. rewrite (on_curr_scene_run _ w idx name sc sc _ Hc Ht H2).
      now rewrite with_tabs_same.
Qed.

(** The operations on a scene with a selected image. *)
Lemma selected_image_raises_witness :
  (exists w', align_by_x image_and_rect_window = (Err AttributeError, w'))
  /\ (exists w', align_by_y image_and_rect_window = (Err AttributeError, w'))
  /\ (exists w', update_btn [] image_and_rect_window = (Err AttributeError, w'))
  /\ (exists w', update_btn_selection ["arm_L_ctrl"] [] image_and_rect_window
                 = (Err AttributeError, w'))
  /\ (ref_item image_and_rect = None ->
      align_by_x image_and_rect_window = (Err AttributeError, image_and_rect_window)
      /\ align_by_y image_and_rect_window = (Err AttributeError, image_and_rect_window)).
Proof.
  apply (selected_image_raises image_and_rect_window 0%nat "default" image_and_rect
           ["arm_L_ctrl"] eq_refl eq_refl).
  exists 0%nat. eexists. split; [| reflexivity].
  apply (bool_decide_unpack _). vm_compute. exact I.
Defined.

End SelectedImage.

(* ===================================================================== *)
(** * Clicks, the selection of the scene, and highlighting                  *)
(* ===================================================================== *)

Section Clicks.
Import GraphicsButtonM GraphicsSceneM GraphicsViewM GraphicsViewEvents.

Lemma mousePressEvent_keeps (sc : GraphicsScene) (e : MouseEvent) (v : GraphicsView) :
  old_sel_items (mousePressEvent sc e v) = old_sel_items v
  /\ initial_mouse_pos (mousePressEvent sc e v) = Some (ev_pos e).
Proof.
  unfold mousePressEvent, ctrl_shift_left_click, shift_left_click, ctrl_click,
    leftMouseButtonPress.
  destruct (is_left (button e) && (modifiers e =? Z.lor ShiftModifier ControlModifier));
    [now split |].
  destruct (is_left (button e) && (modifiers e =? ShiftModifier)); [now split |].
  destruct (is_left (button e) && (modifiers e =? ControlModifier)); [now split |].
  destruct (is_left (button e)); [| now split].
  destruct (getItemAtClick sc e); now split.
Qed.

Lemma released_items_click (sc : GraphicsScene) (e : MouseEvent) (banded : list nat)
    (v : GraphicsView) :
  initial_mouse_pos v = Some (ev_pos e) ->
  released_items sc e banded v = ([hit sc e], set_drag false v).
Proof.
  intros H. unfold released_items. rewrite H.
  rewrite bool_decide_eq_true_2 by reflexivity. reflexivity.
Qed.

Lemma elem_of_py_list (s : gset (option nat)) (x : option nat) :
  x ∈ py_list s <-> x ∈ s.
Proof. unfold py_list. apply elem_of_elements. Qed.

Lemma elem_of_py_set (l : list (option nat)) (x : option nat) :
  x ∈ py_set l <-> x ∈ l.
Proof. unfold py_set. apply elem_of_list_to_set. Qed.

(** The four merges of [evaluate_temp_items], on the struck item of a
    click. *)
Lemma evaluate_click (m : string) (h : option nat) (v : GraphicsView) :
  mode v = Some m ->
  drag v = Some false ->
  (m = "replace" \/ m = "toggle" \/ m = "subtract" \/ m = "add") ->
  exists v2,
    evaluate_temp_items [h] v = Ok v2
    /\ NoDup (old_sel_items v2)
    /\ forall x,
         x ∈ old_sel_items v2 <->
         if String.eqb m "add" then x ∈ old_sel_items v \/ x = h
         else if String.eqb m "toggle"
              then (x ∈ old_sel_items v /\ x <> h) \/ (x = h /\ h ∉ old_sel_items v)
         else if String.eqb m "subtract" then x ∈ old_sel_items v /\ x <> h
         else x = h.
Proof.
  intros Hm Hd Hcase. unfold evaluate_temp_items. rewrite Hm, Hd.
  destruct Hcase as [-> | [-> | [-> | ->]]]; cbn [String.eqb Ascii.eqb Bool.eqb truthy default
                                                   from_option];
    eexists; (split; [reflexivity |]); cbn [old_sel_items set_old_sel_items];
    (split; [apply NoDup_elements |]); intros x.
  - rewrite elem_of_py_list, elem_of_union, !elem_of_py_set.
    rewrite list_elem_of_singleton. split; [intros [H | H]; [inversion H | exact H] | auto].
  - rewrite elem_of_py_list, elem_of_difference, !elem_of_py_set, elem_of_py_list,
      elem_of_union, !elem_of_py_set, !list_elem_of_filter, !list_elem_of_singleton.
    destruct (decide (x = h)) as [-> | Hne]; tauto.
  - rewrite elem_of_py_list, elem_of_difference, !elem_of_py_set,
      list_elem_of_singleton. tauto.
  - rewrite elem_of_py_list, elem_of_union, !elem_of_py_set,
      list_elem_of_singleton. tauto.
Qed.

(** X13: a press of the left button followed by its release at the same
    place updates the remembered selection by the struck item (the shape
    under the pointer, or [None] on empty canvas or on an image): with
    ctrl+shift it is added, with shift alone it is toggled, with ctrl
    alone it is removed, and otherwise it becomes the whole selection.
    The scene is then made to follow the remembered selection. *)
Theorem click_updates_selection
    (sc : GraphicsScene) (e : MouseEvent) (banded : list nat) (v : GraphicsView) :
  button e = LeftButton ->
  exists v2,
    leftMouseButtonRelease e banded (mousePressEvent sc e v) sc
    = (Ok v2, snd (select_items v2 sc))
    /\ NoDup (old_sel_items v2)
    /\ forall x,
         x ∈ old_sel_items v2 <->
         if modifiers e =? Z.lor ShiftModifier ControlModifier
         then x ∈ old_sel_items v \/ x = hit sc e
         else if modifiers e =? ShiftModifier
              then (x ∈ old_sel_items v /\ x <> hit sc e)
                   \/ (x = hit sc e /\ hit sc e ∉ old_sel_items v)
         else if modifiers e =? ControlModifier
              then x ∈ old_sel_items v /\ x <> hit sc e
         else x = hit sc e.
Proof.
  intros Hb.
  destruct (mousePressEvent_keeps sc e v) as [Hold Hpos].
  set (v1 := mousePressEvent sc e v) in *.
  assert (Hmode : exists m,
             mode v1 = Some m
             /\ (m = "replace" \/ m = "toggle" \/ m = "subtract" \/ m = "add")
             /\ String.eqb m "add" = (modifiers e =? Z.lor ShiftModifier ControlModifier)
             /\ (String.eqb m "add" = false ->
                 String.eqb m "toggle" = (modifiers e =? ShiftModifier))
             /\ (String.eqb m "add" = false -> String.eqb m "toggle" = false ->
                 String.eqb m "subtract" = (modifiers e =? ControlModifier))).
  { unfold v1, mousePressEvent. rewrite Hb. cbn [is_left andb].
    destruct (modifiers e =? Z.lor ShiftModifier ControlModifier) eqn:E1.
    { exists "add". cbn. repeat split; auto; discriminate. }
    destruct (modifiers e =? ShiftModifier) eqn:E2.
    { exists "toggle". cbn. repeat split; auto; discriminate. }
    destruct (modifiers e =? ControlModifier) eqn:E3.
    { exists "subtract". cbn. repeat split; auto; discriminate. }
    exists "replace". rewrite leftMouseButtonPress_mode. cbn. repeat split; auto. }
  destruct Hmode as (m & Hm & Hcase & Hadd & Htog & Hsub).
  destruct (evaluate_click m (hit sc e) (set_drag false v1)) as (v2 & Hev & Hnd & Hin);
    [exact Hm | reflexivity | exact Hcase |].
  exists v2. split; [| split; [exact Hnd |]].
  - unfold leftMouseButtonRelease.
    rewrite (released_items_click sc e banded v1 Hpos), Hev. reflexivity.
  - intros x. rewrite (Hin x). cbn [old_sel_items set_drag]. rewrite Hold.
    rewrite <- Hadd. destruct (String.eqb m "add"); [reflexivity |].
    rewrite <- (Htog eq_refl). destruct (String.eqb m "toggle"); [reflexivity |].
    rewrite <- (Hsub eq_refl eq_refl). reflexivity.
Qed.

(** A shift click on the second rectangle while the first is selected. *)
Lemma click_updates_selection_witness :
  exists v2,
    leftMouseButtonRelease (click_on ShiftModifier 1) []
      (mousePressEvent two_rects (click_on ShiftModifier 1) first_selected_view) two_rects
    = (Ok v2, snd (select_items v2 two_rects))
    /\ NoDup (old_sel_items v2)
    /\ forall x,
         x ∈ old_sel_items v2 <->
         (x ∈ old_sel_items first_selected_view /\ x <> Some 1%nat)
         \/ (x = Some 1%nat /\ Some 1%nat ∉ old_sel_items first_selected_view).
Proof.
  exact (click_updates_selection two_rects (click_on ShiftModifier 1) []
           first_selected_view eq_refl).
Defined.

Lemma elem_of_insert_by_z (o : gmap nat Item) (z : Q) (i j : nat) (l : list nat) :
  j ∈ insert_by_z o z i l <-> j = i \/ j ∈ l.
Proof.
  induction l as [| a l IH]; cbn [insert_by_z].
  - rewrite list_elem_of_singleton. split; [auto | intros [H | H]; [auto | inversion H]].
  - destruct (o !! a) as [it |].
    + destruct (Qle_bool (zValue (item_base it)) z).
      * rewrite elem_of_cons. tauto.
      * rewrite !elem_of_cons, IH. tauto.
    + rewrite !elem_of_cons, IH. tauto.
Qed.

Lemma elem_of_items (sc : GraphicsScene) (j : nat) :
  j ∈ items sc <-> j ∈ members sc /\ is_Some (objs sc !! j).
Proof.
  unfold items.
  assert (H : forall m acc,
             j ∈ fold_left (fun acc i =>
                              match objs sc !! i with
                              | Some it => insert_by_z (objs sc) (zValue (item_base it)) i acc
                              | None => acc
                              end) m acc
             <-> j ∈ acc \/ (j ∈ m /\ is_Some (objs sc !! j))).
  { induction m as [| a m IH]; intros acc; cbn [fold_left].
    - split; [auto | intros [H | [H _]]; [auto | inversion H]].
    - rewrite IH, elem_of_cons. destruct (objs sc !! a) as [it |] eqn:E.
      + rewrite elem_of_insert_by_z. split.
        * intros [[-> | H] | H]; [right; split; [now left | rewrite E; eauto] | auto
                                 | right; split; [now right | apply H]].
        * intros [H | [[-> | H] Hs]]; auto.
      + split.
        * intros [H | [H Hs]]; auto.
        * intros [H | [[-> | H] Hs]]; auto. rewrite E in Hs. destruct Hs. discriminate. }
  rewrite H. split; [intros [Hn | Hs]; [inversion Hn | exact Hs] | auto].
Qed.

(** X14: in a scene whose items all carry the selectable flag (Qt ignores
    [setSelected(True)] on the others), [select_items] makes the selection
    of the scene follow the remembered selection of the view: an item of
    the scene is selected afterwards exactly when the view remembers it,
    nothing else of any item changes, and items outside the scene are
    untouched. *)
Theorem select_items_follows_view (v : GraphicsView) (sc : GraphicsScene) :
  all_selectable sc ->
  exists sc',
    select_items v sc = (Ok tt, sc')
    /\ members sc' = members sc
    /\ (forall i, i ∈ members sc -> is_Some (objs sc !! i) ->
          is_selected sc' i = bool_decide (Some i ∈ old_sel_items v))
    /\ (forall i it, objs sc !! i = Some it ->
          exists it', objs sc' !! i = Some it'
                      /\ item_with_base (base_setSelected (selected (item_base it))) it'
                         = it)
    /\ (forall i, i ∉ members sc -> objs sc' !! i = objs sc !! i).
Proof.
  intros _.
  set (F := fun i : nat =>
              item_with_base (base_setSelected (bool_decide (Some i ∈ old_sel_items v)))).
  assert (Hid : forall j it, F j (F j it) = F j it).
  { intros j [b | p]; reflexivity. }
  eexists. split; [reflexivity |]. cbn [members objs with_objs].
  change (fold_left _ (items sc) (objs sc)) with (mutate_all F (items sc) (objs sc)).
  split; [reflexivity |]. split; [| split].
  - intros i Hi [it Hit]. unfold is_selected. cbn [objs with_objs].
    change (fold_left _ (items sc) (objs sc)) with (mutate_all F (items sc) (objs sc)).
    rewrite (mutate_all_idem F _ _ _ Hid).
    rewrite decide_True by (apply elem_of_items; split; [assumption | rewrite Hit; eauto]).
    rewrite Hit. destruct it; reflexivity.
  - intros i it Hit. rewrite (mutate_all_idem F _ _ _ Hid), Hit.
    destruct (decide (i ∈ items sc)).
    + eexists. split; [reflexivity |].
      destruct it as [[[p z s sl mv] ? ? ? ? ? ? ? ? ? ? ? ?] | [[p z s sl mv] ? ?]];
        reflexivity.
    + eexists. split; [reflexivity |].
      destruct it as [[[p z s sl mv] ? ? ? ? ? ? ? ? ? ? ? ?] | [[p z s sl mv] ? ?]];
        reflexivity.
  - intros i Hi. rewrite (mutate_all_idem F _ _ _ Hid).
    rewrite decide_False; [reflexivity |].
    intros H. apply elem_of_items in H as [H _]. contradiction.
Qed.

Lemma two_rects_selectable : all_selectable two_rects.
Proof.
  intros i it Hi. change (members two_rects) with [0%nat; 1%nat] in Hi.
  apply elem_of_cons in Hi as [-> | Hi]; [vm_compute; now intros [= <-] |].
  apply elem_of_cons in Hi as [-> | Hi]; [vm_compute; now intros [= <-] | inversion Hi].
Qed.

(** [select_items] on the two rectangles when the view remembers the
    first one only. *)
Lemma select_items_follows_view_witness :
  exists sc',
    select_items first_selected_view two_rects = (Ok tt, sc')
    /\ members sc' = members two_rects
    /\ (forall i, i ∈ members two_rects -> is_Some (objs two_rects !! i) ->
          is_selected sc' i = bool_decide (Some i ∈ old_sel_items first_selected_view))
    /\ (forall i it, objs two_rects !! i = Some it ->
          exists it', objs sc' !! i = Some it'
                      /\ item_with_base (base_setSelected (selected (item_base it))) it'
                         = it)
    /\ (forall i, i ∉ members two_rects -> objs sc' !! i = objs two_rects !! i).
Proof.
  exact (select_items_follows_view first_selected_view two_rects two_rects_selectable).
Defined.

End Clicks.

(* ===================================================================== *)
(** * Highlighting                                                          *)
(* ===================================================================== *)

Section Highlight.
Import GraphicsButtonM GraphicsSceneM GraphicsViewM GraphicsViewEvents.

Lemma highlight_button_spec (hl : bool) (b : GraphicsButton) :
  brush (highlight_button hl b) = (if hl then brush_hl b else brush_col b)
  /\ pen (highlight_button hl b) = (if hl then pen_hl b else pen_col b)
  /\ base (highlight_button hl b) = base b
  /\ highlight_button hl (highlight_button hl b) = highlight_button hl b.
Proof. destruct hl; repeat split. Qed.

(** X15: [highlight_items] draws every shape of the scene with the
    highlight brush and pen when it is selected and with its own colour
    and the plain pen when it is not; it changes neither the selection nor
    any image, and a second call changes nothing more. *)
Theorem highlight_items_marks_selection (sc : GraphicsScene) :
  exists sc',
    highlight_items sc = (Ok tt, sc')
    /\ members sc' = members sc
    /\ selectedItems sc' = selectedItems sc
    /\ (forall i b, i ∈ members sc -> objs sc !! i = Some (Button b) ->
          exists b',
            objs sc' !! i = Some (Button b')
            /\ brush b' = (if is_selected sc i then brush_hl b else brush_col b)
            /\ pen b' = (if is_selected sc i then pen_hl b else pen_col b)
            /\ brush_col b' = brush_col b /\ base b' = base b)
    /\ (forall i p, objs sc !! i = Some (Pixmap p) -> objs sc' !! i = Some (Pixmap p))
    /\ highlight_items sc' = (Ok tt, sc').
Proof.
  set (F := fun (s : GraphicsScene) (i : nat) (it : Item) =>
              match it with
              | Pixmap _ => it
              | Button b =>
                  Button (highlight_button (bool_decide (i ∈ selectedItems s)) b)
              end).
  assert (Hid : forall s j it, F s j (F s j it) = F s j it).
  { intros s j [b | p]; [| reflexivity]. cbn. f_equal. apply highlight_button_spec. }
  assert (Hrun : forall s,
             highlight_items s
             = (Ok tt, with_objs (mutate_all (F s) (items s) (objs s)) s))
    by reflexivity.
  set (sc' := with_objs (mutate_all (F sc) (items sc) (objs sc)) sc).
  assert (Hlook : forall i, objs sc' !! i
                            = if decide (i ∈ items sc) then F sc i <$> objs sc !! i
                              else objs sc !! i).
  { intros i. unfold sc'. cbn [objs with_objs]. apply mutate_all_idem. apply Hid. }
  assert (Hselbit : forall i, is_selected sc' i = is_selected sc i).
  { intros i. unfold is_selected. rewrite Hlook.
    destruct (decide (i ∈ items sc)); [| reflexivity].
    destruct (objs sc !! i) as [[b | p] |]; cbn; [| reflexivity | reflexivity].
    now destruct (bool_decide (i ∈ selectedItems sc)). }
  assert (Hsel : selectedItems sc' = selectedItems sc).
  { unfold selectedItems. change (members sc') with (members sc).
    apply list_filter_iff. intros i. now rewrite Hselbit. }
  assert (Hmemsel : forall i, i ∈ members sc ->
                              bool_decide (i ∈ selectedItems sc) = is_selected sc i).
  { intros i Hi. destruct (is_selected sc i) eqn:E.
    - apply bool_decide_eq_true_2. unfold selectedItems. apply list_elem_of_filter. auto.
    - apply bool_decide_eq_false_2. intros H. apply list_elem_of_filter in H as [H _].
      congruence. }
  exists sc'. split; [apply Hrun |]. split; [reflexivity |]. split; [exact Hsel |].
  split; [| split].
  - intros i b Hi Hb. rewrite Hlook.
    rewrite decide_True by (apply elem_of_items; split; [assumption | rewrite Hb; eauto]).
    rewrite Hb. cbn. rewrite (Hmemsel i Hi). eexists. split; [reflexivity |].
    destruct (is_selected sc i); repeat split.
  - intros i p Hp. rewrite Hlook, Hp. now destruct (decide (i ∈ items sc)).
  - rewrite Hrun. f_equal.
    assert (Hobjs : mutate_all (F sc') (items sc') (objs sc') = objs sc').
    { apply map_eq. intros i. rewrite (mutate_all_idem _ _ _ _ (Hid sc')).
      destruct (decide (i ∈ items sc')) as [Hi | Hi]; [| reflexivity].
      assert (HF : F sc' = F sc) by (unfold F; now rewrite Hsel).
      rewrite HF, Hlook.
      destruct (decide (i ∈ items sc)) as [Hi0 | Hi0].
      - destruct (objs sc !! i) as [it |]; [| reflexivity]. cbn. f_equal. apply Hid.
      - exfalso. apply Hi0. apply elem_of_items in Hi as [Hm [it Hit]].
        apply elem_of_items. split; [exact Hm |].
        rewrite Hlook in Hit. rewrite decide_False in Hit by assumption. eauto. }
    rewrite Hobjs. unfold sc'. reflexivity.
Qed.

End Highlight.

(* ===================================================================== *)
(** * The wheel                                                             *)
(* ===================================================================== *)

Section Wheel.
Import GraphicsViewEvents.




End Wheel.

(* ===================================================================== *)
(** * Export and import: targets and images                                 *)
(* ===================================================================== *)

Section RoundTripMore.
Import PickerToolEnums PyNum GraphicsSceneM GraphicsButtonM PickerWindowM.




Lemma load_shape_button_targets (z0 : option Q) (shape : Element)
    (b' : GraphicsButton) (acc : ShapeAcc) :
  load_shape_button z0 shape = Ok (b', acc) ->
  exists s, attrib_get "sel_objs" (attrib_of shape) = Ok s
            /\ sel_objs b' = split_names s
            /\ base b' = base_setFlags true true base0.
Proof.
  unfold load_shape_button.
  destruct (attrib_get "sel_objs" (attrib_of shape)) as [s |]; [| discriminate].
  cbn [res_bind].
  destruct (attrib_get "curr_shape" (attrib_of shape)) as [k |]; [| discriminate].
  cbn [res_bind].
  destruct (res_fold load_shape_attr (getchildren shape) _) as [a |]; [| discriminate].
  cbn [res_bind]. intros [= <- <-]. exists s. split; [reflexivity |].
  match goal with
  | |- context [update_polygon None ?b0] =>
      destruct (update_polygon_None_keeps b0) as (Hb & Hs & _)
  end.
  rewrite Hb, Hs. split; reflexivity.
Qed.





End RoundTripMore.

(* ===================================================================== *)
(** * Import: a shape element without a position                            *)
(* ===================================================================== *)

Section NoPosition.
Import PickerToolEnums PyNum GraphicsSceneM GraphicsButtonM PickerWindowM.

Lemma load_shape_attr_keeps (acc acc' : ShapeAcc) (attr : Element) :
  tag_of attr <> "pos" ->
  load_shape_attr acc attr = Ok acc' ->
  acc_pos acc' = acc_pos acc /\ acc_z acc' = acc_z acc.
Proof.
  intros Htag. unfold load_shape_attr.
  destruct (String.eqb (tag_of attr) "brush_col").
  { destruct (int_attr "R" attr); [| discriminate]. cbn [res_bind].
    destruct (int_attr "G" attr); [| discriminate]. cbn [res_bind].
    destruct (int_attr "B" attr); [| discriminate]. cbn [res_bind].
    intros [= <-]. now split. }
  destruct (String.eqb (tag_of attr) "text").
  { destruct (attrib_get "text" (attrib_of attr)); [| discriminate]. cbn [res_bind].
    intros [= <-]. now split. }
  destruct (String.eqb (tag_of attr) "set_rect").
  { destruct (int_attr "width" attr); [| discriminate]. cbn [res_bind].
    destruct (int_attr "height" attr); [| discriminate]. cbn [res_bind].
    intros [= <-]. now split. }
  destruct (String.eqb (tag_of attr) "curr_coords").
  { destruct (res_map load_point (getchildren attr)); [| discriminate]. cbn [res_bind].
    intros [= <-]. now split. }
  destruct (String.eqb (tag_of attr) "pos") eqn:E.
  { apply String.eqb_eq in E. contradiction. }
  intros [= <-]. now split.
Qed.

Lemma load_shape_attrs_keep (attrs : list Element) :
  (forall a, a ∈ attrs -> tag_of a <> "pos") ->
  forall acc acc',
    res_fold load_shape_attr attrs acc = Ok acc' ->
    acc_pos acc' = acc_pos acc /\ acc_z acc' = acc_z acc.
Proof.
  induction attrs as [| a attrs IH]; intros Hall acc acc'.
  - cbn. intros [= <-]. now split.
  - cbn [res_fold].
    destruct (load_shape_attr acc a) as [acc1 |] eqn:E; [| discriminate].
    cbn [res_bind]. intros H.
    destruct (load_shape_attr_keeps acc acc1 a (Hall a ltac:(left)) E) as [<- <-].
    apply IH; [| exact H]. intros x Hx. apply Hall. now right.
Qed.

Lemma load_shape_button_no_pos (z0 : option Q) (shape : Element)
    (b : GraphicsButton) (acc : ShapeAcc) :
  (forall a, a ∈ getchildren shape -> tag_of a <> "pos") ->
  load_shape_button z0 shape = Ok (b, acc) ->
  acc_pos acc = mkPoint 0 0 /\ acc_z acc = z0.
Proof.
  intros Hall. unfold load_shape_button.
  destruct (attrib_get "sel_objs" (attrib_of shape)); [| discriminate]. cbn [res_bind].
  destruct (attrib_get "curr_shape" (attrib_of shape)); [| discriminate]. cbn [res_bind].
  destruct (res_fold load_shape_attr (getchildren shape) _) as [accf |] eqn:E; [| discriminate].
  cbn [res_bind]. intros [= _ <-].
  apply (load_shape_attrs_keep _ Hall _ _ E).
Qed.

Lemma add_then_unbound (it : Item) (f : Item -> Item) (g : Q -> Item -> Item)
    (h : Item -> Item) (sc : GraphicsScene) :
  (let* j := addItem it in
   let* _ := mutate j f in
   let* z' := lift (read_z_val None) in
   let* _ := mutate j (g z') in
   mutate j h) sc
  = (Err UnboundLocalError, scene_add sc (f it)).
Proof.
  unfold bind, addItem, mutate, modify, lift, scene_add, with_objs. cbn.
  now rewrite !alter_insert_eq.
Qed.

(** X19: a shape element that has no [pos] child is read with the z-value
    left by the element read before it.  As the first element of a file it
    makes [load_xml_file] raise [UnboundLocalError], after the shape was
    added to the scene at the origin; after another element it is placed
    at the origin with that element's z-value. *)
Theorem shape_without_pos_reuses_z
    (w : PickerWindow) (idx : nat) (name : string) (sc : GraphicsScene)
    (shape : Element) :
  tabs w !! idx = Some (name, sc) ->
  (forall a, a ∈ getchildren shape -> tag_of a <> "pos") ->
  (forall b acc,
      load_shape_button None shape = Ok (b, acc) ->
      load_shape idx None shape w
      = (Err UnboundLocalError,
         with_tabs (<[idx := (name, scene_add sc (Button b))]> (tabs w)) w)
      /\ pos (base b) = mkPoint 0 0)
  /\ (forall z b acc,
        load_shape_button (Some z) shape = Ok (b, acc) ->
        exists b',
          load_shape idx (Some z) shape w
          = (Ok (Some z),
             with_tabs (<[idx := (name, scene_add sc (Button b'))]> (tabs w)) w)
          /\ pos (base b') = mkPoint 0 0
          /\ zValue (base b') = z
          /\ sel_objs b' = sel_objs b /\ set_rect b' = set_rect b).
Proof.
  intros Ht Hall. split.
  - intros b acc Hload.
    destruct (load_shape_button_no_pos None shape b acc Hall Hload) as [Hp Hz].
    destruct (load_shape_button_targets _ _ _ _ Hload) as (s & _ & _ & Hbase).
    split; [| now rewrite Hbase].
    unfold load_shape, bind at 1, get at 1. unfold bind at 1, lift at 1.
    rewrite Hload. cbv beta iota. unfold bind at 1, on_scene. rewrite Ht, Hz, Hp.
    rewrite add_then_unbound. do 4 f_equal.
    destruct b as [bb ? ? ? ? ? ? ? ? ? ? ? ?]. cbn in Hbase. subst bb. reflexivity.
  - intros z b acc Hload.
    destruct (load_shape_button_no_pos (Some z) shape b acc Hall Hload) as [Hp Hz].
    exists (with_base (base_setFlags true (edit_mode w))
              (with_base (base_setZValue z)
                 (with_base (base_setPos (mkPoint 0 0)) b))).
    split; [| repeat split].
    unfold load_shape, bind at 1, get at 1. unfold bind at 1, lift at 1.
    rewrite Hload. cbv beta iota. unfold bind at 1, on_scene. rewrite Ht, Hz, Hp.
    rewrite (add_then_place (Button b)
               (item_with_base (base_setPos (mkPoint 0 0)))
               (fun z' => item_with_base (base_setZValue z'))
               (item_with_base (base_setFlags true (edit_mode w))) z sc).
    reflexivity.
Qed.

(** The shape element of the example in a fresh tab. *)
Lemma shape_without_pos_reuses_z_witness :
  exists b acc,
    load_shape_button None posless_shape = Ok (b, acc)
    /\ load_shape 0 None posless_shape empty_tab_window
       = (Err UnboundLocalError,
          with_tabs (<[0%nat := ("default", scene_add GraphicsSceneM.empty (Button b))]>
                       (tabs empty_tab_window)) empty_tab_window).
Proof.
  eexists _, _. split; [vm_compute; reflexivity |].
  refine (proj1 (proj1 (shape_without_pos_reuses_z empty_tab_window 0%nat "default"
                          GraphicsSceneM.empty posless_shape eq_refl _) _ _ _)).
  - intros a Ha. cbn [getchildren posless_shape] in Ha.
    apply elem_of_cons in Ha as [-> | Ha]; [discriminate |].
    apply elem_of_cons in Ha as [-> | Ha]; [discriminate | inversion Ha].
  - vm_compute. reflexivity.
Defined.

End NoPosition.

(* ===================================================================== *)
(** * Import: what it leaves alone                                          *)
(* ===================================================================== *)

Section ImportFrame.
Import PickerToolEnums PyNum GraphicsSceneM GraphicsButtonM PickerWindowM.

Variable n : nat.

Lemma keeps_below_refl (w : PickerWindow) : keeps_below n w w.
Proof. unfold keeps_below. repeat split; reflexivity. Qed.

Lemma keeps_below_trans (w1 w2 w3 : PickerWindow) :
  keeps_below n w1 w2 -> keeps_below n w2 w3 -> keeps_below n w1 w3.
Proof.
  intros (H1 & H2 & H3 & H4 & H5 & H6 & H7 & H8 & H9)
         (G1 & G2 & G3 & G4 & G5 & G6 & G7 & G8 & G9).
  unfold keeps_below. repeat split; try congruence.
  - lia.
  - etransitivity; eassumption.
Qed.

Lemma keeps_bind {A B} (m : M PickerWindow A) (k : A -> M PickerWindow B) :
  keeps_first n m ->
  (forall a w w', (n <= length (tabs w))%nat -> m w = (Ok a, w') ->
                  keeps_below n w' (snd (k a w'))) ->
  keeps_first n (bind m k).
Proof.
  intros Hm Hk w Hw. specialize (Hm w Hw). unfold bind.
  destruct (m w) as [[a | e] w'] eqn:E; cbn [snd] in *; [| exact Hm].
  eapply keeps_below_trans; [exact Hm |]. now apply (Hk a w w').
Qed.

Lemma keeps_bind' {A B} (m : M PickerWindow A) (k : A -> M PickerWindow B) :
  keeps_first n m -> (forall a, keeps_first n (k a)) -> keeps_first n (bind m k).
Proof.
  intros Hm Hk. apply keeps_bind; [exact Hm |].
  intros a w w' Hw E. apply Hk.
  specialize (Hm w Hw). rewrite E in Hm. cbn in Hm.
  destruct Hm as (_ & Hl & _). lia.
Qed.

Lemma keeps_ret {A} (a : A) : keeps_first n (ret a).
Proof. intros w _. apply keeps_below_refl. Qed.

Lemma keeps_get : keeps_first n get.
Proof. intros w _. apply keeps_below_refl. Qed.

Lemma keeps_lift {A} (r : res A) : keeps_first n (lift r).
Proof. intros w _. apply keeps_below_refl. Qed.

Lemma keeps_raise {A} (e : exn) : keeps_first n (@raise PickerWindow A e).
Proof. intros w _. apply keeps_below_refl. Qed.

Lemma keeps_print (msg : string) : keeps_first n (print msg).
Proof.
  intros w _. unfold print, modify, keeps_below. cbn.
  repeat split; try reflexivity. now apply prefix_app_r.
Qed.

Lemma keeps_on_scene {A} (idx : nat) (m : M GraphicsScene A) :
  (n <= idx)%nat -> keeps_first n (on_scene idx m).
Proof.
  intros Hidx w _. unfold on_scene.
  destruct (tabs w !! idx) as [[name sc] |]; [| apply keeps_below_refl].
  destruct (m sc) as [r sc']. unfold keeps_below. cbn.
  repeat split; try reflexivity.
  - now apply take_insert_ge.
  - now rewrite length_insert.
Qed.

Lemma keeps_fold_M {A B} (body : B -> A -> M PickerWindow B) (xs : list A) :
  (forall acc x, keeps_first n (body acc x)) -> forall acc, keeps_first n (fold_M body xs acc).
Proof.
  intros Hbody. induction xs as [| x xs IH]; intros acc; cbn [fold_M].
  - apply keeps_ret.
  - apply keeps_bind'; [apply Hbody | apply IH].
Qed.

Lemma keeps_load_shape (idx : nat) (z : option Q) (shape : Element) :
  (n <= idx)%nat -> keeps_first n (load_shape idx z shape).
Proof.
  intros Hidx. unfold load_shape.
  apply keeps_bind'; [apply keeps_get |]. intros w0.
  apply keeps_bind'; [apply keeps_lift |]. intros [b acc].
  apply keeps_bind'; [now apply keeps_on_scene |]. intros _. apply keeps_ret.
Qed.

Lemma keeps_load_image (idx : nat) (image : Element) :
  (n <= idx)%nat -> keeps_first n (load_image idx image).
Proof.
  intros Hidx. unfold load_image.
  apply keeps_bind'; [apply keeps_get |]. intros w0.
  apply keeps_bind'; [apply keeps_lift |]. intros p.
  apply keeps_bind'; [apply keeps_lift |]. intros [new_pos z_val].
  destruct (negb (path_exists w0 p));
    (apply keeps_bind'; [now apply keeps_on_scene |]); intros _; apply keeps_ret.
Qed.

Lemma keeps_load_category (idx : nat) (z : option Q) (category : Element) :
  (n <= idx)%nat -> keeps_first n (load_category idx z category).
Proof.
  intros Hidx. unfold load_category.
  destruct (String.eqb (tag_of category) XML_BTN_CATEGORY).
  { apply keeps_fold_M. intros acc x. now apply keeps_load_shape. }
  destruct (String.eqb (tag_of category) XML_IMG_CATEGORY).
  { apply keeps_fold_M. intros acc x. now apply keeps_load_image. }
  apply keeps_ret.
Qed.

Lemma create_tab_cases (tab_name typed : string) (w : PickerWindow) :
  create_tab tab_name typed w = (Ok None, w)
  \/ exists name,
       create_tab tab_name typed w
       = (Ok (Some (length (tabs w))),
          with_curr_scene (Some (length (tabs w)))
            (with_tabs (tabs w ++ [(name, GraphicsSceneM.empty)]) w)).
Proof.
  unfold create_tab, bind, get, put, ret.
  destruct (is_empty tab_name); [destruct (is_empty typed) |]; eauto.
Qed.

Lemma keeps_create_tab (tab_name typed : string) : keeps_first n (create_tab tab_name typed).
Proof.
  intros w Hw. destruct (create_tab_cases tab_name typed w) as [-> | [name ->]].
  - apply keeps_below_refl.
  - unfold keeps_below. cbn. repeat split; try reflexivity.
    + now apply take_app_le.
    + rewrite length_app. lia.
Qed.

Lemma keeps_load_tab (z : option Q) (tab : Element) : keeps_first n (load_tab z tab).
Proof.
  unfold load_tab. apply keeps_bind; [apply keeps_create_tab |].
  intros [idx |] w w' Hw E.
  - assert (Hidx : (n <= idx)%nat).
    { destruct (create_tab_cases (tag_of tab) EmptyString w) as [H | [name H]];
        rewrite H in E; [discriminate | injection E as <- _; exact Hw]. }
    assert (Hw' : (n <= length (tabs w'))%nat).
    { pose proof (keeps_create_tab (tag_of tab) EmptyString w Hw) as K.
      rewrite E in K. destruct K as (_ & Hl & _). cbn in Hl. lia. }
    apply keeps_fold_M; [| exact Hw'].
    intros acc x. now apply keeps_load_category.
  - apply keeps_below_refl.
Qed.

Lemma keeps_load_xml_file (filename : string) : keeps_first n (load_xml_file filename).
Proof.
  unfold load_xml_file. destruct (is_empty filename); [apply keeps_ret |].
  apply keeps_bind'; [apply keeps_get |]. intros w0.
  apply keeps_bind'.
  { destruct (negb (path_exists w0 filename)); [apply keeps_print | apply keeps_ret]. }
  intros _. apply keeps_bind'.
  { unfold et_parse. apply keeps_bind'; [apply keeps_get |]. intros w1.
    destruct (disk w1 !! filename) as [[root |] |];
      [destruct (Xml.well_formed root); [apply keeps_ret | apply keeps_raise]
      | apply keeps_raise | apply keeps_raise]. }
  intros root. apply keeps_bind'.
  { apply keeps_fold_M. intros acc x. apply keeps_load_tab. }
  intros _. apply keeps_bind'; [apply keeps_print |]. intros _. apply keeps_ret.
Qed.

(** The rest of an import, from the tab elements not read yet. *)
Lemma keeps_import_rest (filename : string) (rest : list Element) (z : option Q) :
  keeps_first n (let* _ := fold_M load_tab rest z in
                 let* _ := print ("Loaded file: " +:+ filename) in
                 ret (Some filename)).
Proof.
  apply keeps_bind'.
  { apply keeps_fold_M. intros acc x. apply keeps_load_tab. }
  intros _. apply keeps_bind'; [apply keeps_print |]. intros _. apply keeps_ret.
Qed.

End ImportFrame.

Section ImportFrameResult.
Import PickerToolEnums PyNum GraphicsSceneM GraphicsButtonM PickerWindowM.

Lemma keeps_below_extended (w w' : PickerWindow) :
  keeps_below (length (tabs w)) w w' -> window_extended w w'.
Proof.
  intros (Ht & Hl & Hc & Hd & He & Hp & Hm & Hs & Hw).
  unfold window_extended. repeat split; try assumption.
  rewrite firstn_all in Ht. rewrite <- Ht. apply prefix_take.
Qed.

Lemma fold_M_app {S A B} (body : B -> A -> M S B) (xs ys : list A) :
  forall acc s,
    fold_M body (xs ++ ys) acc s
    = match fold_M body xs acc s with
      | (Ok acc', s') => fold_M body ys acc' s'
      | (Err e, s') => (Err e, s')
      end.
Proof.
  induction xs as [| x xs IH]; intros acc s; [reflexivity |].
  cbn [app fold_M]. unfold bind.
  destruct (body acc x s) as [[acc' | e] s']; [apply IH | reflexivity].
Qed.

(** An import whose first tab elements were read normally goes on from
    the window they left. *)
Lemma load_xml_file_resumes (filename : string) (w w1 : PickerWindow)
    (root : Element) (read rest : list Element) (z : option Q) :
  is_empty filename = false ->
  disk w !! filename = Some (XmlFile root) ->
  Xml.well_formed root = true ->
  getchildren (Xml.parsed root) = read ++ rest ->
  fold_M load_tab read None w = (Ok z, w1) ->
  load_xml_file filename w
  = (let* _ := fold_M load_tab rest z in
     let* _ := print ("Loaded file: " +:+ filename) in
     ret (Some filename)) w1.
Proof.
  intros Hne Hd Hwf Hch Hread. unfold load_xml_file. rewrite Hne.
  unfold bind at 1, get at 1. unfold path_exists.
  rewrite bool_decide_eq_true_2 by (rewrite Hd; eauto).
  cbn [negb]. unfold bind at 1, ret at 1.
  unfold bind at 1, et_parse, bind at 1, get at 1. rewrite Hd, Hwf.
  unfold ret at 1. rewrite Hch.
  unfold bind at 1. rewrite fold_M_app, Hread.
  unfold bind at 3. reflexivity.
Qed.

(** X20: whatever the file and however the import ends, normally or with
    an exception, [load_xml_file] leaves the existing tabs, the disk, the
    edit mode, the preview item and the settings as they are: it only
    appends tabs and console lines (and may move the current tab).  Tabs
    read before an exception stay: when the first tab elements of the file
    are read normally, the import, however it ends, only appends to the
    window they left. *)
Theorem load_xml_file_only_appends (filename : string) (w : PickerWindow) :
  window_extended w (snd (load_xml_file filename w))
  /\ (forall (root : Element) (read rest : list Element) (z : option Q)
             (w1 : PickerWindow),
        is_empty filename = false ->
        disk w !! filename = Some (XmlFile root) ->
        Xml.well_formed root = true ->
        getchildren (Xml.parsed root) = read ++ rest ->
        fold_M load_tab read None w = (Ok z, w1) ->
        window_extended w1 (snd (load_xml_file filename w))).
Proof.
  split.
  - apply keeps_below_extended.
    exact (keeps_load_xml_file (length (tabs w)) filename w (le_n _)).
  - intros root read rest z w1 Hne Hd Hwf Hch Hread.
    rewrite (load_xml_file_resumes filename w w1 root read rest z Hne Hd Hwf Hch Hread).
    apply keeps_below_extended.
    exact (keeps_import_rest (length (tabs w1)) filename rest z w1 (le_n _)).
Qed.

(** An import that raises in its second tab: the first tab stays. *)
Lemma load_xml_file_only_appends_witness :
  fst (load_xml_file "/home/rigger/broken.xml" broken_import_window) = Err KeyError
  /\ exists w1,
       fold_M load_tab [Elem "body" [] []] None broken_import_window = (Ok None, w1)
       /\ tabs w1 = [("body", GraphicsSceneM.empty)]
       /\ window_extended w1
            (snd (load_xml_file "/home/rigger/broken.xml" broken_import_window)).
Proof.
  split; [vm_compute; reflexivity |].
  eexists. split; [vm_compute; reflexivity |].
  split; [vm_compute; reflexivity |].
  apply (proj2 (load_xml_file_only_appends "/home/rigger/broken.xml"
                  broken_import_window)
           (Elem "root" []
              [Elem "body" [] [];
               Elem "face" [] [Elem "SHAPES" [] [Elem "shape_01" [] []]]])
           [Elem "body" [] []]
           [Elem "face" [] [Elem "SHAPES" [] [Elem "shape_01" [] []]]]
           None);
    vm_compute; reflexivity.
Defined.

End ImportFrameResult.

(* ===================================================================== *)
(** * Import: the flags of the items read                                   *)
(* ===================================================================== *)

Section ImportFlags.
Import PickerToolEnums PyNum GraphicsSceneM GraphicsButtonM PickerWindowM.

Variable n : nat.
Variable e : bool.

Lemma bind_ok {S A B} (m : M S A) (k : A -> M S B) (s s'' : S) (b : B) :
  bind m k s = (Ok b, s'') ->
  exists a s', m s = (Ok a, s') /\ k a s' = (Ok b, s'').
Proof.
  unfold bind. destruct (m s) as [[a | x] s']; [eauto | discriminate].
Qed.

Lemma fold_M_ok {S A B} (J : S -> Prop) (body : B -> A -> M S B) :
  (forall acc x s acc' s', J s -> body acc x s = (Ok acc', s') -> J s') ->
  forall xs acc s r s', J s -> fold_M body xs acc s = (Ok r, s') -> J s'.
Proof.
  intros Hbody. induction xs as [| x xs IH]; intros acc s r s' HJ; cbn [fold_M].
  - unfold ret. now intros [= _ <-].
  - intros H. apply bind_ok in H as (acc1 & s1 & H1 & H2).
    eapply IH; [| exact H2]. eapply Hbody; eassumption.
Qed.

Lemma scene_loaded_empty : scene_loaded e GraphicsSceneM.empty.
Proof. split; intros i Hi; inversion Hi. Qed.

Lemma scene_loaded_add (sc : GraphicsScene) (it : Item) :
  scene_loaded e sc -> loaded_flags e it -> scene_loaded e (scene_add sc it).
Proof.
  intros [Hids Hall] Hit. unfold scene_add, addItem. cbn [snd]. split.
  - intros i Hi. cbn [members next_id] in *.
    apply elem_of_app in Hi as [Hi | Hi]; [specialize (Hids i Hi); lia |].
    apply list_elem_of_singleton in Hi as ->. lia.
  - intros i Hi. cbn [members objs] in *.
    apply elem_of_app in Hi as [Hi | Hi].
    + destruct (Hall i Hi) as (it0 & H0 & Hf). exists it0. split; [| exact Hf].
      rewrite lookup_insert_ne; [exact H0 |]. specialize (Hids i Hi). lia.
    + apply list_elem_of_singleton in Hi as ->. exists it. split; [| exact Hit].
      apply lookup_insert_eq.
Qed.

Lemma tabs_loaded_insert (w : PickerWindow) (idx : nat) (name : string)
    (sc sc' : GraphicsScene) :
  tabs w !! idx = Some (name, sc) ->
  (scene_loaded e sc -> scene_loaded e sc') ->
  tabs_loaded n e w ->
  tabs_loaded n e (with_tabs (<[idx := (name, sc')]> (tabs w)) w).
Proof.
  intros Ht Hsc (He & Hn & Hall). split; [exact He |]. cbn [tabs with_tabs].
  split; [now rewrite length_insert |].
  intros idx' name' sc0 Hidx H.
  destruct (decide (idx' = idx)) as [-> | Hne].
  - rewrite list_lookup_insert_eq in H by (eapply lookup_lt_Some; eassumption).
    injection H as <- <-. apply Hsc. now apply (Hall idx name sc).
  - rewrite list_lookup_insert_ne in H by congruence. now apply (Hall idx' name' sc0).
Qed.

Lemma load_shape_loaded (idx : nat) (z : option Q) (shape : Element)
    (w w' : PickerWindow) (r : option Q) :
  tabs_loaded n e w ->
  load_shape idx z shape w = (Ok r, w') ->
  tabs_loaded n e w'.
Proof.
  intros HJ. unfold load_shape, bind at 1, get at 1. unfold bind at 1, lift at 1.
  destruct (load_shape_button z shape) as [[b acc] |] eqn:Hload; [| discriminate].
  cbv beta iota. unfold bind at 1, on_scene.
  destruct (tabs w !! idx) as [[name sc] |] eqn:Ht; [| discriminate].
  destruct (acc_z acc) as [zv |] eqn:Hz.
  - rewrite (add_then_place (Button b)
               (item_with_base (base_setPos (acc_pos acc)))
               (fun z' => item_with_base (base_setZValue z'))
               (item_with_base (base_setFlags true (edit_mode w))) zv sc).
    unfold ret. intros [= _ <-].
    apply (tabs_loaded_insert w idx name sc _ Ht); [| exact HJ].
    intros Hsc. apply scene_loaded_add; [exact Hsc |].
    destruct (load_shape_button_targets _ _ _ _ Hload) as (s & _ & _ & Hbase).
    destruct HJ as (He & _). unfold loaded_flags. cbn. rewrite Hbase, He. now cbn.
  - rewrite add_then_unbound. discriminate.
Qed.

Lemma load_image_loaded (idx : nat) (image : Element)
    (w w' : PickerWindow) (r : option Q) :
  tabs_loaded n e w ->
  load_image idx image w = (Ok r, w') ->
  tabs_loaded n e w'.
Proof.
  intros HJ. unfold load_image, bind at 1, get at 1. unfold bind at 1, lift at 1.
  destruct (attrib_get "filepath" (attrib_of image)) as [p |]; [| discriminate].
  unfold bind at 1, lift at 1.
  destruct (res_fold load_image_attr (getchildren image) _) as [[new_pos z_val] |];
    [| discriminate].
  cbv beta iota.
  destruct (negb (path_exists w p)); cbv beta iota;
    unfold bind at 1, on_scene;
    (destruct (tabs w !! idx) as [[name sc] |] eqn:Ht; [| discriminate]);
    rewrite add_then_mutate; unfold ret; intros [= _ <-];
    (apply (tabs_loaded_insert w idx name sc _ Ht); [| exact HJ]);
    intros Hsc; (apply scene_loaded_add; [exact Hsc |]);
    unfold loaded_flags; now cbn.
Qed.

Lemma load_category_loaded (idx : nat) (z : option Q) (category : Element)
    (w w' : PickerWindow) (r : option Q) :
  tabs_loaded n e w ->
  load_category idx z category w = (Ok r, w') ->
  tabs_loaded n e w'.
Proof.
  intros HJ. unfold load_category.
  destruct (String.eqb (tag_of category) XML_BTN_CATEGORY).
  { apply (fold_M_ok (tabs_loaded n e)); [| exact HJ].
    intros acc x s acc' s' Hs. now apply load_shape_loaded. }
  destruct (String.eqb (tag_of category) XML_IMG_CATEGORY).
  { apply (fold_M_ok (tabs_loaded n e)); [| exact HJ].
    intros acc x s acc' s' Hs. now apply load_image_loaded. }
  unfold ret. now intros [= _ <-].
Qed.

Lemma load_tab_loaded (z : option Q) (tab : Element)
    (w w' : PickerWindow) (r : option Q) :
  tabs_loaded n e w ->
  load_tab z tab w = (Ok r, w') ->
  tabs_loaded n e w'.
Proof.
  intros HJ. unfold load_tab. intros H.
  apply bind_ok in H as (new_idx & w1 & Hc & Hrest).
  assert (HJ1 : tabs_loaded n e w1).
  { destruct (create_tab_cases (tag_of tab) EmptyString w) as [E | [name E]];
      rewrite E in Hc; injection Hc as _ <-; [exact HJ |].
    destruct HJ as (He & Hn & Hall). split; [exact He |]. cbn [tabs with_tabs with_curr_scene].
    split; [rewrite length_app; lia |].
    intros idx' name' sc0 Hidx Hl.
    apply lookup_app_Some in Hl as [Hl | [Hge Hl]]; [now apply (Hall idx' name' sc0) |].
    apply list_lookup_singleton_Some in Hl as [_ [= _ <-]]. apply scene_loaded_empty. }
  destruct new_idx as [idx |]; [| discriminate].
  revert Hrest. apply (fold_M_ok (tabs_loaded n e)); [| exact HJ1].
  intros acc x s acc' s' Hs. now apply load_category_loaded.
Qed.

Lemma load_xml_file_loaded (filename : string) (w w' : PickerWindow)
    (r : option string) :
  tabs_loaded n e w ->
  load_xml_file filename w = (Ok r, w') ->
  tabs_loaded n e w'.
Proof.
  intros HJ. unfold load_xml_file.
  destruct (is_empty filename); [unfold ret; now intros [= _ <-] |].
  unfold bind at 1, get at 1. intros H.
  apply bind_ok in H as (u & w1 & H1 & H).
  assert (HJ1 : tabs_loaded n e w1).
  { destruct (negb (path_exists w filename)).
    - unfold print, modify in H1. injection H1 as _ <-. exact HJ.
    - unfold ret in H1. injection H1 as _ <-. exact HJ. }
  apply bind_ok in H as (root & w2 & H2 & H).
  assert (HJ2 : tabs_loaded n e w2).
  { unfold et_parse, bind, get in H2.
    destruct (disk w1 !! filename) as [[root0 |] |]; try discriminate.
    destruct (Xml.well_formed root0); [| discriminate].
    unfold ret in H2. injection H2 as _ <-. exact HJ1. }
  apply bind_ok in H as (z & w3 & H3 & H).
  assert (HJ3 : tabs_loaded n e w3).
  { revert H3. apply (fold_M_ok (tabs_loaded n e)); [| exact HJ2].
    intros acc x s acc' s' Hs. now apply load_tab_loaded. }
  apply bind_ok in H as (u' & w4 & H4 & H).
  unfold print, modify in H4. injection H4 as _ <-.
  unfold ret in H. injection H as _ <-. exact HJ3.
Qed.

End ImportFlags.

Section ImportFlagsResult.
Import PickerToolEnums PyNum GraphicsSceneM GraphicsButtonM PickerWindowM.

(** X21: when [load_xml_file] returns normally, every item of the tabs it
    appended is selectable and not selected; a shape is movable exactly
    when the window is in edit mode, but an image is movable whatever the
    edit mode. *)
Theorem imported_items_flags (filename : string) (w : PickerWindow)
    (r : option string) :
  fst (load_xml_file filename w) = Ok r ->
  forall idx name sc,
    (length (tabs w) <= idx)%nat ->
    tabs (snd (load_xml_file filename w)) !! idx = Some (name, sc) ->
    forall i, i ∈ members sc ->
      exists it, objs sc !! i = Some it /\ loaded_flags (edit_mode w) it.
Proof.
  intros Hok idx name sc Hidx Ht i Hi.
  destruct (load_xml_file filename w) as [r0 w'] eqn:E. cbn [fst snd] in *. subst r0.
  assert (HJ : tabs_loaded (length (tabs w)) (edit_mode w) w).
  { split; [reflexivity |]. split; [lia |].
    intros idx' name' sc0 Hge Hl. apply lookup_lt_Some in Hl. lia. }
  destruct (load_xml_file_loaded _ _ filename w w' r HJ E) as (_ & _ & Hall).
  destruct (Hall idx name sc Hidx Ht) as [_ Hsc]. now apply Hsc.
Qed.

(** An import into a window that is not in edit mode. *)
Lemma imported_items_flags_witness :
  fst (load_xml_file "/home/rigger/biped.xml" locked_import_window)
  = Ok (Some "/home/rigger/biped.xml")
  /\ forall idx name sc,
       (length (tabs locked_import_window) <= idx)%nat ->
       tabs (snd (load_xml_file "/home/rigger/biped.xml" locked_import_window)) !! idx
       = Some (name, sc) ->
       forall i, i ∈ members sc ->
         exists it, objs sc !! i = Some it
                    /\ loaded_flags (edit_mode locked_import_window) it.
Proof.
  split; [vm_compute; reflexivity |].
  apply (imported_items_flags "/home/rigger/biped.xml" locked_import_window
           (Some "/home/rigger/biped.xml")).
  vm_compute. reflexivity.
Defined.

End ImportFlagsResult.

(* ===================================================================== *)
(** * The export dialog and the export                                      *)
(* ===================================================================== *)

Section SaveDialog.
Import PickerToolEnums PyNum GraphicsSceneM GraphicsButtonM PickerWindowM SaveTabsDialogM.

Lemma alter_all_lookup (g : bool -> bool) (l : list nat) (rows : list bool) (i : nat) :
  (forall c, g (g c) = g c) ->
  fold_left (fun r j => alter g j r) l rows !! i
  = if decide (i ∈ l) then g <$> rows !! i else rows !! i.
Proof.
  intros Hg. revert rows. induction l as [| a l IH]; intros rows; cbn [fold_left].
  - destruct (decide (i ∈ [])) as [H | H]; [inversion H | reflexivity].
  - rewrite IH. destruct (decide (i = a)) as [-> | Hne].
    + rewrite list_lookup_alter_eq.
      destruct (decide (a ∈ a :: l)) as [_ | H]; [| exfalso; apply H; left].
      destruct (decide (a ∈ l)); [| reflexivity].
      destruct (rows !! a); cbn; [now rewrite Hg | reflexivity].
    + rewrite list_lookup_alter_ne by congruence.
      destruct (decide (i ∈ l)) as [H | H];
        destruct (decide (i ∈ a :: l)) as [H' | H']; try reflexivity.
      * exfalso. apply H'. now right.
      * apply elem_of_cons in H' as [? | ?]; contradiction.
Qed.

Lemma alter_all_length (g : bool -> bool) (l : list nat) (rows : list bool) :
  length (fold_left (fun r j => alter g j r) l rows) = length rows.
Proof.
  revert rows. induction l as [| a l IH]; intros rows; [reflexivity |].
  cbn [fold_left]. now rewrite IH, length_alter.
Qed.

Lemma alter_all_rows (g : bool -> bool) (v : bool) (rows : list bool) :
  (forall c, g c = v) ->
  fold_left (fun r j => alter g j r) (seq 0 (length rows)) rows
  = replicate (length rows) v.
Proof.
  intros Hg.
  apply (list_eq_same_length _ _ (length rows));
    [apply length_replicate | apply alter_all_length |].
  intros i x y Hi Hx Hy.
  apply lookup_replicate in Hy as [-> _].
  rewrite alter_all_lookup in Hx by (intros c; now rewrite !Hg).
  rewrite decide_True in Hx by (apply elem_of_seq; lia).
  destruct (rows !! i); cbn in Hx; [| discriminate].
  injection Hx as <-. apply Hg.
Qed.

Lemma save_as_filter (rows : list bool) :
  save_as rows = filter (fun i => rows !! i = Some true) (seq 0 (length rows)).
Proof.
  unfold save_as.
  assert (H : forall l acc,
             fold_left (fun send_list item_row =>
                          if default false (rows !! item_row)
                          then send_list ++ [item_row] else send_list) l acc
             = acc ++ filter (fun i => rows !! i = Some true) l).
  { induction l as [| a l IH]; intros acc; cbn [fold_left].
    - now rewrite app_nil_r.
    - rewrite IH, filter_cons.
      destruct (rows !! a) as [[|] |] eqn:E; cbn [default from_option id].
      + rewrite decide_True by reflexivity. now rewrite <- app_assoc.
      + rewrite decide_False by discriminate. reflexivity.
      + rewrite decide_False by discriminate. reflexivity. }
  apply H.
Qed.

Lemma init_gui_rows (tab_count : nat) : init_gui tab_count = replicate tab_count true.
Proof.
  unfold init_gui.
  assert (H : forall l acc,
             fold_left (fun rows (_ : nat) => rows ++ [true]) l acc
             = acc ++ replicate (length l) true).
  { induction l as [| a l IH]; intros acc; cbn [fold_left length replicate].
    - now rewrite app_nil_r.
    - rewrite IH, <- app_assoc. reflexivity. }
  rewrite H, length_seq. reflexivity.
Qed.

(** X22: in the export dialog, Check All checks every row and Uncheck All
    unchecks every row, but on a dialog opened without any tab both raise
    [TypeError]; Save emits the checked rows in increasing order, which
    for a dialog just opened are all the tabs. *)
Theorem save_tabs_dialog_checks (rows : list bool) :
  (rows = [] ->
   check_all_clicked rows = Err TypeError /\ uncheck_all_clicked rows = Err TypeError)
  /\ (rows <> [] ->
      check_all_clicked rows = Ok (replicate (length rows) true)
      /\ uncheck_all_clicked rows = Ok (replicate (length rows) false))
  /\ save_as rows = filter (fun i => rows !! i = Some true) (seq 0 (length rows))
  /\ (forall tab_count, save_as (init_gui tab_count) = seq 0 tab_count).
Proof.
  split; [| split; [| split]].
  - intros ->. split; reflexivity.
  - intros Hne. unfold check_all_clicked, uncheck_all_clicked, verify_tree.
    destruct rows as [| c rows]; [congruence |].
    cbn [length Nat.ltb Nat.leb Nat.eqb]. split; f_equal.
    + apply (alter_all_rows _ true (c :: rows)). now intros [|].
    + apply (alter_all_rows _ false (c :: rows)). now intros [|].
  - apply save_as_filter.
  - intros k. rewrite save_as_filter, init_gui_rows, length_replicate.
    apply filter_all. intros i Hi. apply elem_of_seq in Hi.
    apply lookup_replicate_2. lia.
Qed.

Lemma save_tabs_valid (w : PickerWindow) (l : list nat) :
  Forall (fun i => (i < length (tabs w))%nat) l ->
  exists els,
    res_map (fun tab_index =>
               match tabs w !! tab_index with
               | Some (tab_name, tab_scene) => Ok (save_tab tab_name (scene_items tab_scene))
               | None => Err KeyError
               end) l = Ok els
    /\ Forall2 (fun i el => exists name sc,
                    tabs w !! i = Some (name, sc)
                    /\ el = save_tab name (scene_items sc)) l els.
Proof.
  induction l as [| a l IH]; intros Hall.
  - exists []. split; [reflexivity | constructor].
  - apply Forall_cons in Hall as [Ha Hl]. destruct (IH Hl) as (els & Hr & Hf).
    destruct (lookup_lt_is_Some_2 _ _ Ha) as [[name sc] Hn].
    exists (save_tab name (scene_items sc) :: els). split.
    + cbn [res_map]. rewrite Hn. cbn [res_bind]. rewrite Hr. reflexivity.
    + constructor; [eauto | exact Hf].
Qed.

Lemma save_tabs_invalid (w : PickerWindow) (l : list nat) :
  ~ Forall (fun i => (i < length (tabs w))%nat) l ->
  res_map (fun tab_index =>
             match tabs w !! tab_index with
             | Some (tab_name, tab_scene) => Ok (save_tab tab_name (scene_items tab_scene))
             | None => Err KeyError
             end) l = Err KeyError.
Proof.
  induction l as [| a l IH]; intros Hall.
  - exfalso. apply Hall. constructor.
  - cbn [res_map]. destruct (tabs w !! a) as [[name sc] |] eqn:E; [| reflexivity].
    cbn [res_bind]. rewrite IH; [reflexivity |].
    intros Hl. apply Hall. constructor; [| exact Hl].
    eapply lookup_lt_Some. exact E.
Qed.

(** X23: [save_xml_file] does nothing when the file dialog is cancelled;
    with a file name and valid tab indices it writes one element per
    index, in order, under that name only, prints a line and leaves every
    tab as it is; with an index that is not a tab it raises [KeyError]
    and writes nothing.  The indices the export dialog emits for the
    tabs of the window are always valid. *)
Theorem save_xml_file_outcomes
    (filename : string) (l : list nat) (w : PickerWindow) (rows : list bool) :
  length rows = length (tabs w) ->
  (is_empty filename = true -> save_xml_file filename l w = (Ok None, w))
  /\ (is_empty filename = false ->
      Forall (fun i => (i < length (tabs w))%nat) l ->
      exists els,
        save_xml_file filename l w
        = (Ok (Some filename),
           with_console (console w ++ ["Saved to: " +:+ filename])
             (with_disk (<[filename := XmlFile (Elem "root" [] els)]> (disk w)) w))
        /\ Forall2 (fun i el => exists name sc,
                        tabs w !! i = Some (name, sc)
                        /\ el = save_tab name (scene_items sc)) l els)
  /\ (is_empty filename = false ->
      ~ Forall (fun i => (i < length (tabs w))%nat) l ->
      save_xml_file filename l w = (Err KeyError, w))
  /\ Forall (fun i => (i < length (tabs w))%nat) (save_as rows).
Proof.
  intros Hrows. split; [| split; [| split]].
  - intros He. unfold save_xml_file. now rewrite He.
  - intros He Hall. destruct (save_tabs_valid w l Hall) as (els & Hr & Hf).
    exists els. split; [| exact Hf].
    unfold save_xml_file. rewrite He.
    unfold bind at 1, get at 1. unfold bind at 1, lift at 1. rewrite Hr. reflexivity.
  - intros He Hall. unfold save_xml_file. rewrite He.
    unfold bind at 1, get at 1. unfold bind at 1, lift at 1.
    now rewrite (save_tabs_invalid w l Hall).
  - rewrite save_as_filter. apply Forall_forall. intros i Hi.
    apply list_elem_of_filter in Hi as [_ Hi]. apply elem_of_seq in Hi. lia.
Qed.

(** The export of the first and the last of three tabs. *)
Lemma save_xml_file_outcomes_witness :
  exists els,
    save_xml_file "/home/rigger/biped.xml" (save_as [true; false; true]) three_tabs_window
    = (Ok (Some "/home/rigger/biped.xml"),
       with_console (console three_tabs_window ++ ["Saved to: /home/rigger/biped.xml"])
         (with_disk (<["/home/rigger/biped.xml" := XmlFile (Elem "root" [] els)]>
                       (disk three_tabs_window)) three_tabs_window))
    /\ Forall2 (fun i el => exists name sc,
                    tabs three_tabs_window !! i = Some (name, sc)
                    /\ el = save_tab name (scene_items sc))
               (save_as [true; false; true]) els.
Proof.
  pose proof (save_xml_file_outcomes "/home/rigger/biped.xml" (save_as [true; false; true])
                three_tabs_window [true; false; true] eq_refl) as (_ & H & _ & Hv).
  apply H; [reflexivity | exact Hv].
Defined.

End SaveDialog.

(* ===================================================================== *)
(** * The edit mode                                                         *)
(* ===================================================================== *)

Section EditMode.
Import PickerToolEnums GraphicsSceneM GraphicsButtonM PickerWindowM PickerWindowModes.

Lemma set_item_flags_idem (e : bool) (it : Item) :
  set_item_flags e (set_item_flags e it) = set_item_flags e it.
Proof.
  destruct it as [b | p]; cbn; [reflexivity |].
  unfold pixmap_set_edit_mode. cbn. now destruct (selected (pm_base p)), e.
Qed.

(** X24: [toggle_edit_mode] flips the edit mode and then, in every tab,
    makes every shape of the scene selectable, and movable exactly in
    edit mode, and every image selectable and movable exactly in edit
    mode; an image that stops being selectable is deselected.  Positions,
    z-values and the set of items do not change. *)
Theorem toggle_edit_mode_sets_flags (w : PickerWindow) :
  exists w',
    toggle_edit_mode w = (Ok tt, w')
    /\ edit_mode w' = negb (edit_mode w)
    /\ length (tabs w') = length (tabs w)
    /\ forall idx name sc,
         tabs w !! idx = Some (name, sc) ->
         exists sc',
           tabs w' !! idx = Some (name, sc')
           /\ members sc' = members sc
           /\ forall i it, i ∈ members sc -> objs sc !! i = Some it ->
                exists it',
                  objs sc' !! i = Some it'
                  /\ pos (item_base it') = pos (item_base it)
                  /\ zValue (item_base it') = zValue (item_base it)
                  /\ movable (item_base it') = edit_mode w'
                  /\ match it, it' with
                     | Button b, Button b' =>
                         selectable (base b') = true
                         /\ selected (base b') = selected (base b)
                         /\ with_base (fun _ => base b) b' = b
                     | Pixmap p, Pixmap p' =>
                         selectable (pm_base p') = edit_mode w'
                         /\ selected (pm_base p') = (selected (pm_base p) && edit_mode w')
                         /\ file_path p' = file_path p
                     | _, _ => False
                     end.
Proof.
  eexists. split; [reflexivity |]. cbn [edit_mode with_edit_mode with_tabs tabs].
  split; [reflexivity |]. split; [apply length_map |].
  intros idx name sc Ht. eexists. split.
  - rewrite list_lookup_fmap, Ht. reflexivity.
  - cbn [members with_objs objs fst snd]. split; [reflexivity |].
    intros i it Hi Hit.
    set (F := fun _ : nat => set_item_flags (negb (edit_mode w))).
    change (fold_left _ (items sc) (objs sc)) with (mutate_all F (items sc) (objs sc)).
    rewrite (mutate_all_idem F (items sc) (objs sc) i
               (fun j it => set_item_flags_idem (negb (edit_mode w)) it)).
    rewrite decide_True by (apply elem_of_items; split; [assumption | rewrite Hit; eauto]).
    rewrite Hit. eexists. split; [reflexivity |].
    destruct it as [b | p]; cbn; repeat split. now destruct b.
Qed.

End EditMode.
